(** * Profile-point extraction and terrain analysis of [vpc_profile_analyzer.py]

    A shallow embedding of the data pipeline of [VPCProfileAnalyzer]:
    [create_elevation_profile], [get_profile_line],
    [extract_profile_points], [analyze_points] with the refreshes of the
    display it calls, [compute_basic_statistics],
    [compute_terrain_analysis], [compute_roughness_analysis] and
    [update_data_table].

    Python floats are idealised as real numbers: every arithmetic
    operation is exact, and the places where Python or numpy leave real
    arithmetic (a division by zero) are modelled by the exception they
    raise.  The calls into the host (QGIS geometry) and into numpy are
    modelled by exact planar geometry and exact least squares; each model
    states in its comment which host call it stands for. *)

From Stdlib Require Import Reals Lra Lia ZArith Bool String List Permutation.
Import ListNotations.
Local Open Scope R_scope.

(** ** Tests on real numbers *)

Definition Rltb (a b : R) : bool := if Rlt_dec a b then true else false.
Definition Rleb (a b : R) : bool := if Rle_dec a b then true else false.
Definition Reqb (a b : R) : bool := if Req_dec_T a b then true else false.

(** ** Python values, exceptions and dictionaries *)

Module Py.

(** An exception, identified by the name of its class. *)
Inductive exn : Type := Exc (cls : string).

Inductive result (A : Type) : Type :=
| Ok (a : A)
| Raise (e : exn).
Arguments Ok {A} a.
Arguments Raise {A} e.

Definition KeyError : exn := Exc "KeyError".
Definition TypeError : exn := Exc "TypeError".
Definition ZeroDivisionError : exn := Exc "ZeroDivisionError".
Definition LinAlgError : exn := Exc "LinAlgError".

(** The values stored in the result dictionaries. *)
#[local] Unset Elimination Schemes.
Inductive pyval : Type :=
| PInt (n : Z)
| PFloat (r : R)
| PList (l : list R)
| PDict (d : list (string * pyval)).
#[local] Set Elimination Schemes.

(** A [dict] with string keys, in insertion order. *)
Definition dict : Type := list (string * pyval).

Fixpoint dict_get (k : string) (d : dict) : option pyval :=
  match d with
  | [] => None
  | (k', v) :: d' => if String.eqb k k' then Some v else dict_get k d'
  end.

(** [d[k] = v]: replaces the value of an existing key, else appends. *)
Fixpoint dict_set (k : string) (v : pyval) (d : dict) : dict :=
  match d with
  | [] => [(k, v)]
  | (k', v') :: d' =>
      if String.eqb k k' then (k', v) :: d' else (k', v') :: dict_set k v d'
  end.

(** [d.update(e)] *)
Definition dict_update (d e : dict) : dict :=
  fold_left (fun acc kv => dict_set (fst kv) (snd kv) acc) e d.

Definition dict_has (k : string) (d : dict) : bool :=
  match dict_get k d with Some _ => true | None => false end.

Definition keys (d : dict) : list string := map fst d.

(** [x / y] on floats. *)
Definition truediv (x y : R) : result R :=
  if Reqb y 0 then Raise ZeroDivisionError else Ok (x / y).

(** [int(x)]: truncation towards zero. *)
Definition int (x : R) : Z :=
  if Rleb 0 x then Int_part x else (- Int_part (- x))%Z.

(** [max(l)] and [min(l)] for a non-empty [l = x :: t]. *)
Definition max_of (x : R) (t : list R) : R := fold_left Rmax t x.
Definition min_of (x : R) (t : list R) : R := fold_left Rmin t x.

(** [max(l)] and [min(l)].  On an empty list Python raises [ValueError];
    every call of the program is guarded by a test that the list is not
    empty, and the model gives 0 there. *)
Definition pymax (l : list R) : R :=
  match l with [] => 0 | x :: t => max_of x t end.
Definition pymin (l : list R) : R :=
  match l with [] => 0 | x :: t => min_of x t end.

(** [v if l else 0] *)
Definition if_nonempty (l : list R) (v : R) : pyval :=
  match l with [] => PInt 0 | _ :: _ => PFloat v end.

(** [math.degrees] *)
Definition degrees (x : R) : R := x * (180 / PI).

End Py.

Import Py.

(** ** numpy *)

Module Np.

Definition sum (l : list R) : R := fold_right Rplus 0 l.

(** [np.mean] of a non-empty sequence: the exact mean, of which numpy
    returns a rounding. *)
Definition mean (l : list R) : R := sum l / INR (List.length l).

(** [np.std]: the exact population standard deviation, of which numpy
    returns a rounding. *)
Definition std (l : list R) : R :=
  sqrt (mean (map (fun v => (v - mean l) * (v - mean l)) l)).

(** [np.polyfit(x, y, 1)].  numpy solves the least-squares problem
    for the columns [x] and [1], each divided by its Euclidean norm,
    with [lstsq], and divides the solution by the norms again.
    - When [x] is all zeros (or empty) the norm of the first column is
      0, the scaled column is 0/0 and [lstsq] fails with [LinAlgError].
    - When all [x] are equal to one [d <> 0] the two scaled columns are
      parallel and [lstsq] returns the solution of least norm of the
      scaled system, which is [mean y / (2 d)] for the slope and
      [mean y / 2] for the intercept.
    - Otherwise the solution is unique, given by the normal equations,
      whose determinant is [normal_det].
    The result is [(coeffs[0], coeffs[1])], slope first; the model gives
    the exact solution, of which numpy returns a rounding. *)
Definition normal_det (x : list R) : R :=
  INR (List.length x) * sum (map (fun v => v * v) x) - sum x * sum x.

Definition polyfit1 (x y : list R) : result (R * R) :=
  let n := INR (List.length x) in
  let sx := sum x in
  let sy := sum y in
  let sxx := sum (map (fun v => v * v) x) in
  let sxy := sum (map (fun p => fst p * snd p) (combine x y)) in
  let det := normal_det x in
  if Reqb sxx 0 then Raise LinAlgError
  else if Reqb det 0 then Ok (mean y / (2 * mean x), mean y / 2)
  else Ok ((n * sxy - sx * sy) / det, (sxx * sy - sx * sxy) / det).

(** [np.polyval(coeffs, v)] for two coefficients (Horner). *)
Definition polyval (coeffs : R * R) (v : R) : R :=
  fst coeffs * v + snd coeffs.

(** The sum of squared residuals of the line [a * x + b]. *)
Definition sse (x y : list R) (a b : R) : R :=
  sum (map (fun p => (snd p - (a * fst p + b)) * (snd p - (a * fst p + b)))
           (combine x y)).

End Np.

(** ** The host's planar geometry *)

Module Qgis.

Definition point : Type := (R * R)%type.

(** A line string, as its vertices in order. *)
Definition polyline : Type := list point.

Definition sqrDist (p q : point) : R :=
  (fst p - fst q) * (fst p - fst q) + (snd p - snd q) * (snd p - snd q).

(** [QgsGeometry.closestVertex(p)[0]]: the vertices are scanned in order
    and a vertex replaces the best one so far when its squared distance is
    less than or equal to the best one, so that of two vertices at the
    same distance the later one is returned.  An empty geometry gives the
    empty point. *)
Fixpoint closestVertex_scan (best : point) (minDist : R) (vs : list point)
  (p : point) : point :=
  match vs with
  | [] => best
  | v :: vs' =>
      if Rleb (sqrDist p v) minDist
      then closestVertex_scan v (sqrDist p v) vs' p
      else closestVertex_scan best minDist vs' p
  end.

Definition closestVertex (g : polyline) (p : point) : point :=
  match g with
  | [] => (0, 0)
  | v :: vs => closestVertex_scan v (sqrDist p v) vs p
  end.

Definition segLength (a b : point) : R := sqrt (sqrDist a b).

(** The position of the foot of [p] on the line through [a] and [b], as
    a fraction of the segment, kept within the segment. *)
Definition segFraction (a b p : point) : R :=
  if Reqb (sqrDist a b) 0 then 0
  else
    let r := ((fst p - fst a) * (fst b - fst a)
              + (snd p - snd a) * (snd b - snd a)) / sqrDist a b in
    if Rleb r 0 then 0 else if Rleb r 1 then r else 1.

(** The point of the segment [a b] nearest to [p]. *)
Definition segNearest (a b p : point) : point :=
  let t := segFraction a b p in
  (fst a + t * (fst b - fst a), snd a + t * (snd b - snd a)).

Definition segSqrDist (a b p : point) : R := sqrDist p (segNearest a b p).

(** [QgsGeometry.lineLocatePoint(p)]: the length along the line string
    up to its point nearest to [p].  The segments are scanned in order;
    a segment replaces the best one so far when it is strictly nearer. *)
Fixpoint locate_scan (best : R) (minDist : R) (start : R) (a : point)
  (vs : list point) (p : point) : R :=
  match vs with
  | [] => best
  | b :: vs' =>
      let here := start + segFraction a b p * segLength a b in
      if Rltb (segSqrDist a b p) minDist
      then locate_scan here (segSqrDist a b p) (start + segLength a b) b vs' p
      else locate_scan best minDist (start + segLength a b) b vs' p
  end.

Definition lineLocatePoint (g : polyline) (p : point) : R :=
  match g with
  | a :: b :: vs =>
      locate_scan (segFraction a b p * segLength a b) (segSqrDist a b p)
                  (segLength a b) b vs p
  | _ => 0
  end.

(** [QgsLineString.length()] *)
Fixpoint length (g : polyline) : R :=
  match g with
  | a :: (b :: _) as g' => segLength a b + length g'
  | _ => 0
  end.

(** The squared distance from [p] to the nearest point of the line
    string; a single vertex counts as a point. *)
Fixpoint sqrDistTo_scan (minDist : R) (a : point) (vs : list point)
  (p : point) : R :=
  match vs with
  | [] => minDist
  | b :: vs' => sqrDistTo_scan (Rmin minDist (segSqrDist a b p)) b vs' p
  end.

Definition sqrDistTo (g : polyline) (p : point) : option R :=
  match g with
  | [] => None
  | [a] => Some (sqrDist p a)
  | a :: b :: vs => Some (sqrDistTo_scan (segSqrDist a b p) b vs p)
  end.

(** The points of the segment from [a] to [b], and of a line string. *)
Definition on_segment (a b q : point) : Prop :=
  exists t, 0 <= t <= 1 /\
            q = (fst a + t * (fst b - fst a), snd a + t * (snd b - snd a)).

Fixpoint on_line (g : polyline) (q : point) : Prop :=
  match g with
  | [] => False
  | [a] => q = a
  | a :: (b :: _) as g' => on_segment a b q \/ on_line g' q
  end.

(** The distance from [p] to the line string. *)
Definition distanceTo (g : polyline) (p : point) : option R :=
  option_map sqrt (sqrDistTo g p).

(** [QgsGeometry.buffer(d, 5)]: the region around the line string.  The
    host returns a polygon whose round parts are approximated from the
    inside by 5 segments per quarter circle; the model keeps the line
    and the distance and takes the exact region. *)
Record buffered : Type := mkBuffered { base : polyline; radius : R }.

Definition buffer (g : polyline) (d : R) : buffered := mkBuffered g d.

(** [QgsGeometry.contains(point)] on a buffer: the interior. *)
Definition contains (bg : buffered) (p : point) : bool :=
  match sqrDistTo (base bg) p with
  | None => false
  | Some s => Rltb 0 (radius bg) && Rltb s (radius bg * radius bg)
  end.

(** [QgsRectangle] *)
Record rectangle : Type := mkRectangle
  { xMinimum : R; yMinimum : R; xMaximum : R; yMaximum : R }.

(** [QgsRectangle.center()] *)
Definition center (r : rectangle) : point :=
  (xMinimum r + (xMaximum r - xMinimum r) / 2,
   yMinimum r + (yMaximum r - yMinimum r) / 2).

End Qgis.

(** ** The data of the analyzer *)

(** [ProfilePoint] *)
Module ProfilePoint.
Record t : Type := mk
  { x : R;
    y : R;
    z : R;
    distance : R;
    intensity : option R;
    classification : option Z;
    rgb : option (Z * Z * Z);
    original_coords : option (R * R * R) }.
End ProfilePoint.

(** The value of an attribute of a raw record: a number or anything else. *)
Inductive attr : Type :=
| Num (v : R)
| Text (s : string).

(** [point_data], one record of the point cloud: a mapping with the keys
    ['X'], ['Y'], ['Z'], ['Intensity'] and ['Classification'], each
    present or not.  ['Z'], ['Intensity'] and ['Classification'] are
    numbers when present. *)
Record point_data : Type := mkPointData
  { attrX : option attr;
    attrY : option attr;
    attrZ : option R;
    attrIntensity : option R;
    attrClassification : option Z }.

(** [point_data[key]] *)
Definition getitem (v : option attr) : result attr :=
  match v with
  | Some a => Ok a
  | None => Raise KeyError
  end.

(** The conversion of an argument of [QgsPointXY(x, y)] to a double. *)
Definition to_double (a : attr) : result R :=
  match a with
  | Num v => Ok v
  | Text _ => Raise TypeError
  end.

(** The point cloud layer: its extent and the records that the iterator
    of its data provider yields, in order.  (The request rectangle, the
    bounding box of the buffer, only narrows what the host has to read:
    a record outside it is outside the buffer.) *)
Record layer : Type := mkLayer
  { extent : Qgis.rectangle;
    cloud : list point_data }.

(** The messages written to the message log. *)
Inductive message : Type :=
| MsgPointsExtracted (n : nat)
| MsgNoPointFound
| MsgExtractionError (e : exn)
| MsgAnalysisDone
| MsgAnalysisError (e : exn).

(** The widgets read or written by the pipeline. *)
Record widgets : Type := mkWidgets
  { buffer_spin : R;
    interval_spin : R;
    progress_visible : bool;
    progress_value : Z;
    extract_points_btn : bool;
    analyze_btn : bool }.

(** The attributes of [VPCProfileAnalyzer] used by the pipeline, with the
    message log and the results sent through [analysis_completed]. *)
Record analyzer : Type := mkAnalyzer
  { vpc_layer : option layer;
    profile_line : option Qgis.polyline;
    profile_points : list ProfilePoint.t;
    buffer_distance : R;
    sample_interval : R;
    ui : widgets;
    log : list message;
    emitted : list dict }.

Definition set_profile_line (v : option Qgis.polyline) (s : analyzer) :=
  mkAnalyzer (vpc_layer s) v (profile_points s) (buffer_distance s)
             (sample_interval s) (ui s) (log s) (emitted s).

Definition set_profile_points (v : list ProfilePoint.t) (s : analyzer) :=
  mkAnalyzer (vpc_layer s) (profile_line s) v (buffer_distance s)
             (sample_interval s) (ui s) (log s) (emitted s).

Definition set_parameters (b i : R) (s : analyzer) :=
  mkAnalyzer (vpc_layer s) (profile_line s) (profile_points s) b i
             (ui s) (log s) (emitted s).

Definition set_ui (v : widgets) (s : analyzer) :=
  mkAnalyzer (vpc_layer s) (profile_line s) (profile_points s)
             (buffer_distance s) (sample_interval s) v (log s) (emitted s).

Definition add_log (m : message) (s : analyzer) :=
  mkAnalyzer (vpc_layer s) (profile_line s) (profile_points s)
             (buffer_distance s) (sample_interval s) (ui s) (log s ++ [m])
             (emitted s).

Definition add_emitted (d : dict) (s : analyzer) :=
  mkAnalyzer (vpc_layer s) (profile_line s) (profile_points s)
             (buffer_distance s) (sample_interval s) (ui s) (log s)
             (emitted s ++ [d]).

Definition set_progress_visible (v : bool) (w : widgets) :=
  mkWidgets (buffer_spin w) (interval_spin w) v (progress_value w)
            (extract_points_btn w) (analyze_btn w).

Definition set_progress_value (v : Z) (w : widgets) :=
  mkWidgets (buffer_spin w) (interval_spin w) (progress_visible w) v
            (extract_points_btn w) (analyze_btn w).

Definition set_extract_points_btn (v : bool) (w : widgets) :=
  mkWidgets (buffer_spin w) (interval_spin w) (progress_visible w)
            (progress_value w) v (analyze_btn w).

Definition set_analyze_btn (v : bool) (w : widgets) :=
  mkWidgets (buffer_spin w) (interval_spin w) (progress_visible w)
            (progress_value w) (extract_points_btn w) v.

(** ** Methods: state and exceptions

    A method is a function from the analyzer to the analyzer after the
    call and either a value or the exception raised.  The state reached
    when an exception is raised is kept, as the attributes assigned
    before a [raise] stay assigned. *)

Definition M (A : Type) : Type := analyzer -> analyzer * result A.

Definition ret {A : Type} (a : A) : M A := fun s => (s, Ok a).

Definition bind {A B : Type} (m : M A) (f : A -> M B) : M B :=
  fun s =>
    match m s with
    | (s', Ok a) => f a s'
    | (s', Raise e) => (s', Raise e)
    end.

Definition lift {A : Type} (r : result A) : M A := fun s => (s, r).

Definition gets {A : Type} (f : analyzer -> A) : M A := fun s => (s, Ok (f s)).

Definition modify (f : analyzer -> analyzer) : M unit := fun s => (f s, Ok tt).

(** [try: body except Exception as e: handler(e)] *)
Definition try_except {A : Type} (body : M A) (handler : exn -> M A) : M A :=
  fun s =>
    match body s with
    | (s', Ok a) => (s', Ok a)
    | (s', Raise e) => handler e s'
    end.

Declare Scope method_scope.
Delimit Scope method_scope with method.
Notation "v <- m ;; k" := (bind m (fun v => k))
  (at level 61, m at next level, right associativity) : method_scope.
Notation "m ;; k" := (bind m (fun _ => k))
  (at level 61, right associativity) : method_scope.
Local Open Scope method_scope.

(** ** [get_profile_line] *)

Definition get_profile_line : M unit :=
  fun self =>
    match vpc_layer self with
    | Some vpc =>
        let extent := extent vpc in
        let start_point := (Qgis.xMinimum extent, snd (Qgis.center extent)) in
        let end_point := (Qgis.xMaximum extent, snd (Qgis.center extent)) in
        (set_profile_line (Some [start_point; end_point]) self, Ok tt)
    | None => (self, Ok tt)
    end.

(** ** [extract_profile_points] *)

(** The body of [if buffered_geometry.contains(point_geom):]. *)
Definition accept_point (profile_geometry : Qgis.polyline) (total_distance : R)
  (point_data : point_data) (x y z : R) : M unit :=
  let closest_point := Qgis.closestVertex profile_geometry (x, y) in
  let distance_along_profile :=
    Qgis.lineLocatePoint profile_geometry closest_point in
  let profile_point :=
    ProfilePoint.mk x y z distance_along_profile
                    (attrIntensity point_data) (attrClassification point_data)
                    None (Some (x, y, z)) in
  modify (fun s => set_profile_points (profile_points s ++ [profile_point]) s) ;;
  ratio <- lift (truediv distance_along_profile total_distance) ;;
  modify (fun s => set_ui (set_progress_value (int (ratio * 100)) (ui s)) s).

(** The body of [while iterator.hasNext():], for the record
    [point_data = iterator.next()]. *)
Definition loop_body (profile_geometry : Qgis.polyline)
  (buffered_geometry : Qgis.buffered) (total_distance : R)
  (point_data : point_data) : M unit :=
  x <- lift (getitem (attrX point_data)) ;;
  y <- lift (getitem (attrY point_data)) ;;
  let z := match attrZ point_data with Some v => v | None => 0 end in
  px <- lift (to_double x) ;;
  py <- lift (to_double y) ;;
  if Qgis.contains buffered_geometry (px, py)
  then accept_point profile_geometry total_distance point_data px py z
  else ret tt.

Fixpoint extract_loop (profile_geometry : Qgis.polyline)
  (buffered_geometry : Qgis.buffered) (total_distance : R)
  (iterator : list point_data) : M unit :=
  match iterator with
  | [] => ret tt
  | point_data :: iterator' =>
      loop_body profile_geometry buffered_geometry total_distance point_data ;;
      extract_loop profile_geometry buffered_geometry total_distance iterator'
  end.

(** The range of the progress bar and the local counter [point_count],
    which nothing reads, are left out. *)
Definition extract_profile_points : M unit :=
  fun self =>
    match vpc_layer self, profile_line self with
    | Some vpc, Some line =>
        try_except
          (modify (fun s => set_ui (set_progress_visible true (ui s)) s) ;;
           modify (fun s =>
                     set_parameters (buffer_spin (ui s)) (interval_spin (ui s)) s) ;;
           d <- gets buffer_distance ;;
           let profile_geometry := line in
           let buffered_geometry := Qgis.buffer profile_geometry d in
           modify (set_profile_points []) ;;
           let iterator := cloud vpc in
           let total_distance := Qgis.length line in
           extract_loop profile_geometry buffered_geometry total_distance
                        iterator ;;
           modify (fun s => set_ui (set_progress_visible false (ui s)) s) ;;
           pts <- gets profile_points ;;
           match pts with
           | [] => modify (add_log MsgNoPointFound)
           | _ :: _ =>
               modify (fun s => set_ui (set_analyze_btn true (ui s)) s) ;;
               modify (add_log (MsgPointsExtracted (List.length pts)))
           end)
          (fun e =>
             modify (fun s => set_ui (set_progress_visible false (ui s)) s) ;;
             modify (add_log (MsgExtractionError e)))
          self
    | _, _ => (self, Ok tt)
    end.

(** ** The statistics *)

(** [[p.intensity for p in self.profile_points if p.intensity is not None]] *)
Fixpoint present_intensities (pts : list ProfilePoint.t) : list R :=
  match pts with
  | [] => []
  | p :: pts' =>
      match ProfilePoint.intensity p with
      | Some i => i :: present_intensities pts'
      | None => present_intensities pts'
      end
  end.

Definition compute_basic_statistics (profile_points : list ProfilePoint.t)
  : dict :=
  match profile_points with
  | [] => []
  | _ :: _ =>
      let elevations := map ProfilePoint.z profile_points in
      let distances := map ProfilePoint.distance profile_points in
      let intensities := present_intensities profile_points in
      let stats :=
        [ ("point_count", PInt (Z.of_nat (List.length profile_points)));
          ("profile_length",
            if_nonempty distances (pymax distances - pymin distances));
          ("elevation_stats",
            PDict [ ("min", if_nonempty elevations (pymin elevations));
                    ("max", if_nonempty elevations (pymax elevations));
                    ("mean", if_nonempty elevations (Np.mean elevations));
                    ("std", if_nonempty elevations (Np.std elevations));
                    ("range", if_nonempty elevations
                                (pymax elevations - pymin elevations)) ]) ]%string in
      match intensities with
      | [] => stats
      | _ :: _ =>
          dict_set "intensity_stats"
            (PDict [ ("min", PFloat (pymin intensities));
                     ("max", PFloat (pymax intensities));
                     ("mean", PFloat (Np.mean intensities));
                     ("std", PFloat (Np.std intensities)) ]%string)
            stats
      end
  end.

(** The slope angle, in degrees, between two points of the profile:
    [math.degrees(math.atan(slope))], with the exact arc tangent. *)
Definition slope_angle (p1 p2 : ProfilePoint.t) : R :=
  let slope := (ProfilePoint.z p2 - ProfilePoint.z p1)
               / (ProfilePoint.distance p2 - ProfilePoint.distance p1) in
  degrees (atan slope).

(** One turn of [for i in range(1, len(self.profile_points)):]. *)
Definition slopes_step (profile_points : list ProfilePoint.t)
  (slopes : list R) (i : nat) : list R :=
  match nth_error profile_points (i - 1), nth_error profile_points i with
  | Some p1, Some p2 =>
      if Reqb (ProfilePoint.distance p2) (ProfilePoint.distance p1)
      then slopes
      else slopes ++ [slope_angle p1 p2]
  | _, _ => slopes
  end.

Definition compute_slopes (profile_points : list ProfilePoint.t) : list R :=
  fold_left (slopes_step profile_points)
            (seq 1 (List.length profile_points - 1)) [].

Definition compute_terrain_analysis (profile_points : list ProfilePoint.t)
  : dict :=
  if (List.length profile_points <? 3)%nat then []
  else
    let slopes := compute_slopes profile_points in
    [ ("terrain_analysis",
        PDict [ ("slopes", PList slopes);
                ("mean_slope", if_nonempty slopes (Np.mean slopes));
                ("max_slope", if_nonempty slopes (pymax slopes));
                ("min_slope", if_nonempty slopes (pymin slopes));
                ("slope_std", if_nonempty slopes (Np.std slopes)) ]) ]%string.

Definition compute_roughness_analysis (profile_points : list ProfilePoint.t)
  : result dict :=
  if (List.length profile_points <? 5)%nat then Ok []
  else
    let distances := map ProfilePoint.distance profile_points in
    let elevations := map ProfilePoint.z profile_points in
    match Np.polyfit1 distances elevations with
    | Raise e => Raise e
    | Ok coeffs =>
        let trend_line := map (Np.polyval coeffs) distances in
        let deviations :=
          map (fun p => fst p - snd p) (combine elevations trend_line) in
        let roughness_index := Np.std deviations in
        Ok [ ("roughness_analysis",
               PDict [ ("roughness_index", PFloat roughness_index);
                       ("trend_slope", PFloat (fst coeffs));
                       ("trend_intercept", PFloat (snd coeffs));
                       ("max_deviation", PFloat (pymax (map Rabs deviations)));
                       ("deviations", PList deviations) ]) ]%string
    end.

(** ** [analyze_points] *)

(** [self.profile_points.sort(key=lambda p: p.distance)]: a stable sort. *)
Fixpoint insert_by_distance (p : ProfilePoint.t) (l : list ProfilePoint.t)
  : list ProfilePoint.t :=
  match l with
  | [] => [p]
  | q :: l' =>
      if Rleb (ProfilePoint.distance p) (ProfilePoint.distance q)
      then p :: q :: l'
      else q :: insert_by_distance p l'
  end.

Definition sort_by_distance (l : list ProfilePoint.t) : list ProfilePoint.t :=
  fold_right insert_by_distance [] l.

(** *** The refreshes of the display

    Before the result is sent, [analyze_points] refreshes the data table,
    the statistics text and the figure.  These three are written and
    never read by the pipeline, and the analyzer of the model does not
    hold them ([update_data_table] below gives the table on its own);
    what the model keeps of each refresh is whether it returns or raises,
    since a refresh that raises inside the [try] keeps the result from
    being sent. *)

(** [update_statistics]: the three groups are computed anew and printed
    with format specifications that apply to every number they hold, so
    that the call raises exactly when [compute_roughness_analysis]
    does. *)
Definition update_statistics : M unit :=
  fun self =>
    match profile_points self with
    | [] => (self, Ok tt)
    | _ :: _ =>
        match compute_roughness_analysis (profile_points self) with
        | Ok _ => (self, Ok tt)
        | Raise e => (self, Raise e)
        end
    end.

(** [plot_elevation_profile]: the points are drawn and, for more than one
    point, the trend line that [np.polyfit] gives. *)
Definition plot_elevation_profile : M unit :=
  fun self =>
    let distances := map ProfilePoint.distance (profile_points self) in
    let elevations := map ProfilePoint.z (profile_points self) in
    if (1 <? List.length distances)%nat then
      match Np.polyfit1 distances elevations with
      | Ok _ => (self, Ok tt)
      | Raise e => (self, Raise e)
      end
    else (self, Ok tt).

(** The plot methods whose bodies are not, or not wholly, in the source
    at hand. *)
Inductive plot_method : Type :=
| plot_point_distribution
| plot_intensity_elevation
| plot_classification
| plot_roughness
| plot_spectral_analysis.

(** What [update_plot] reads besides the profile points: the text of the
    current item of [plot_type_combo], and the five plot methods above,
    each taken as a parameter that says, for the profile points it
    draws, whether the method returns or raises. *)
Record plotting : Type := mkPlotting
  { plot_type_combo : string;
    plot_with : plot_method -> list ProfilePoint.t -> result unit }.

(** [update_plot]: without profile points nothing is done; otherwise the
    figure is cleared, the plot method of the current plot type is called
    (none when the text is not one of the six items) and the canvas is
    redrawn. *)
Definition update_plot (view : plotting) : M unit :=
  fun self =>
    match profile_points self with
    | [] => (self, Ok tt)
    | _ :: _ =>
        let plot_type := plot_type_combo view in
        let other m : analyzer * result unit :=
          (self, plot_with view m (profile_points self)) in
        if String.eqb plot_type "Profil d'élévation" then
          plot_elevation_profile self
        else if String.eqb plot_type "Distribution des points" then
          other plot_point_distribution
        else if String.eqb plot_type "Intensité vs Élévation" then
          other plot_intensity_elevation
        else if String.eqb plot_type "Classification" then
          other plot_classification
        else if String.eqb plot_type "Rugosité du terrain" then
          other plot_roughness
        else if String.eqb plot_type "Analyse spectrale" then
          other plot_spectral_analysis
        else (self, Ok tt)
    end.

(** [analyze_points].  [self.update_data_table()] formats the numbers of
    the points and sets the items of the table, and returns. *)
Definition analyze_points (view : plotting) : M unit :=
  fun self =>
    match profile_points self with
    | [] => (self, Ok tt)
    | _ :: _ =>
        try_except
          (modify (fun s =>
                     set_profile_points (sort_by_distance (profile_points s)) s) ;;
           pts <- gets profile_points ;;
           let analysis_results := compute_basic_statistics pts in
           let analysis_results :=
             dict_update analysis_results (compute_terrain_analysis pts) in
           roughness <- lift (compute_roughness_analysis pts) ;;
           let analysis_results := dict_update analysis_results roughness in
           update_statistics ;;
           update_plot view ;;
           modify (add_emitted analysis_results) ;;
           modify (add_log MsgAnalysisDone))
          (fun e => modify (add_log (MsgAnalysisError e)))
          self
    end.

(** ** [update_data_table] *)

(** The text of a cell of the data table: a number printed with two
    decimals ([f"{v:.2f}"]), a number printed by [str], or ["N/A"]. *)
Inductive cell : Type :=
| Fixed2 (v : R)
| StrFloat (v : R)
| StrInt (n : Z)
| NA.

(** [QTableWidget]: the header labels and the items, row by row. *)
Record table : Type := mkTable
  { header_labels : list string;
    items : list (list cell) }.

(** [str(point.intensity) if point.intensity else "N/A"]: [None] and 0
    are false. *)
Definition intensity_cell (point : ProfilePoint.t) : cell :=
  match ProfilePoint.intensity point with
  | Some v => if Reqb v 0 then NA else StrFloat v
  | None => NA
  end.

(** [str(point.classification) if point.classification else "N/A"] *)
Definition classification_cell (point : ProfilePoint.t) : cell :=
  match ProfilePoint.classification point with
  | Some n => if Z.eqb n 0 then NA else StrInt n
  | None => NA
  end.

(** The items of the row of one point, columns 0 to 5. *)
Definition table_row (point : ProfilePoint.t) : list cell :=
  [ Fixed2 (ProfilePoint.distance point);
    Fixed2 (ProfilePoint.x point);
    Fixed2 (ProfilePoint.y point);
    Fixed2 (ProfilePoint.z point);
    intensity_cell point;
    classification_cell point ].

(** The table after [update_data_table]: the column and row counts are
    set to 6 and to the number of points, and every item is set. *)
Definition update_data_table (profile_points : list ProfilePoint.t)
  (data_table : table) : table :=
  match profile_points with
  | [] => data_table
  | _ :: _ =>
      let headers :=
        ["Distance"; "X"; "Y"; "Z"; "Intensité"; "Classification"]%string in
      mkTable headers (map table_row profile_points)
  end.

(** ** [create_elevation_profile] *)

(** The messages that [create_elevation_profile] writes to the log. *)
Inductive creation_message : Type :=
| MsgSelectLayer
| MsgProfileCreated.

(** The analyzer with what [create_elevation_profile] reads besides: the
    data of the current item of the layer combo box (the identifier of a
    layer, or nothing for the first item), and the point cloud layers of
    the project by identifier. *)
Record window : Type := mkWindow
  { analyzer_of : analyzer;
    layer_combo_data : option string;
    project_layers : list (string * layer);
    creation_log : list creation_message }.

(** [QgsProject.instance().mapLayer(layer_id)] *)
Fixpoint mapLayer (layers : list (string * layer)) (layer_id : string)
  : option layer :=
  match layers with
  | [] => None
  | (i, l) :: rest => if String.eqb layer_id i then Some l else mapLayer rest layer_id
  end.

Definition set_vpc_layer (v : option layer) (s : analyzer) :=
  mkAnalyzer v (profile_line s) (profile_points s) (buffer_distance s)
             (sample_interval s) (ui s) (log s) (emitted s).

(** The profile canvas, which the pipeline never reads, is left out;
    nothing else in the body can raise, so that the handler of the [try]
    is not reached. *)
Definition create_elevation_profile (w : window) : window :=
  let not_selected :=
    mkWindow (analyzer_of w) (layer_combo_data w) (project_layers w)
             (creation_log w ++ [MsgSelectLayer]) in
  match layer_combo_data w with
  | None => not_selected
  | Some layer_id =>
      if String.eqb layer_id "" then not_selected
      else
        let self :=
          set_vpc_layer (mapLayer (project_layers w) layer_id) (analyzer_of w) in
        let self := fst (get_profile_line self) in
        match profile_line self with
        | Some _ =>
            mkWindow (set_ui (set_extract_points_btn true (ui self)) self)
                     (layer_combo_data w) (project_layers w)
                     (creation_log w ++ [MsgProfileCreated])
        | None =>
            mkWindow self (layer_combo_data w) (project_layers w)
                     (creation_log w)
        end
  end.

(** ** The specification's notions, for comparison with the code *)

(** [project(P)]: the arc length from the start of the line to its point
    nearest to [P]. *)
Definition spec_project (g : Qgis.polyline) (p : Qgis.point) : R :=
  Qgis.lineLocatePoint g p.

(** The slope angle of a pair of points as the specification words it:
    the arc tangent of the difference of the elevations over the
    difference of the distances, converted from radians to degrees. *)
Definition spec_slope_angle (p1 p2 : ProfilePoint.t) : R :=
  atan ((ProfilePoint.z p2 - ProfilePoint.z p1)
        / (ProfilePoint.distance p2 - ProfilePoint.distance p1))
  * (180 / PI).

(** The slope angles of the consecutive pairs of points with unequal
    distances, in sequence order. *)
Fixpoint spec_slopes (pts : list ProfilePoint.t) : list R :=
  match pts with
  | p1 :: (p2 :: _) as rest =>
      if Reqb (ProfilePoint.distance p2) (ProfilePoint.distance p1)
      then spec_slopes rest
      else spec_slope_angle p1 p2 :: spec_slopes rest
  | _ => []
  end.

(** The mean and the population standard deviation of a sequence, as
    the specification names them. *)
Fixpoint total (l : list R) : R :=
  match l with
  | [] => 0
  | v :: t => v + total t
  end.

Definition spec_mean (l : list R) : R := total l / INR (List.length l).

Definition spec_population_std (l : list R) : R :=
  sqrt (total (map (fun v => (v - spec_mean l) ^ 2) l) / INR (List.length l)).

(** The planar position of a raw record whose ['X'] and ['Y'] are present
    and numeric. *)
Definition position (r : point_data) : option Qgis.point :=
  match attrX r, attrY r with
  | Some (Num px), Some (Num py) => Some (px, py)
  | _, _ => None
  end.

(** The profile point that the loop makes of an accepted record at
    position [p]. *)
Definition made_point (g : Qgis.polyline) (r : point_data) (p : Qgis.point)
  : ProfilePoint.t :=
  let z := match attrZ r with Some v => v | None => 0 end in
  ProfilePoint.mk (fst p) (snd p) z
    (Qgis.lineLocatePoint g (Qgis.closestVertex g p))
    (attrIntensity r) (attrClassification r) None (Some (fst p, snd p, z)).

(** The analyzer at the entry of the loop of [extract_profile_points]. *)
Definition prepared (self : analyzer) : analyzer :=
  let s := set_ui (set_progress_visible true (ui self)) self in
  set_profile_points []
    (set_parameters (buffer_spin (ui s)) (interval_spin (ui s)) s).

(** The end of the [try] block of [extract_profile_points], after the
    loop. *)
Definition finished (s : analyzer) : analyzer :=
  let s := set_ui (set_progress_visible false (ui s)) s in
  match profile_points s with
  | [] => add_log MsgNoPointFound s
  | _ :: _ =>
      add_log (MsgPointsExtracted (List.length (profile_points s)))
              (set_ui (set_analyze_btn true (ui s)) s)
  end.

(** The [except] block of [extract_profile_points]. *)
Definition failed (e : exn) (s : analyzer) : analyzer :=
  add_log (MsgExtractionError e)
          (set_ui (set_progress_visible false (ui s)) s).

(** ** The reference scenario *)

Definition raw (x y z : R) (i : option R) : point_data :=
  mkPointData (Some (Num x)) (Some (Num y)) (Some z) i None.

Definition reference_line : Qgis.polyline := [(0, 0); (100, 0)].

Definition reference_cloud : list point_data :=
  [raw 10 2 5 (Some 50); raw 50 1 8 (Some 60); raw 90 (-3) 6 None].

(** A layer over the reference line yielding [records]. *)
Definition layer_of (records : list point_data) : layer :=
  mkLayer (Qgis.mkRectangle 0 (-10) 100 10) records.

(** An analyzer with a layer yielding [records], the profile line [line]
    and the buffer spin box at [b], before any extraction. *)
Definition session (line : Qgis.polyline) (records : list point_data) (b : R)
  : analyzer :=
  mkAnalyzer (Some (layer_of records)) (Some line) [] 5 1
             (mkWidgets b 1 false 0%Z true false) [] [].

(** A record without ['X']. *)
Definition no_x_record : point_data :=
  mkPointData None (Some (Num 2)) (Some 5) (Some 50) None.

(** A layer whose extent has no width, and an analyzer on it before the
    profile line is made. *)
Definition narrow_layer : layer :=
  mkLayer (Qgis.mkRectangle 3 (-10) 3 10) [raw 3 1 7 None; raw 3 2 8 None].

Definition narrow_session : analyzer :=
  mkAnalyzer (Some narrow_layer) None [] 5 1
             (mkWidgets 5 1 false 0%Z false false) [] [].

(** The profile points that the code makes of the reference scenario. *)
Definition reference_points : list ProfilePoint.t :=
  [ made_point reference_line (raw 10 2 5 (Some 50)) (10, 2);
    made_point reference_line (raw 50 1 8 (Some 60)) (50, 1);
    made_point reference_line (raw 90 (-3) 6 None) (90, -3) ].

(** A profile point at distance [d] and elevation [e], without optional
    fields. *)
Definition at_distance (d e : R) : ProfilePoint.t :=
  ProfilePoint.mk d 0 e d None None None None.

(** A sequence of profile points in ascending order of distance. *)
Fixpoint ascending (l : list ProfilePoint.t) : Prop :=
  match l with
  | p :: (q :: _) as t =>
      ProfilePoint.distance p <= ProfilePoint.distance q /\ ascending t
  | _ => True
  end.

(** The dictionary that [analyze_points] computes for the points [pts],
    or the exception raised while computing it. *)
Definition analysis_results (pts : list ProfilePoint.t) : result dict :=
  let sorted := sort_by_distance pts in
  match compute_roughness_analysis sorted with
  | Ok roughness =>
      Ok (dict_update
            (dict_update (compute_basic_statistics sorted)
                         (compute_terrain_analysis sorted))
            roughness)
  | Raise e => Raise e
  end.

(** Five profile points on the line [elevation = 2 * distance + 5], all
    at the distance [d]. *)
Definition five_at (d : R) : list ProfilePoint.t :=
  [ at_distance d (2 * d + 5); at_distance d (2 * d + 5);
    at_distance d (2 * d + 5); at_distance d (2 * d + 5);
    at_distance d (2 * d + 5) ].

(** An analyzer holding the extracted points [pts]. *)
Definition holding (pts : list ProfilePoint.t) : analyzer :=
  mkAnalyzer (Some (layer_of [])) (Some reference_line) pts 5 1
             (mkWidgets 5 1 false 0%Z true true) [] [].

(** ** Notions for the further properties *)

(** The records of a source up to its first record without a position. *)
Fixpoint before_malformed (records : list point_data) : list point_data :=
  match records with
  | [] => []
  | r :: rest =>
      match position r with
      | Some _ => r :: before_malformed rest
      | None => []
      end
  end.

(** The profile points made of the records that lie inside the buffer, in
    the order of the records. *)
Fixpoint accepted_points (g : Qgis.polyline) (bg : Qgis.buffered)
  (records : list point_data) : list ProfilePoint.t :=
  match records with
  | [] => []
  | r :: rest =>
      match position r with
      | Some p =>
          if Qgis.contains bg p
          then made_point g r p :: accepted_points g bg rest
          else accepted_points g bg rest
      | None => accepted_points g bg rest
      end
  end.

(** The points at the distance [d], in their order. *)
Definition at_same_distance (d : R) (l : list ProfilePoint.t)
  : list ProfilePoint.t :=
  filter (fun p => Reqb (ProfilePoint.distance p) d) l.

(** A sequence of profile points in which no two consecutive points are
    at the same distance. *)
Fixpoint distinct_steps (l : list ProfilePoint.t) : Prop :=
  match l with
  | p :: (q :: _) as t =>
      ProfilePoint.distance q <> ProfilePoint.distance p /\ distinct_steps t
  | _ => True
  end.

(** Five profile points on the line [elevation = 2 * distance + 5], at
    the distances 0 to 4. *)
Definition line_sample : list ProfilePoint.t :=
  [ at_distance 0 5; at_distance 1 7; at_distance 2 9; at_distance 3 11;
    at_distance 4 13 ].

(** The plotting as it is when the window opens: the first item of the
    combo box is the current one; the plot methods taken as parameters
    return. *)
Definition opening_view : plotting :=
  mkPlotting "Profil d'élévation" (fun _ _ => Ok tt).

(** [d[group][key]] *)
Definition dict_get_in (group key : string) (d : dict) : option pyval :=
  match dict_get group d with
  | Some (PDict e) => dict_get key e
  | _ => None
  end.

(** * Properties *)

Lemma Rltb_true a b : a < b -> Rltb a b = true.
Proof. intros H; unfold Rltb; destruct (Rlt_dec a b); [reflexivity | contradiction]. Qed.

Lemma Rltb_false a b : b <= a -> Rltb a b = false.
Proof. intros H; unfold Rltb; destruct (Rlt_dec a b); [lra | reflexivity]. Qed.

Lemma Rltb_spec a b : Rltb a b = true <-> a < b.
Proof. unfold Rltb; destruct (Rlt_dec a b); split; intros; (congruence || lra || auto). Qed.

Lemma Rleb_true a b : a <= b -> Rleb a b = true.
Proof. intros H; unfold Rleb; destruct (Rle_dec a b); [reflexivity | contradiction]. Qed.

Lemma Rleb_false a b : b < a -> Rleb a b = false.
Proof. intros H; unfold Rleb; destruct (Rle_dec a b); [lra | reflexivity]. Qed.

Lemma Reqb_true a b : a = b -> Reqb a b = true.
Proof. intros H; unfold Reqb; destruct (Req_dec_T a b); [reflexivity | contradiction]. Qed.

Lemma Reqb_false a b : a <> b -> Reqb a b = false.
Proof. intros H; unfold Reqb; destruct (Req_dec_T a b); [contradiction | reflexivity]. Qed.

Lemma Reqb_spec a b : Reqb a b = true <-> a = b.
Proof. unfold Reqb; destruct (Req_dec_T a b); split; intros; (congruence || auto). Qed.

(** ** The turns of the extraction loop *)

Section Loop.

Variables (g : Qgis.polyline) (bg : Qgis.buffered) (total : R).

Lemma loop_body_malformed r :
  position r = None ->
  exists e, forall s, loop_body g bg total r s = (s, Raise e).
Proof.
  unfold position, loop_body, bind, lift. intros H.
  destruct (attrX r) as [[px|tx]|]; cbn.
  - destruct (attrY r) as [[py|ty]|]; cbn; [discriminate | eauto | eauto].
  - destruct (attrY r) as [[py|ty]|]; cbn; eauto.
  - eauto.
Qed.

Lemma loop_body_dropped r p s :
  position r = Some p ->
  Qgis.contains bg p = false ->
  loop_body g bg total r s = (s, Ok tt).
Proof.
  unfold position, loop_body, bind, lift. intros H C.
  destruct (attrX r) as [[px|tx]|]; try discriminate.
  destruct (attrY r) as [[py|ty]|]; try discriminate.
  injection H as <-. cbn. rewrite C. reflexivity.
Qed.

(** The analyzer after an accepted record, when the line has a length. *)
Lemma loop_body_accepted r p s :
  position r = Some p ->
  Qgis.contains bg p = true ->
  total <> 0 ->
  loop_body g bg total r s =
  (set_ui (set_progress_value
             (int (Qgis.lineLocatePoint g (Qgis.closestVertex g p) / total * 100))
             (ui s))
          (set_profile_points (profile_points s ++ [made_point g r p]) s),
   Ok tt).
Proof.
  unfold position, loop_body, bind, lift. intros H C T.
  destruct (attrX r) as [[px|tx]|]; try discriminate.
  destruct (attrY r) as [[py|ty]|]; try discriminate.
  injection H as <-. cbn. rewrite C.
  unfold accept_point, bind, lift, modify, truediv.
  rewrite (Reqb_false total 0) by assumption. reflexivity.
Qed.

(** On a line of length 0 the progress cannot be computed: the point is
    already appended when the division fails. *)
Lemma loop_body_zero_length r p s :
  position r = Some p ->
  Qgis.contains bg p = true ->
  total = 0 ->
  loop_body g bg total r s =
  (set_profile_points (profile_points s ++ [made_point g r p]) s,
   Raise ZeroDivisionError).
Proof.
  unfold position, loop_body, bind, lift. intros H C T.
  destruct (attrX r) as [[px|tx]|]; try discriminate.
  destruct (attrY r) as [[py|ty]|]; try discriminate.
  injection H as <-. cbn. rewrite C.
  unfold accept_point, bind, lift, modify, truediv.
  rewrite (Reqb_true total 0) by assumption. reflexivity.
Qed.

(** A turn leaves everything but the points and the progress value, and
    appends at most one point, made of its record inside the buffer. *)
Lemma loop_body_frame r s :
  let s' := fst (loop_body g bg total r s) in
  vpc_layer s' = vpc_layer s /\ profile_line s' = profile_line s /\
  buffer_distance s' = buffer_distance s /\ log s' = log s /\
  emitted s' = emitted s /\
  analyze_btn (ui s') = analyze_btn (ui s) /\
  (profile_points s' = profile_points s \/
   exists p, position r = Some p /\ Qgis.contains bg p = true /\
             profile_points s' = profile_points s ++ [made_point g r p]).
Proof.
  destruct (position r) as [p|] eqn:P.
  - destruct (Qgis.contains bg p) eqn:C.
    + destruct (Req_dec_T total 0) as [T|T].
      * rewrite (loop_body_zero_length r p s P C T). cbn.
        repeat split; auto. right. exists p. auto.
      * rewrite (loop_body_accepted r p s P C T). cbn.
        repeat split; auto. right. exists p. auto.
    + rewrite (loop_body_dropped r p s P C). cbn. repeat split; auto.
  - destruct (loop_body_malformed r P) as [e E]. rewrite E. cbn.
    repeat split; auto.
Qed.

Lemma extract_loop_cons r it s :
  extract_loop g bg total (r :: it) s =
  match loop_body g bg total r s with
  | (s', Ok _) => extract_loop g bg total it s'
  | (s', Raise e) => (s', Raise e)
  end.
Proof. reflexivity. Qed.

(** A record outside the buffer leaves no trace in the run of the loop. *)
Lemma extract_loop_skip pre r post p s :
  position r = Some p ->
  Qgis.contains bg p = false ->
  extract_loop g bg total (pre ++ r :: post) s =
  extract_loop g bg total (pre ++ post) s.
Proof.
  intros P C. revert s. induction pre as [|a pre IH]; intros s.
  - cbn [app]. rewrite extract_loop_cons, (loop_body_dropped r p s P C).
    reflexivity.
  - cbn [app]. rewrite !extract_loop_cons.
    destruct (loop_body g bg total a s) as [s' [[]|e]]; auto.
Qed.

(** A malformed record ends the loop with an exception, in the state
    reached by the records before it. *)
Lemma extract_loop_abort pre bad post s :
  position bad = None ->
  fst (extract_loop g bg total (pre ++ bad :: post) s) =
  fst (extract_loop g bg total pre s) /\
  exists e, snd (extract_loop g bg total (pre ++ bad :: post) s) = Raise e.
Proof.
  intros P. destruct (loop_body_malformed bad P) as [e E].
  revert s. induction pre as [|a pre IH]; intros s.
  - cbn [app]. rewrite extract_loop_cons, E. cbn. eauto.
  - cbn [app]. rewrite !extract_loop_cons.
    destruct (loop_body g bg total a s) as [s' [[]|e']]; cbn; eauto.
Qed.

(** The points of the list after the loop: those before it, followed by
    points made of records of the source that lie inside the buffer. *)
Lemma extract_loop_points it s :
  let s' := fst (extract_loop g bg total it s) in
  log s' = log s /\ emitted s' = emitted s /\
  analyze_btn (ui s') = analyze_btn (ui s) /\
  exists added,
    profile_points s' = profile_points s ++ added /\
    Forall (fun pp => exists r p, In r it /\ position r = Some p /\
                        Qgis.contains bg p = true /\ pp = made_point g r p)
           added.
Proof.
  revert s. induction it as [|r it IH]; intros s.
  - cbn. repeat split; auto. exists []. rewrite app_nil_r. auto.
  - rewrite extract_loop_cons.
    pose proof (loop_body_frame r s) as F. cbn zeta in F.
    destruct (loop_body g bg total r s) as [s1 [[]|e]]; cbn [fst] in F |- *.
    + destruct F as (_ & _ & _ & L & E & A & Pts).
      destruct (IH s1) as (L' & E' & A' & added & Q & QA).
      cbn zeta in *. rewrite L', E', A', L, E, A. repeat split; auto.
      destruct Pts as [Pts | (p & P & C & Pts)].
      * exists added. rewrite Q, Pts. split; auto.
        eapply Forall_impl; [|exact QA]. cbn.
        intros pp (r0 & p0 & I & H). exists r0, p0. split; [right|]; auto.
      * exists (made_point g r p :: added). rewrite Q, Pts, <- app_assoc.
        split; auto. constructor.
        -- exists r, p. repeat split; auto. left; auto.
        -- eapply Forall_impl; [|exact QA]. cbn.
           intros pp (r0 & p0 & I & H). exists r0, p0. split; [right|]; auto.
    + destruct F as (_ & _ & _ & L & E & A & Pts). repeat split; auto.
      destruct Pts as [Pts | (p & P & C & Pts)].
      * exists []. rewrite app_nil_r. auto.
      * exists [made_point g r p]. split; auto. constructor; auto.
        exists r, p. repeat split; auto. left; auto.
Qed.

End Loop.

(** ** [extract_profile_points] as a whole *)

Lemma extract_profile_points_run self l line :
  vpc_layer self = Some l ->
  profile_line self = Some line ->
  extract_profile_points self =
  match extract_loop line (Qgis.buffer line (buffer_spin (ui self)))
                     (Qgis.length line) (cloud l) (prepared self) with
  | (s, Ok _) => (finished s, Ok tt)
  | (s, Raise e) => (failed e s, Ok tt)
  end.
Proof.
  intros L P. unfold extract_profile_points. rewrite L, P.
  unfold try_except, bind, modify, gets. cbn [fst snd].
  change (set_profile_points [] _) with (prepared self).
  change (buffer_distance (set_parameters _ _ _)) with (buffer_spin (ui self)).
  destruct (extract_loop _ _ _ _ (prepared self)) as [s [[]|e]].
  - unfold finished. cbn. destruct (profile_points s); reflexivity.
  - reflexivity.
Qed.

(** No exception leaves [extract_profile_points]. *)
Lemma extract_profile_points_returns self :
  snd (extract_profile_points self) = Ok tt.
Proof.
  destruct (vpc_layer self) as [l|] eqn:L.
  - destruct (profile_line self) as [line|] eqn:P.
    + rewrite (extract_profile_points_run self l line L P).
      destruct (extract_loop _ _ _ _ _) as [s [[]|e]]; reflexivity.
    + unfold extract_profile_points. rewrite L, P. reflexivity.
  - unfold extract_profile_points. rewrite L. reflexivity.
Qed.

(** ** The geometry of the reference line *)

Lemma sqrDist_nonneg p q : 0 <= Qgis.sqrDist p q.
Proof.
  unfold Qgis.sqrDist.
  pose proof (Rle_0_sqr (fst p - fst q)) as A.
  pose proof (Rle_0_sqr (snd p - snd q)) as B.
  unfold Rsqr in *. lra.
Qed.

Lemma reference_length : Qgis.length reference_line = 100.
Proof.
  unfold reference_line, Qgis.length, Qgis.segLength, Qgis.sqrDist. cbn [fst snd].
  rewrite Rplus_0_r. apply sqrt_lem_1; lra.
Qed.

Lemma reference_segLength : Qgis.segLength (0, 0) (100, 0) = 100.
Proof.
  unfold Qgis.segLength, Qgis.sqrDist. cbn [fst snd]. apply sqrt_lem_1; lra.
Qed.

Lemma reference_fraction x y :
  0 <= x <= 100 -> Qgis.segFraction (0, 0) (100, 0) (x, y) = x / 100.
Proof.
  intros H. unfold Qgis.segFraction, Qgis.sqrDist. cbn [fst snd].
  rewrite Reqb_false by lra.
  replace (((x - 0) * (100 - 0) + (y - 0) * (0 - 0)) /
           ((0 - 100) * (0 - 100) + (0 - 0) * (0 - 0))) with (x / 100) by (field; lra).
  destruct (Req_dec_T x 0) as [->|N].
  - rewrite Rleb_true by lra. lra.
  - rewrite Rleb_false by lra. rewrite Rleb_true by lra. reflexivity.
Qed.

Lemma reference_sqrDistTo x y :
  0 <= x <= 100 -> Qgis.sqrDistTo reference_line (x, y) = Some (y * y).
Proof.
  intros H. unfold reference_line, Qgis.sqrDistTo, Qgis.sqrDistTo_scan,
    Qgis.segSqrDist, Qgis.segNearest.
  rewrite (reference_fraction x y H). unfold Qgis.sqrDist. cbn [fst snd].
  f_equal. field.
Qed.

Lemma reference_contains b x y :
  0 <= x <= 100 ->
  Qgis.contains (Qgis.buffer reference_line b) (x, y) =
  Rltb 0 b && Rltb (y * y) (b * b).
Proof.
  intros H. unfold Qgis.contains, Qgis.buffer. cbn [Qgis.base Qgis.radius].
  rewrite (reference_sqrDistTo x y H). reflexivity.
Qed.

(** The point of the reference line nearest to [(x, y)] is at arc
    length [x]. *)
Lemma reference_project x y :
  0 <= x <= 100 -> spec_project reference_line (x, y) = x.
Proof.
  intros H. unfold spec_project, reference_line, Qgis.lineLocatePoint,
    Qgis.locate_scan.
  rewrite (reference_fraction x y H), reference_segLength. field.
Qed.

Lemma reference_closestVertex_start x y :
  x < 50 -> Qgis.closestVertex reference_line (x, y) = (0, 0).
Proof.
  intros H. unfold reference_line, Qgis.closestVertex, Qgis.closestVertex_scan,
    Qgis.sqrDist. cbn [fst snd]. rewrite Rleb_false by nra. reflexivity.
Qed.

Lemma reference_closestVertex_end x y :
  50 <= x -> Qgis.closestVertex reference_line (x, y) = (100, 0).
Proof.
  intros H. unfold reference_line, Qgis.closestVertex, Qgis.closestVertex_scan,
    Qgis.sqrDist. cbn [fst snd]. rewrite Rleb_true by nra. reflexivity.
Qed.

(** The distance that the loop gives to a point near the reference line:
    that of the nearer end of the line. *)
Lemma reference_distance_start x y :
  x < 50 ->
  Qgis.lineLocatePoint reference_line (Qgis.closestVertex reference_line (x, y)) = 0.
Proof.
  intros H. rewrite (reference_closestVertex_start x y H).
  apply (reference_project 0 0). lra.
Qed.

Lemma reference_distance_end x y :
  50 <= x ->
  Qgis.lineLocatePoint reference_line (Qgis.closestVertex reference_line (x, y)) = 100.
Proof.
  intros H. rewrite (reference_closestVertex_end x y H).
  apply (reference_project 100 0). lra.
Qed.

(** ** The distance to a line string is the least distance to its points *)

Lemma segFraction_cases a b p :
  0 <= Qgis.segFraction a b p <= 1.
Proof.
  unfold Qgis.segFraction. destruct (Reqb (Qgis.sqrDist a b) 0); [lra|].
  set (r := _ / _).
  destruct (Rle_dec r 0) as [A|A].
  - rewrite Rleb_true by exact A. lra.
  - rewrite Rleb_false by lra. destruct (Rle_dec r 1) as [B|B].
    + rewrite Rleb_true by exact B. lra.
    + rewrite Rleb_false by lra. lra.
Qed.

Lemma segNearest_on_segment a b p : Qgis.on_segment a b (Qgis.segNearest a b p).
Proof.
  exists (Qgis.segFraction a b p). split; [apply segFraction_cases | reflexivity].
Qed.

Lemma segment_start a b : Qgis.on_segment a b a.
Proof. exists 0. split; [lra|]. destruct a; cbn [fst snd]. f_equal; ring. Qed.

Lemma segment_end a b : Qgis.on_segment a b b.
Proof. exists 1. split; [lra|]. destruct b; cbn [fst snd]. f_equal; ring. Qed.

(** No point of the segment is nearer to [p] than [segNearest]. *)
Lemma segSqrDist_least a b p q :
  Qgis.on_segment a b q -> Qgis.segSqrDist a b p <= Qgis.sqrDist p q.
Proof.
  intros (t & T & ->). destruct a as [ax ay], b as [bx by_], p as [px py].
  unfold Qgis.segSqrDist, Qgis.segNearest, Qgis.segFraction, Qgis.sqrDist.
  cbn [fst snd].
  set (L := (ax - bx) * (ax - bx) + (ay - by_) * (ay - by_)).
  set (dot := (px - ax) * (bx - ax) + (py - ay) * (by_ - ay)).
  assert (E : forall u,
     (px - (ax + u * (bx - ax))) * (px - (ax + u * (bx - ax)))
      + (py - (ay + u * (by_ - ay))) * (py - (ay + u * (by_ - ay)))
     = (px - ax) * (px - ax) + (py - ay) * (py - ay) - 2 * u * dot + u * u * L).
  { intros u. unfold dot, L. ring. }
  assert (N : 0 <= L).
  { unfold L. pose proof (Rle_0_sqr (ax - bx)). pose proof (Rle_0_sqr (ay - by_)).
    unfold Rsqr in *. lra. }
  destruct (Req_dec_T L 0) as [Z|Z].
  - rewrite (Reqb_true _ _ Z).
    assert (X : ax - bx = 0).
    { pose proof (Rle_0_sqr (ax - bx)). pose proof (Rle_0_sqr (ay - by_)).
      unfold L, Rsqr in *.
      assert (S : (ax - bx) * (ax - bx) = 0) by lra.
      apply Rmult_integral in S. destruct S; assumption. }
    assert (Y : ay - by_ = 0).
    { pose proof (Rle_0_sqr (ax - bx)). pose proof (Rle_0_sqr (ay - by_)).
      unfold L, Rsqr in *.
      assert (S : (ay - by_) * (ay - by_) = 0) by lra.
      apply Rmult_integral in S. destruct S; assumption. }
    replace bx with ax by lra. replace by_ with ay by lra.
    apply Req_le. ring.
  - rewrite (Reqb_false _ _ Z).
    set (r := dot / L).
    assert (R : r * L = dot) by (unfold r; field; exact Z).
    assert (G : forall ts,
      ((r <= 0 /\ ts = 0) \/ (0 < r <= 1 /\ ts = r) \/ (1 < r /\ ts = 1)) ->
      0 <= L * ((t - ts) * (t + ts - 2 * r))).
    { intros ts C. apply Rmult_le_pos; [lra|].
      destruct C as [[A ->]|[[A ->]|[A ->]]].
      - replace ((t - 0) * (t + 0 - 2 * r)) with (t * (t - 2 * r)) by ring.
        apply Rmult_le_pos; lra.
      - replace ((t - r) * (t + r - 2 * r)) with ((t - r) * (t - r)) by ring.
        apply Rle_0_sqr.
      - replace ((t - 1) * (t + 1 - 2 * r)) with ((1 - t) * (2 * r - 1 - t))
          by ring.
        apply Rmult_le_pos; lra. }
    destruct (Rle_dec r 0) as [A|A].
    + rewrite Rleb_true by exact A. rewrite (E 0), (E t), <- R.
      pose proof (G 0 ltac:(left; split; [exact A | reflexivity])). nra.
    + rewrite Rleb_false by lra. destruct (Rle_dec r 1) as [B|B].
      * rewrite Rleb_true by exact B. rewrite (E r), (E t), <- R.
        pose proof (G r ltac:(right; left; split; [lra | reflexivity])). nra.
      * rewrite Rleb_false by lra. rewrite (E 1), (E t), <- R.
        pose proof (G 1 ltac:(right; right; split; [lra | reflexivity])). nra.
Qed.

Lemma sqrDistTo_scan_least p vs : forall m a,
  m <= Qgis.sqrDist p a ->
  Qgis.sqrDistTo_scan m a vs p <= m /\
  (forall q, Qgis.on_line (a :: vs) q ->
             Qgis.sqrDistTo_scan m a vs p <= Qgis.sqrDist p q) /\
  (Qgis.sqrDistTo_scan m a vs p = m \/
   exists q, Qgis.on_line (a :: vs) q /\
             Qgis.sqrDistTo_scan m a vs p = Qgis.sqrDist p q).
Proof.
  induction vs as [|b vs IH]; intros m a H; cbn [Qgis.sqrDistTo_scan].
  - split; [lra|]. split; [|left; reflexivity].
    intros q Q. cbn in Q. subst q. exact H.
  - pose proof (segSqrDist_least a b p) as S.
    destruct (IH (Rmin m (Qgis.segSqrDist a b p)) b) as (A & B & C).
    { apply Rle_trans with (Qgis.segSqrDist a b p);
        [apply Rmin_r | apply S, segment_end]. }
    pose proof (Rmin_l m (Qgis.segSqrDist a b p)).
    pose proof (Rmin_r m (Qgis.segSqrDist a b p)).
    split; [lra|]. split.
    + intros q [Q|Q].
      * specialize (S q Q). lra.
      * apply B, Q.
    + destruct C as [C|(q & Q & C)].
      * rewrite C. unfold Rmin. destruct (Rle_dec m (Qgis.segSqrDist a b p)).
        -- left. reflexivity.
        -- right. exists (Qgis.segNearest a b p).
           split; [left; apply segNearest_on_segment | reflexivity].
      * right. exists q. split; [right; exact Q | exact C].
Qed.

(** [sqrDistTo] is the least squared distance from [p] to a point of the
    line string, and a point of the line string is at this distance. *)
Lemma sqrDistTo_least g p s :
  Qgis.sqrDistTo g p = Some s ->
  (forall q, Qgis.on_line g q -> s <= Qgis.sqrDist p q) /\
  exists q, Qgis.on_line g q /\ s = Qgis.sqrDist p q.
Proof.
  destruct g as [|a [|b vs]]; cbn [Qgis.sqrDistTo]; intros H.
  - discriminate.
  - injection H as <-. split.
    + intros q Q. cbn in Q. subst q. lra.
    + exists a. split; reflexivity.
  - injection H as <-.
    destruct (sqrDistTo_scan_least p vs (Qgis.segSqrDist a b p) b)
      as (A & B & C).
    { apply segSqrDist_least, segment_end. }
    split.
    + intros q [Q|Q].
      * pose proof (segSqrDist_least a b p q Q). lra.
      * apply B, Q.
    + destruct C as [C|(q & Q & C)].
      * exists (Qgis.segNearest a b p). split.
        -- left. apply segNearest_on_segment.
        -- rewrite C. reflexivity.
      * exists q. split; [right; exact Q | exact C].
Qed.

Lemma contains_within bg p :
  Qgis.contains bg p = true ->
  exists d q, Qgis.distanceTo (Qgis.base bg) p = Some d /\ d < Qgis.radius bg /\
              Qgis.on_line (Qgis.base bg) q /\ d = sqrt (Qgis.sqrDist p q).
Proof.
  unfold Qgis.contains, Qgis.distanceTo.
  destruct (Qgis.sqrDistTo (Qgis.base bg) p) as [s|] eqn:D; [|discriminate].
  intros H. apply andb_true_iff in H. destruct H as [B S].
  apply Rltb_spec in B. apply Rltb_spec in S.
  destruct (sqrDistTo_least _ _ _ D) as (_ & q & Q & E).
  exists (sqrt s), q. split; [reflexivity|]. split; [|split; [exact Q|]].
  - pose proof (sqrDist_nonneg p q) as N.
    rewrite <- (sqrt_square (Qgis.radius bg)) by lra.
    apply sqrt_lt_1_alt. lra.
  - rewrite E. reflexivity.
Qed.

Lemma beyond_not_contained g b p d :
  Qgis.distanceTo g p = Some d -> b < d ->
  Qgis.contains (Qgis.buffer g b) p = false.
Proof.
  intros D F. destruct (Qgis.contains (Qgis.buffer g b) p) eqn:C; [|reflexivity].
  apply contains_within in C. cbn [Qgis.base Qgis.radius Qgis.buffer] in C.
  destruct C as (d' & q & D' & L & _). rewrite D in D'. injection D' as <-. lra.
Qed.

Lemma finished_points s : profile_points (finished s) = profile_points s.
Proof.
  unfold finished. cbn [ui profile_points set_ui].
  destruct (profile_points s) eqn:E; cbn; rewrite ?E; reflexivity.
Qed.

Lemma failed_points e s : profile_points (failed e s) = profile_points s.
Proof. reflexivity. Qed.

(** The points after [extract_profile_points] are those of the loop. *)
Lemma extract_profile_points_points self l line :
  vpc_layer self = Some l ->
  profile_line self = Some line ->
  profile_points (fst (extract_profile_points self)) =
  profile_points
    (fst (extract_loop line (Qgis.buffer line (buffer_spin (ui self)))
                       (Qgis.length line) (cloud l) (prepared self))).
Proof.
  intros L P. rewrite (extract_profile_points_run self l line L P).
  destruct (extract_loop _ _ _ _ _) as [s [[]|e]]; cbn [fst].
  - apply finished_points.
  - apply failed_points.
Qed.

(** ** The claims on extraction *)

(** C9. Every profile point produced by [extract_profile_points] lies at a
    distance from the profile line less than the buffer distance (the
    distance to its nearest point of the line), and a
    record of the source lying farther than the buffer distance is
    dropped without an error: its turn of the loop returns normally and
    leaves the analyzer as it was, so that the run of the loop is the one
    of the source without this record, and no point of the output is at
    its position. *)
Theorem extracted_points_within_buffer self l line :
  vpc_layer self = Some l ->
  profile_line self = Some line ->
  let b := buffer_spin (ui self) in
  let out := profile_points (fst (extract_profile_points self)) in
  (forall pp, In pp out ->
     exists d q,
       Qgis.distanceTo line (ProfilePoint.x pp, ProfilePoint.y pp) = Some d /\
       d < b /\ Qgis.on_line line q /\
       d = sqrt (Qgis.sqrDist (ProfilePoint.x pp, ProfilePoint.y pp) q)) /\
  (forall r p d,
     position r = Some p -> Qgis.distanceTo line p = Some d -> b < d ->
     (forall s, loop_body line (Qgis.buffer line b) (Qgis.length line) r s
                = (s, Ok tt)) /\
     (forall pre post s,
        extract_loop line (Qgis.buffer line b) (Qgis.length line)
                     (pre ++ r :: post) s
        = extract_loop line (Qgis.buffer line b) (Qgis.length line)
                       (pre ++ post) s) /\
     (forall pp, In pp out -> (ProfilePoint.x pp, ProfilePoint.y pp) <> p)).
Proof.
  intros L P b out.
  assert (A : forall pp, In pp out ->
     exists d q,
       Qgis.distanceTo line (ProfilePoint.x pp, ProfilePoint.y pp) = Some d /\
       d < b /\ Qgis.on_line line q /\
       d = sqrt (Qgis.sqrDist (ProfilePoint.x pp, ProfilePoint.y pp) q)).
  { intros pp I. unfold out in I.
    rewrite (extract_profile_points_points self l line L P) in I.
    destruct (extract_loop_points line (Qgis.buffer line b) (Qgis.length line)
                (cloud l) (prepared self)) as (_ & _ & _ & added & Q & F).
    fold b in I. rewrite Q in I. cbn [prepared profile_points set_profile_points app] in I.
    rewrite Forall_forall in F. destruct (F pp I) as (r & p & _ & _ & C & ->).
    apply contains_within in C. destruct p as [px py]. exact C. }
  split; [exact A|].
  intros r p d R D F.
  pose proof (beyond_not_contained line b p d D F) as C.
  split; [|split].
  - intros s. apply (loop_body_dropped line _ _ r p s R C).
  - intros pre post s. apply (extract_loop_skip line _ _ pre r post p s R C).
  - intros pp I E. destruct (A pp I) as (d' & q & D' & L' & _).
    rewrite E in D'. rewrite D in D'. injection D' as <-. lra.
Qed.

(** C6 (as the code has it). When the source yields no record,
    [extract_profile_points] raises nothing: it returns normally with an
    empty list of profile points, writes the message that no point was
    found, and leaves the analysis button as it was. *)
Theorem extract_empty_source self l line :
  vpc_layer self = Some l ->
  profile_line self = Some line ->
  cloud l = [] ->
  let s' := fst (extract_profile_points self) in
  snd (extract_profile_points self) = Ok tt /\
  profile_points s' = [] /\
  log s' = log self ++ [MsgNoPointFound] /\
  analyze_btn (ui s') = analyze_btn (ui self).
Proof.
  intros L P E. cbn zeta.
  rewrite (extract_profile_points_run self l line L P), E.
  cbn. auto.
Qed.

(** C8 (as the code has it). A record whose ['X'] or ['Y'] is missing or
    not a number ends the extraction at this record: the exception is
    caught and written to the log, no exception leaves the method, the
    profile points are those of the records before it, and the analysis
    button is left as it was.  A record that only lacks ['Z'] is not
    skipped: it is accepted with the elevation 0. *)
Theorem extract_malformed_record self l line pre bad post :
  vpc_layer self = Some l ->
  profile_line self = Some line ->
  cloud l = pre ++ bad :: post ->
  position bad = None ->
  let b := buffer_spin (ui self) in
  let s' := fst (extract_profile_points self) in
  snd (extract_profile_points self) = Ok tt /\
  (exists e, log s' = log self ++ [MsgExtractionError e]) /\
  profile_points s' =
    profile_points (fst (extract_loop line (Qgis.buffer line b)
                                      (Qgis.length line) pre (prepared self))) /\
  analyze_btn (ui s') = analyze_btn (ui self) /\
  (forall r p s,
     position r = Some p -> attrZ r = None ->
     Qgis.contains (Qgis.buffer line b) p = true ->
     exists pp,
       profile_points
         (fst (loop_body line (Qgis.buffer line b) (Qgis.length line) r s))
       = profile_points s ++ [pp] /\
       ProfilePoint.z pp = 0 /\ (ProfilePoint.x pp, ProfilePoint.y pp) = p).
Proof.
  intros L P E B b. cbn zeta.
  split; [apply extract_profile_points_returns|].
  rewrite (extract_profile_points_run self l line L P), E. fold b.
  destruct (extract_loop_abort line (Qgis.buffer line b) (Qgis.length line)
              pre bad post (prepared self) B) as (S & e & X).
  destruct (extract_loop_points line (Qgis.buffer line b) (Qgis.length line)
              pre (prepared self)) as (Lg & _ & A & _).
  destruct (extract_loop line (Qgis.buffer line b) (Qgis.length line)
              (pre ++ bad :: post) (prepared self)) as [s1 r1].
  cbn [fst snd] in S, X. subst r1. cbn [fst]. rewrite S.
  cbn zeta in Lg, A.
  split; [|split; [|split]].
  - exists e. unfold failed. cbn [log add_log set_ui]. rewrite Lg. reflexivity.
  - reflexivity.
  - unfold failed. cbn [ui add_log set_ui analyze_btn set_progress_visible].
    rewrite A. reflexivity.
  - intros r p s R Z C.
    exists (made_point line r p). split; [|split].
    + destruct (Req_dec_T (Qgis.length line) 0) as [T|T].
      * rewrite (loop_body_zero_length line _ _ r p s R C T). reflexivity.
      * rewrite (loop_body_accepted line _ _ r p s R C T). reflexivity.
    + unfold made_point. cbn. rewrite Z. reflexivity.
    + unfold made_point. cbn. destruct p; reflexivity.
Qed.

(** On a line of two vertices the distance given to a point is that of
    one of the two ends: 0 or the length of the line. *)
Lemma two_vertex_distance a b p :
  Qgis.lineLocatePoint [a; b] (Qgis.closestVertex [a; b] p) = 0 \/
  Qgis.lineLocatePoint [a; b] (Qgis.closestVertex [a; b] p) = Qgis.length [a; b].
Proof.
  unfold Qgis.closestVertex, Qgis.closestVertex_scan.
  destruct (Rleb (Qgis.sqrDist p b) (Qgis.sqrDist p a)).
  - right. unfold Qgis.lineLocatePoint, Qgis.locate_scan, Qgis.length,
      Qgis.segFraction, Qgis.segLength.
    destruct (Req_dec_T (Qgis.sqrDist a b) 0) as [Z|Z].
    + rewrite (Reqb_true _ _ Z), Z, sqrt_0. ring.
    + rewrite (Reqb_false _ _ Z).
      replace (((fst b - fst a) * (fst b - fst a)
                + (snd b - snd a) * (snd b - snd a)) / Qgis.sqrDist a b)
        with 1 by (unfold Qgis.sqrDist in *; field; lra).
      rewrite Rleb_false by lra. rewrite Rleb_true by lra. ring.
  - left. unfold Qgis.lineLocatePoint, Qgis.locate_scan, Qgis.segFraction.
    destruct (Reqb (Qgis.sqrDist a b) 0); [ring|].
    replace (((fst a - fst a) * (fst b - fst a)
              + (snd a - snd a) * (snd b - snd a)) / Qgis.sqrDist a b)
      with 0 by (unfold Rdiv; ring).
    rewrite Rleb_true by lra. ring.
Qed.

(** ** Runs on the reference line *)

(** A turn of the loop on the reference line, buffer 5, for a record
    above or below the line and nearer than 5. *)
Lemma reference_turn x y z i it s :
  0 <= x <= 100 -> y * y < 25 ->
  extract_loop reference_line (Qgis.buffer reference_line 5) 100
               (raw x y z i :: it) s =
  extract_loop reference_line (Qgis.buffer reference_line 5) 100 it
    (set_ui (set_progress_value
               (int (Qgis.lineLocatePoint reference_line
                       (Qgis.closestVertex reference_line (x, y)) / 100 * 100))
               (ui s))
       (set_profile_points
          (profile_points s ++ [made_point reference_line (raw x y z i) (x, y)])
          s)).
Proof.
  intros X Y. rewrite extract_loop_cons.
  rewrite (loop_body_accepted reference_line _ 100 (raw x y z i) (x, y) s).
  - reflexivity.
  - reflexivity.
  - rewrite reference_contains by assumption.
    rewrite Rltb_true by lra. rewrite Rltb_true by lra. reflexivity.
  - lra.
Qed.

Lemma reference_turn_far x y z i it s :
  0 <= x <= 100 -> 25 <= y * y ->
  extract_loop reference_line (Qgis.buffer reference_line 5) 100
               (raw x y z i :: it) s =
  extract_loop reference_line (Qgis.buffer reference_line 5) 100 it s.
Proof.
  intros X Y. rewrite extract_loop_cons.
  rewrite (loop_body_dropped reference_line _ 100 (raw x y z i) (x, y) s).
  - reflexivity.
  - reflexivity.
  - rewrite reference_contains by assumption.
    rewrite (Rltb_false (y * y)) by lra. apply andb_false_r.
Qed.

(** The profile points of the reference scenario, as the code makes
    them. *)
Lemma reference_scenario_points :
  profile_points
    (fst (extract_profile_points (session reference_line reference_cloud 5))) =
  reference_points.
Proof.
  rewrite (extract_profile_points_points
             (session reference_line reference_cloud 5)
             (layer_of reference_cloud)
             reference_line eq_refl eq_refl).
  cbn [cloud layer_of session ui buffer_spin]. rewrite reference_length.
  unfold reference_cloud.
  rewrite reference_turn by lra.
  rewrite reference_turn by lra.
  rewrite reference_turn by lra.
  reflexivity.
Qed.

(** C1. On the reference scenario (line from (0,0) to (100,0), buffer 5,
    raw points (10,2,5), (50,1,8), (90,-3,6)) the three points are accepted
    and receive the distances 0, 100 and 100, the arc lengths of the
    vertices nearest to them, whereas the arc lengths of the points of the
    line nearest to them are 10, 50 and 90. *)
Theorem reference_scenario_distances :
  map ProfilePoint.distance
      (profile_points
         (fst (extract_profile_points (session reference_line reference_cloud 5))))
  = [0; 100; 100] /\
  map (fun r => option_map (spec_project reference_line) (position r))
      reference_cloud
  = [Some 10; Some 50; Some 90].
Proof.
  split.
  - rewrite reference_scenario_points.
    unfold reference_points, made_point. cbn [map ProfilePoint.distance].
    rewrite reference_distance_start by lra.
    rewrite !reference_distance_end by lra.
    reflexivity.
  - unfold reference_cloud, raw, position. cbn [map option_map attrX attrY].
    rewrite !reference_project by lra. reflexivity.
Qed.

Lemma far_point_distance :
  Qgis.distanceTo reference_line (10, 20) = Some 20.
Proof.
  unfold Qgis.distanceTo. rewrite reference_sqrDistTo by lra.
  cbn [option_map]. f_equal. apply sqrt_square. lra.
Qed.

Lemma extracted_points_within_buffer_witness :
  let out :=
    profile_points
      (fst (extract_profile_points
              (session reference_line (raw 10 20 7 None :: reference_cloud) 5))) in
  (forall pp, In pp out ->
     exists d q,
       Qgis.distanceTo reference_line (ProfilePoint.x pp, ProfilePoint.y pp)
       = Some d /\
       d < 5 /\ Qgis.on_line reference_line q /\
       d = sqrt (Qgis.sqrDist (ProfilePoint.x pp, ProfilePoint.y pp) q)) /\
  (forall s, loop_body reference_line (Qgis.buffer reference_line 5)
                       (Qgis.length reference_line) (raw 10 20 7 None) s
             = (s, Ok tt)) /\
  (forall pp, In pp out -> (ProfilePoint.x pp, ProfilePoint.y pp) <> (10, 20)).
Proof.
  destruct (extracted_points_within_buffer
              (session reference_line (raw 10 20 7 None :: reference_cloud) 5)
              (layer_of (raw 10 20 7 None :: reference_cloud))
              reference_line eq_refl eq_refl) as [A B].
  split; [exact A|].
  destruct (B (raw 10 20 7 None) (10, 20) 20 eq_refl far_point_distance)
    as (D & _ & N).
  - cbn [session ui buffer_spin]. lra.
  - split; [exact D | exact N].
Defined.

(** The point (10, 20) is left out of the reference scenario. *)
Lemma far_point_excluded :
  profile_points
    (fst (extract_profile_points
            (session reference_line (raw 10 20 7 None :: reference_cloud) 5))) =
  profile_points
    (fst (extract_profile_points (session reference_line reference_cloud 5))).
Proof.
  rewrite (extract_profile_points_points
             (session reference_line (raw 10 20 7 None :: reference_cloud) 5)
             (layer_of (raw 10 20 7 None :: reference_cloud))
             reference_line eq_refl eq_refl).
  rewrite (extract_profile_points_points
             (session reference_line reference_cloud 5)
             (layer_of reference_cloud) reference_line eq_refl eq_refl).
  cbn [cloud layer_of session ui buffer_spin]. rewrite reference_length.
  rewrite reference_turn_far by lra. unfold reference_cloud.
  rewrite !reference_turn by lra. reflexivity.
Qed.

Lemma extract_empty_source_witness :
  let s' := fst (extract_profile_points (session reference_line [] 5)) in
  snd (extract_profile_points (session reference_line [] 5)) = Ok tt /\
  profile_points s' = [] /\
  log s' = [MsgNoPointFound] /\
  analyze_btn (ui s') = false.
Proof.
  exact (extract_empty_source (session reference_line [] 5) (layer_of [])
           reference_line eq_refl eq_refl eq_refl).
Defined.

(** C6, as stated, fails: on an empty source no [EmptyInputError] is
    raised; the method returns normally. *)
Lemma empty_source_counterexample :
  snd (extract_profile_points (session reference_line [] 5)) = Ok tt /\
  snd (extract_profile_points (session reference_line [] 5))
  <> Raise (Exc "EmptyInputError").
Proof.
  pose proof (extract_profile_points_returns (session reference_line [] 5)) as H.
  split; [exact H|]. rewrite H. discriminate.
Qed.

Lemma extract_malformed_record_witness :
  let self := session reference_line
                [raw 10 2 5 (Some 50); no_x_record; raw 90 (-3) 6 None] 5 in
  let s' := fst (extract_profile_points self) in
  snd (extract_profile_points self) = Ok tt /\
  (exists e, log s' = [MsgExtractionError e]) /\
  profile_points s' =
    profile_points
      (fst (extract_loop reference_line (Qgis.buffer reference_line 5)
              (Qgis.length reference_line) [raw 10 2 5 (Some 50)]
              (prepared self))) /\
  analyze_btn (ui s') = false.
Proof.
  destruct (extract_malformed_record
              (session reference_line
                 [raw 10 2 5 (Some 50); no_x_record; raw 90 (-3) 6 None] 5)
              (layer_of [raw 10 2 5 (Some 50); no_x_record; raw 90 (-3) 6 None])
              reference_line [raw 10 2 5 (Some 50)] no_x_record
              [raw 90 (-3) 6 None] eq_refl eq_refl eq_refl eq_refl)
    as (A & B & C & D & _).
  repeat split; assumption.
Defined.

(** C8, as stated, fails: with a record without ['X'] first in the
    source, the well-formed record after it, which lies inside the
    buffer, is not processed; the list of profile points stays empty and
    the log holds the [KeyError]. *)
Lemma malformed_record_counterexample :
  let self := session reference_line [no_x_record; raw 10 2 5 (Some 50)] 5 in
  position (raw 10 2 5 (Some 50)) = Some (10, 2) /\
  Qgis.contains (Qgis.buffer reference_line 5) (10, 2) = true /\
  profile_points (fst (extract_profile_points self)) = [] /\
  log (fst (extract_profile_points self)) = [MsgExtractionError KeyError].
Proof.
  cbn zeta. split; [reflexivity|]. split.
  - rewrite reference_contains by lra.
    rewrite Rltb_true by lra. rewrite Rltb_true by lra. reflexivity.
  - rewrite (extract_profile_points_run
               (session reference_line [no_x_record; raw 10 2 5 (Some 50)] 5)
               (layer_of [no_x_record; raw 10 2 5 (Some 50)])
               reference_line eq_refl eq_refl).
    cbn [cloud layer_of]. rewrite extract_loop_cons.
    split; reflexivity.
Qed.

(** ** Degenerate profile lines *)

Lemma degenerate_length a : Qgis.length [a; a] = 0.
Proof.
  unfold Qgis.length, Qgis.segLength.
  replace (Qgis.sqrDist a a) with 0 by (unfold Qgis.sqrDist; ring).
  rewrite sqrt_0. ring.
Qed.

Lemma degenerate_contains a b p :
  Qgis.contains (Qgis.buffer [a; a] b) p =
  Rltb 0 b && Rltb (Qgis.sqrDist p a) (b * b).
Proof.
  unfold Qgis.contains, Qgis.buffer, Qgis.sqrDistTo, Qgis.sqrDistTo_scan,
    Qgis.segSqrDist, Qgis.segNearest, Qgis.segFraction.
  cbn [Qgis.base Qgis.radius].
  rewrite Reqb_true by (unfold Qgis.sqrDist; ring).
  replace (fst a + 0 * (fst a - fst a), snd a + 0 * (snd a - snd a)) with a
    by (destruct a; cbn [fst snd]; f_equal; ring).
  reflexivity.
Qed.

(** C7 (as the code has it). A degenerate profile line is not rejected:
    on a layer whose extent has no width [get_profile_line] returns
    normally and sets a profile line of two coincident vertices and of
    length 0, and [extract_profile_points] on it returns normally, with no
    [InvalidGeometryError] or other exception. *)
Theorem degenerate_line_not_rejected self l :
  vpc_layer self = Some l ->
  Qgis.xMinimum (extent l) = Qgis.xMaximum (extent l) ->
  let s1 := fst (get_profile_line self) in
  snd (get_profile_line self) = Ok tt /\
  (exists a, profile_line s1 = Some [a; a] /\ Qgis.length [a; a] = 0) /\
  vpc_layer s1 = Some l /\
  snd (extract_profile_points s1) = Ok tt.
Proof.
  intros L W. unfold get_profile_line. rewrite L. cbn [fst snd].
  split; [reflexivity|]. split; [|split].
  - exists (Qgis.xMinimum (extent l), snd (Qgis.center (extent l))).
    split; [|apply degenerate_length].
    cbn [profile_line set_profile_line]. rewrite <- W. reflexivity.
  - exact L.
  - apply extract_profile_points_returns.
Qed.

Lemma degenerate_line_not_rejected_witness :
  let s1 := fst (get_profile_line narrow_session) in
  snd (get_profile_line narrow_session) = Ok tt /\
  (exists a, profile_line s1 = Some [a; a] /\ Qgis.length [a; a] = 0) /\
  vpc_layer s1 = Some narrow_layer /\
  snd (extract_profile_points s1) = Ok tt.
Proof.
  exact (degenerate_line_not_rejected narrow_session narrow_layer
           eq_refl eq_refl).
Defined.

(** C7, as stated, fails: on the layer whose extent has no width the
    profile line made by [get_profile_line] has length 0, and the
    extraction on it raises no [InvalidGeometryError]: it returns
    normally, the first record is already in the list of profile points
    when the progress ratio divides by 0, and the log holds the
    [ZeroDivisionError]. *)
Lemma degenerate_line_counterexample :
  let s1 := fst (get_profile_line narrow_session) in
  let s2 := fst (extract_profile_points s1) in
  (forall line, profile_line s1 = Some line -> Qgis.length line = 0) /\
  snd (extract_profile_points s1) = Ok tt /\
  snd (extract_profile_points s1) <> Raise (Exc "InvalidGeometryError") /\
  map ProfilePoint.original_coords (profile_points s2) = [Some (3, 1, 7)] /\
  log s2 = [MsgExtractionError ZeroDivisionError].
Proof.
  cbn zeta.
  set (a := (3, snd (Qgis.center (Qgis.mkRectangle 3 (-10) 3 10))) : Qgis.point).
  assert (P : profile_line (fst (get_profile_line narrow_session)) = Some [a; a])
    by reflexivity.
  assert (V : vpc_layer (fst (get_profile_line narrow_session)) = Some narrow_layer)
    by reflexivity.
  split; [|split; [|split]].
  - intros line H. rewrite P in H. injection H as <-. apply degenerate_length.
  - apply extract_profile_points_returns.
  - rewrite extract_profile_points_returns. discriminate.
  - rewrite (extract_profile_points_run _ narrow_layer [a; a] V P).
    rewrite degenerate_length. cbn [cloud narrow_layer].
    rewrite extract_loop_cons.
    rewrite (loop_body_zero_length [a; a] _ 0 (raw 3 1 7 None) (3, 1)).
    + split; reflexivity.
    + reflexivity.
    + rewrite degenerate_contains. unfold a, Qgis.sqrDist, Qgis.center.
      cbn [fst snd Qgis.xMinimum Qgis.xMaximum Qgis.yMinimum Qgis.yMaximum
           ui buffer_spin get_profile_line narrow_session vpc_layer
           set_profile_line].
      rewrite Rltb_true by lra. rewrite Rltb_true by lra. reflexivity.
    + reflexivity.
Qed.

(** ** Maximum, minimum and the intensities *)

Lemma max_of_spec t : forall x,
  In (max_of x t) (x :: t) /\ forall v, In v (x :: t) -> v <= max_of x t.
Proof.
  unfold max_of. induction t as [|a t IH]; intros x; cbn [fold_left].
  - split; [left; reflexivity|]. intros v [<-|[]]. lra.
  - destruct (IH (Rmax x a)) as [I U]. split.
    + destruct I as [E|I]; [|right; right; exact I].
      rewrite <- E. unfold Rmax. destruct (Rle_dec x a); [right; left|left]; reflexivity.
    + intros v [E|[E|K]].
      * subst v. apply Rle_trans with (Rmax x a);
          [apply Rmax_l | apply U; left; reflexivity].
      * subst v. apply Rle_trans with (Rmax x a);
          [apply Rmax_r | apply U; left; reflexivity].
      * apply U. right. exact K.
Qed.

Lemma min_of_spec t : forall x,
  In (min_of x t) (x :: t) /\ forall v, In v (x :: t) -> min_of x t <= v.
Proof.
  unfold min_of. induction t as [|a t IH]; intros x; cbn [fold_left].
  - split; [left; reflexivity|]. intros v [<-|[]]. lra.
  - destruct (IH (Rmin x a)) as [I U]. split.
    + destruct I as [E|I]; [|right; right; exact I].
      rewrite <- E. unfold Rmin. destruct (Rle_dec x a); [left|right; left]; reflexivity.
    + intros v [E|[E|K]].
      * subst v. apply Rle_trans with (Rmin x a);
          [apply U; left; reflexivity | apply Rmin_l].
      * subst v. apply Rle_trans with (Rmin x a);
          [apply U; left; reflexivity | apply Rmin_r].
      * apply U. right. exact K.
Qed.

(** [pymax l] is the greatest and [pymin l] the least element of a
    non-empty [l]. *)
Lemma pymax_spec l :
  l <> [] -> In (pymax l) l /\ forall v, In v l -> v <= pymax l.
Proof. destruct l as [|x t]; [congruence|]. intros _. apply max_of_spec. Qed.

Lemma pymin_spec l :
  l <> [] -> In (pymin l) l /\ forall v, In v l -> pymin l <= v.
Proof. destruct l as [|x t]; [congruence|]. intros _. apply min_of_spec. Qed.

Lemma present_intensities_In pts i :
  In i (present_intensities pts) <->
  exists p, In p pts /\ ProfilePoint.intensity p = Some i.
Proof.
  induction pts as [|p pts IH]; cbn [present_intensities].
  - split; [intros [] | intros (p & [] & _)].
  - destruct (ProfilePoint.intensity p) as [j|] eqn:E.
    + split.
      * intros [<-|I]; [exists p; split; [left|]; auto|].
        apply IH in I. destruct I as (q & I & Q). exists q. split; [right|]; auto.
      * intros (q & [<-|I] & Q).
        -- left. congruence.
        -- right. apply IH. eauto.
    + split.
      * intros I. apply IH in I. destruct I as (q & I & Q).
        exists q. split; [right|]; auto.
      * intros (q & [<-|I] & Q); [congruence|]. apply IH. eauto.
Qed.

Lemma present_intensities_nil pts :
  present_intensities pts = [] <->
  forall p, In p pts -> ProfilePoint.intensity p = None.
Proof.
  split.
  - intros E p I. destruct (ProfilePoint.intensity p) as [i|] eqn:Q; [|reflexivity].
    assert (H : In i (present_intensities pts))
      by (apply present_intensities_In; eauto).
    rewrite E in H. destruct H.
  - intros H. destruct (present_intensities pts) as [|i t] eqn:E; [reflexivity|].
    assert (I : In i (present_intensities pts)) by (rewrite E; left; reflexivity).
    apply present_intensities_In in I. destruct I as (p & I & Q).
    rewrite (H p I) in Q. discriminate.
Qed.

(** ** The basic statistics *)

(** C10 (as the code has it). For a non-empty list of profile points the
    field [profile_length] is the greatest minus the least of the
    distances of the points. *)
Theorem profile_length_span pts :
  pts <> [] ->
  let distances := map ProfilePoint.distance pts in
  dict_get "profile_length" (compute_basic_statistics pts)
  = Some (PFloat (pymax distances - pymin distances)) /\
  In (pymax distances) distances /\ In (pymin distances) distances /\
  (forall d, In d distances -> pymin distances <= d <= pymax distances).
Proof.
  intros N distances.
  assert (D : distances <> []).
  { unfold distances. destruct pts; [congruence | discriminate]. }
  destruct (pymax_spec distances D) as [I U].
  destruct (pymin_spec distances D) as [J V].
  split; [|repeat split; auto].
  unfold compute_basic_statistics. destruct pts as [|p pts]; [congruence|].
  fold distances.
  destruct (present_intensities (p :: pts)); cbn [dict_set dict_get String.eqb];
    unfold distances; reflexivity.
Qed.

Lemma profile_length_span_witness :
  dict_get "profile_length"
    (compute_basic_statistics
       [ProfilePoint.mk 1 0 7 10 None None None None;
        ProfilePoint.mk 2 0 9 40 None None None None])
  = Some (PFloat (pymax [10; 40] - pymin [10; 40])).
Proof.
  apply (profile_length_span
           [ProfilePoint.mk 1 0 7 10 None None None None;
            ProfilePoint.mk 2 0 9 40 None None None None]).
  discriminate.
Defined.

(** C10, as stated, fails for the empty list: the result is the empty
    dictionary, which has no field [profile_length], and not a field of
    value 0. *)
Lemma profile_length_counterexample :
  compute_basic_statistics [] = [] /\
  dict_get "profile_length" (compute_basic_statistics []) = None /\
  dict_get "profile_length" (compute_basic_statistics []) <> Some (PInt 0) /\
  dict_get "profile_length" (compute_basic_statistics []) <> Some (PFloat 0).
Proof. repeat split; cbn; discriminate. Qed.

(** C5 (as the code has it). The group [intensity_stats] is present iff
    some profile point carries an intensity; when present it holds the
    fields [min], [max], [mean] and [std], and no other, computed over the
    intensities that are present, which are the intensities of the points
    carrying one, in the order of the points. *)
Theorem intensity_stats_present pts :
  let intensities := present_intensities pts in
  (dict_has "intensity_stats" (compute_basic_statistics pts) = true <->
   exists p i, In p pts /\ ProfilePoint.intensity p = Some i) /\
  (forall v, dict_get "intensity_stats" (compute_basic_statistics pts) = Some v ->
     v = PDict [ ("min", PFloat (pymin intensities));
                 ("max", PFloat (pymax intensities));
                 ("mean", PFloat (Np.mean intensities));
                 ("std", PFloat (Np.std intensities)) ]%string) /\
  (forall i, In i intensities <->
     exists p, In p pts /\ ProfilePoint.intensity p = Some i).
Proof.
  intros intensities. split; [|split].
  - unfold dict_has, compute_basic_statistics. destruct pts as [|p pts].
    + cbn. split; [discriminate | intros (q & i & [] & _)].
    + destruct (present_intensities (p :: pts)) as [|i t] eqn:E.
      * cbn. split; [discriminate|]. intros (q & j & I & Q).
        rewrite (proj1 (present_intensities_nil (p :: pts)) E q I) in Q.
        discriminate.
      * cbn. split; [intros _|reflexivity].
        assert (I : In i (present_intensities (p :: pts)))
          by (rewrite E; left; reflexivity).
        apply present_intensities_In in I. destruct I as (q & I & Q). eauto.
  - intros v. unfold compute_basic_statistics. destruct pts as [|p pts].
    + cbn. discriminate.
    + unfold intensities.
      destruct (present_intensities (p :: pts)) as [|i t] eqn:E.
      * cbn. discriminate.
      * cbn [dict_set dict_get String.eqb Ascii.eqb Bool.eqb].
        intros H. injection H as <-. reflexivity.
  - intros i. apply present_intensities_In.
Qed.

Lemma mean_pair a b : Np.mean [a; b] = (a + b) / 2.
Proof. unfold Np.mean, Np.sum. cbn [fold_right List.length INR]. field. Qed.

(** C5, as stated, fails on the shape: in the reference scenario the
    group [intensity_stats] is computed over the two intensities 50 and
    60 (mean 55), and it has the fields [min], [max], [mean] and [std]
    but no field [range], which [elevation_stats] has. *)
Lemma intensity_stats_counterexample :
  let stats :=
    compute_basic_statistics
      (profile_points
         (fst (extract_profile_points (session reference_line reference_cloud 5)))) in
  exists d e,
    dict_get "intensity_stats" stats = Some (PDict d) /\
    keys d = ["min"; "max"; "mean"; "std"]%string /\
    dict_get "range" d = None /\
    dict_get "mean" d = Some (PFloat 55) /\
    dict_get "elevation_stats" stats = Some (PDict e) /\
    keys e = ["min"; "max"; "mean"; "std"; "range"]%string.
Proof.
  cbn zeta. rewrite reference_scenario_points.
  unfold compute_basic_statistics, reference_points.
  cbn [present_intensities made_point raw attrIntensity ProfilePoint.intensity].
  eexists. eexists.
  split; [cbn [dict_set dict_get String.eqb Ascii.eqb Bool.eqb]; reflexivity|].
  cbn [dict_set dict_get String.eqb Ascii.eqb Bool.eqb keys map fst].
  repeat split. rewrite mean_pair. do 2 f_equal. lra.
Qed.

Lemma intensity_stats_present_witness :
  dict_has "intensity_stats" (compute_basic_statistics reference_points) = true.
Proof.
  apply (proj1 (intensity_stats_present reference_points)).
  exists (made_point reference_line (raw 10 2 5 (Some 50)) (10, 2)), 50.
  split; [left; reflexivity | reflexivity].
Defined.

(** ** The slopes *)

(** The angle computed by the code is the one the specification words. *)
Lemma slope_angle_spec p1 p2 : slope_angle p1 p2 = spec_slope_angle p1 p2.
Proof. unfold slope_angle, degrees, spec_slope_angle. reflexivity. Qed.

Lemma total_sum l : total l = Np.sum l.
Proof.
  induction l as [|v l IH]; [reflexivity|].
  cbn [total Np.sum fold_right]. fold (Np.sum l). rewrite IH. reflexivity.
Qed.

Lemma spec_mean_mean l : spec_mean l = Np.mean l.
Proof. unfold spec_mean, Np.mean. rewrite total_sum. reflexivity. Qed.

Lemma spec_population_std_std l : spec_population_std l = Np.std l.
Proof.
  unfold spec_population_std, Np.std, Np.mean at 1.
  rewrite total_sum, length_map, spec_mean_mean. do 3 f_equal.
  apply map_ext. intros v. ring.
Qed.

Lemma slopes_loop_spec rest : forall pre p acc,
  fold_left (slopes_step (pre ++ p :: rest))
            (seq (S (List.length pre)) (List.length rest)) acc
  = acc ++ spec_slopes (p :: rest).
Proof.
  induction rest as [|q rest IH]; intros pre p acc.
  - cbn. rewrite app_nil_r. reflexivity.
  - cbn [List.length seq fold_left].
    assert (S1 : slopes_step (pre ++ p :: q :: rest) acc (S (List.length pre))
                 = if Reqb (ProfilePoint.distance q) (ProfilePoint.distance p)
                   then acc else acc ++ [slope_angle p q]).
    { assert (A : nth_error (pre ++ p :: q :: rest) (List.length pre) = Some p).
      { rewrite nth_error_app2 by lia. rewrite Nat.sub_diag. reflexivity. }
      assert (B : nth_error (pre ++ p :: q :: rest) (S (List.length pre)) = Some q).
      { rewrite nth_error_app2 by lia.
        replace (S (List.length pre) - List.length pre)%nat with 1%nat by lia.
        reflexivity. }
      unfold slopes_step.
      replace (S (List.length pre) - 1)%nat with (List.length pre) by lia.
      rewrite A, B. reflexivity. }
    rewrite S1.
    replace (pre ++ p :: q :: rest) with ((pre ++ [p]) ++ q :: rest)
      by (rewrite <- app_assoc; reflexivity).
    replace (S (S (List.length pre))) with (S (List.length (pre ++ [p])))
      by (rewrite length_app; cbn; lia).
    rewrite IH. cbn [spec_slopes]. rewrite slope_angle_spec.
    destruct (Reqb (ProfilePoint.distance q) (ProfilePoint.distance p)).
    + reflexivity.
    + rewrite <- app_assoc. reflexivity.
Qed.

(** The loop over the indices computes the slopes of the consecutive
    pairs. *)
Lemma compute_slopes_spec pts : compute_slopes pts = spec_slopes pts.
Proof.
  unfold compute_slopes. destruct pts as [|p rest]; [reflexivity|].
  replace (List.length (p :: rest) - 1)%nat with (List.length rest)
    by (cbn [List.length]; lia).
  apply (slopes_loop_spec rest [] p []).
Qed.

(** C2. For at least 3 profile points the terrain analysis holds under
    [slopes] the slope angles of the consecutive pairs with unequal
    distances, in sequence order, each the arc tangent of
    [(z2 - z1) / (d2 - d1)] converted to degrees, the pairs with equal
    distances giving no entry; and, when there is a slope, [mean_slope]
    and [slope_std] are the mean and the population standard deviation of
    the slopes, and [max_slope] and [min_slope] are the greatest and the
    least of them. *)
Theorem terrain_analysis_slopes pts :
  (3 <= List.length pts)%nat ->
  let slopes := spec_slopes pts in
  exists mean_slope max_slope min_slope slope_std,
    compute_terrain_analysis pts =
      [ ("terrain_analysis",
          PDict [ ("slopes", PList slopes);
                  ("mean_slope", mean_slope);
                  ("max_slope", max_slope);
                  ("min_slope", min_slope);
                  ("slope_std", slope_std) ]) ]%string /\
    (slopes <> [] ->
       mean_slope = PFloat (spec_mean slopes) /\
       slope_std = PFloat (spec_population_std slopes) /\
       exists greatest least,
         max_slope = PFloat greatest /\ min_slope = PFloat least /\
         In greatest slopes /\ In least slopes /\
         forall v, In v slopes -> least <= v <= greatest) /\
    (slopes = [] ->
       mean_slope = PInt 0 /\ max_slope = PInt 0 /\
       min_slope = PInt 0 /\ slope_std = PInt 0).
Proof.
  intros L slopes. unfold compute_terrain_analysis.
  replace (List.length pts <? 3)%nat with false
    by (symmetry; apply Nat.ltb_ge; exact L).
  rewrite compute_slopes_spec. fold slopes.
  do 4 eexists. split; [reflexivity|]. split.
  - intros N. destruct (pymax_spec slopes N) as [I U].
    destruct (pymin_spec slopes N) as [J V].
    destruct slopes as [|v t] eqn:E; [congruence|].
    cbn [if_nonempty].
    split; [f_equal; symmetry; apply spec_mean_mean|].
    split; [f_equal; symmetry; apply spec_population_std_std|].
    exists (pymax (v :: t)), (pymin (v :: t)).
    repeat split; auto.
  - intros ->. repeat split.
Qed.

(** Between the distances 0 and 1 the elevation rises by 1: a slope of
    45 degrees; the third point, at the distance of the second, gives no
    entry. *)
Lemma terrain_analysis_slopes_witness :
  spec_slopes [at_distance 0 0; at_distance 1 1; at_distance 1 5] = [45] /\
  exists mean_slope min_slope slope_std,
    compute_terrain_analysis [at_distance 0 0; at_distance 1 1; at_distance 1 5] =
      [ ("terrain_analysis",
          PDict [ ("slopes", PList [45]);
                  ("mean_slope", mean_slope);
                  ("max_slope", PFloat 45);
                  ("min_slope", min_slope);
                  ("slope_std", slope_std) ]) ]%string.
Proof.
  assert (E : spec_slopes [at_distance 0 0; at_distance 1 1; at_distance 1 5]
              = [45]).
  { cbn [spec_slopes at_distance ProfilePoint.distance].
    rewrite (Reqb_true 1 1) by reflexivity.
    rewrite (Reqb_false 1 0) by lra.
    unfold spec_slope_angle, at_distance.
    cbn [ProfilePoint.z ProfilePoint.distance].
    replace ((1 - 0) / (1 - 0)) with 1 by field.
    rewrite atan_1. f_equal. field. apply PI_neq0. }
  split; [exact E|].
  destruct (terrain_analysis_slopes
              [at_distance 0 0; at_distance 1 1; at_distance 1 5])
    as (m & M & n & sd & H & K & _).
  - cbn. lia.
  - rewrite E in H, K. exists m, n, sd.
    destruct K as (_ & _ & g & l & -> & _ & I & _); [discriminate|].
    destruct I as [<-|[]]. exact H.
Defined.

(** ** Sums and the normal equations *)

Lemma sum_affine a b l :
  Np.sum (map (fun v => a * v + b) l) = a * Np.sum l + b * INR (List.length l).
Proof.
  induction l as [|x l IH].
  - cbn. ring.
  - cbn [map Np.sum fold_right List.length]. fold (Np.sum l).
    fold (Np.sum (map (fun v => a * v + b) l)). rewrite IH, S_INR. ring.
Qed.

Lemma sum_products_affine a b l :
  Np.sum (map (fun p => fst p * snd p) (combine l (map (fun v => a * v + b) l)))
  = a * Np.sum (map (fun v => v * v) l) + b * Np.sum l.
Proof.
  induction l as [|x l IH].
  - cbn. ring.
  - cbn [map combine Np.sum fold_right fst snd].
    fold (Np.sum l). fold (Np.sum (map (fun v => v * v) l)).
    fold (Np.sum (map (fun p => fst p * snd p)
                      (combine l (map (fun v => a * v + b) l)))).
    rewrite IH. ring.
Qed.

Lemma sum_squares_nonneg (f : R -> R) l : 0 <= Np.sum (map (fun v => f v * f v) l).
Proof.
  induction l as [|x l IH]; cbn [map Np.sum fold_right].
  - lra.
  - fold (Np.sum (map (fun v => f v * f v) l)).
    pose proof (Rle_0_sqr (f x)) as H. unfold Rsqr in H. lra.
Qed.

Lemma sum_squares_zero (f : R -> R) l :
  Np.sum (map (fun v => f v * f v) l) = 0 -> forall v, In v l -> f v = 0.
Proof.
  induction l as [|x l IH]; cbn [map Np.sum fold_right].
  - intros _ v [].
  - fold (Np.sum (map (fun v => f v * f v) l)). intros H v I.
    pose proof (sum_squares_nonneg f l) as N.
    pose proof (Rle_0_sqr (f x)) as Q. unfold Rsqr in Q.
    destruct I as [<-|I].
    + assert (Z : f x * f x = 0) by lra.
      apply Rmult_integral in Z. destruct Z; assumption.
    + apply IH; [lra | exact I].
Qed.

Lemma sum_square_differences x l :
  Np.sum (map (fun v => (x - v) * (x - v)) l)
  = INR (List.length l) * (x * x) - 2 * x * Np.sum l
    + Np.sum (map (fun v => v * v) l).
Proof.
  induction l as [|y l IH].
  - cbn. ring.
  - cbn [map Np.sum fold_right List.length].
    fold (Np.sum l). fold (Np.sum (map (fun v => v * v) l)).
    fold (Np.sum (map (fun v => (x - v) * (x - v)) l)).
    rewrite IH, S_INR. ring.
Qed.

Lemma normal_det_cons x l :
  Np.normal_det (x :: l)
  = Np.normal_det l + Np.sum (map (fun v => (x - v) * (x - v)) l).
Proof.
  rewrite sum_square_differences. unfold Np.normal_det.
  cbn [map Np.sum fold_right List.length].
  fold (Np.sum l). fold (Np.sum (map (fun v => v * v) l)).
  rewrite S_INR. ring.
Qed.

Lemma normal_det_nonneg l : 0 <= Np.normal_det l.
Proof.
  induction l as [|x l IH].
  - unfold Np.normal_det. cbn. lra.
  - rewrite normal_det_cons.
    pose proof (sum_squares_nonneg (fun v => x - v) l). lra.
Qed.

(** The determinant of the normal equations is 0 only when all the
    abscissas are equal. *)
Lemma normal_det_zero l :
  Np.normal_det l = 0 -> forall a b, In a l -> In b l -> a = b.
Proof.
  induction l as [|x l IH].
  - intros _ a b [].
  - rewrite normal_det_cons. intros H.
    pose proof (normal_det_nonneg l) as N.
    pose proof (sum_squares_nonneg (fun v => x - v) l) as Q.
    assert (E : forall v, In v l -> v = x).
    { intros v I.
      pose proof (sum_squares_zero (fun v => x - v) l ltac:(lra) v I). lra. }
    intros a b [<-|A] [<-|B].
    + reflexivity.
    + symmetry. apply E, B.
    + apply E, A.
    + rewrite (E a A), (E b B). reflexivity.
Qed.

Lemma sum_zero (f : R -> R) l :
  (forall v, In v l -> f v = 0) -> Np.sum (map f l) = 0.
Proof.
  induction l as [|x l IH]; intros H; cbn [map Np.sum fold_right].
  - reflexivity.
  - fold (Np.sum (map f l)).
    rewrite IH by (intros v I; apply H; right; exact I).
    rewrite (H x) by (left; reflexivity). ring.
Qed.

Lemma normal_det_equal l d :
  (forall v, In v l -> v = d) -> Np.normal_det l = 0.
Proof.
  induction l as [|x l IH]; intros H.
  - unfold Np.normal_det. cbn. ring.
  - rewrite normal_det_cons, IH by (intros v I; apply H; right; exact I).
    rewrite sum_zero; [ring|].
    intros v I. rewrite (H x) by (left; reflexivity).
    rewrite (H v) by (right; exact I). ring.
Qed.

(** On points of a line [y = a x + b] with two distinct abscissas the
    fit returns the line. *)
Lemma polyfit1_of_line a b x :
  (exists u v, In u x /\ In v x /\ u <> v) ->
  Np.polyfit1 x (map (fun v => a * v + b) x) = Ok (a, b).
Proof.
  intros (u & v & U & V & N).
  assert (D : Np.normal_det x <> 0).
  { intros Z. apply N. exact (normal_det_zero x Z u v U V). }
  assert (S : Np.sum (map (fun w => w * w) x) <> 0).
  { intros Z. apply N.
    pose proof (sum_squares_zero (fun w => w) x Z) as A.
    rewrite (A u U), (A v V). reflexivity. }
  unfold Np.polyfit1. rewrite (Reqb_false _ 0 S), (Reqb_false _ 0 D).
  rewrite sum_affine, sum_products_affine. unfold Np.normal_det in *.
  f_equal. f_equal; field; exact D.
Qed.

(** ** The fit is a least-squares fit *)

Lemma sse_expand x : forall y a b,
  List.length x = List.length y ->
  Np.sse x y a b
  = Np.sum (map (fun v => v * v) y)
    - 2 * a * Np.sum (map (fun p => fst p * snd p) (combine x y))
    - 2 * b * Np.sum y
    + a * a * Np.sum (map (fun v => v * v) x)
    + 2 * a * b * Np.sum x
    + INR (List.length x) * (b * b).
Proof.
  unfold Np.sse. induction x as [|u x IH]; intros [|v y] a b L; try discriminate.
  - cbn. ring.
  - injection L as L. cbn [combine map Np.sum fold_right fst snd List.length].
    fold (Np.sum x). fold (Np.sum y).
    fold (Np.sum (map (fun w => w * w) x)). fold (Np.sum (map (fun w => w * w) y)).
    fold (Np.sum (map (fun p => fst p * snd p) (combine x y))).
    fold (Np.sum (map (fun p => (snd p - (a * fst p + b)) * (snd p - (a * fst p + b)))
                      (combine x y))).
    rewrite (IH y a b L), S_INR. ring.
Qed.

Lemma sum_affine_squares c e l :
  Np.sum (map (fun v => (c * v + e) * (c * v + e)) l)
  = c * c * Np.sum (map (fun v => v * v) l) + 2 * c * e * Np.sum l
    + INR (List.length l) * (e * e).
Proof.
  induction l as [|x l IH].
  - cbn. ring.
  - cbn [map Np.sum fold_right List.length].
    fold (Np.sum l). fold (Np.sum (map (fun v => v * v) l)).
    fold (Np.sum (map (fun v => (c * v + e) * (c * v + e)) l)).
    rewrite IH, S_INR. ring.
Qed.

Lemma sums_of_equal d x :
  (forall v, In v x -> v = d) ->
  Np.sum x = INR (List.length x) * d /\
  Np.sum (map (fun v => v * v) x) = INR (List.length x) * (d * d) /\
  forall y, Np.sum (map (fun p => fst p * snd p) (combine x y))
            = d * Np.sum (map snd (combine x y)).
Proof.
  induction x as [|u x IH]; intros H.
  - cbn. repeat split; try ring. intros y. ring.
  - destruct IH as (A & B & C); [intros v I; apply H; right; exact I|].
    assert (U : u = d) by (apply H; left; reflexivity). subst u.
    cbn [map Np.sum fold_right List.length].
    fold (Np.sum x). fold (Np.sum (map (fun v => v * v) x)).
    rewrite A, B, S_INR. repeat split; try ring.
    intros [|v y]; cbn [combine map Np.sum fold_right fst snd].
    + ring.
    + fold (Np.sum (map (fun p => fst p * snd p) (combine x y))).
      fold (Np.sum (map snd (combine x y))). rewrite C. ring.
Qed.

Lemma map_snd_combine (x y : list R) :
  List.length x = List.length y -> map snd (combine x y) = y.
Proof.
  revert y. induction x as [|u x IH]; intros [|v y] L; try discriminate.
  - reflexivity.
  - injection L as L. cbn. rewrite IH by exact L. reflexivity.
Qed.

(** Whenever [polyfit1] returns, the line returned has the least sum of
    squared residuals among all lines. *)
Lemma polyfit1_least_squares x y a b :
  List.length x = List.length y ->
  Np.polyfit1 x y = Ok (a, b) ->
  forall a' b', Np.sse x y a b <= Np.sse x y a' b'.
Proof.
  intros L F a' b'. rewrite !sse_expand by exact L.
  unfold Np.polyfit1 in F.
  set (n := INR (List.length x)) in *.
  set (sx := Np.sum x) in *. set (sy := Np.sum y) in *.
  set (sxx := Np.sum (map (fun v => v * v) x)) in *.
  set (sxy := Np.sum (map (fun p => fst p * snd p) (combine x y))) in *.
  set (syy := Np.sum (map (fun v => v * v) y)).
  destruct (Req_dec_T sxx 0) as [Z|Z]; [rewrite (Reqb_true _ _ Z) in F; discriminate|].
  rewrite (Reqb_false _ _ Z) in F.
  pose proof (sum_squares_nonneg (fun v => (a' - a) * v + (b' - b)) x) as Q.
  cbv beta in Q. rewrite sum_affine_squares in Q. fold sxx sx n in Q.
  destruct (Req_dec_T (Np.normal_det x) 0) as [D|D].
  - rewrite (Reqb_true _ _ D) in F. injection F as Fa Fb.
    pose proof (normal_det_zero x D) as E.
    destruct x as [|d x']; [cbn in sxx; unfold sxx in Z; cbn in Z; lra|].
    assert (H : forall v, In v (d :: x') -> v = d)
      by (intros v I; apply E; [exact I | left; reflexivity]).
    destruct (sums_of_equal d (d :: x') H) as (A & B & C).
    fold sx n in A. fold sxx n in B. specialize (C y).
    rewrite (map_snd_combine _ _ L) in C. fold sxy sy in C.
    assert (Npos : 0 < n).
    { unfold n. apply lt_0_INR. cbn. lia. }
    assert (Dnz : d <> 0).
    { intros ->. apply Z. rewrite B. ring. }
    assert (My : Np.mean y = sy / n).
    { unfold Np.mean. fold sy. rewrite <- L. reflexivity. }
    assert (Mx : Np.mean (d :: x') = d).
    { unfold Np.mean. fold sx n. rewrite A. field. lra. }
    rewrite My, Mx in Fa. rewrite My in Fb.
    assert (K : a * d + b = sy / n) by (subst a b; field; split; lra).
    assert (Sy : sy = n * (a * d + b)) by (rewrite K; field; lra).
    rewrite A, B, C. rewrite Sy.
    pose proof (Rle_0_sqr ((a' * d + b') - (a * d + b))) as P. unfold Rsqr in P.
    nra.
  - rewrite (Reqb_false _ _ D) in F. injection F as Fa Fb.
    unfold Np.normal_det in *. fold n sxx sx in D, Fa, Fb.
    assert (N1 : a * sxx + b * sx = sxy) by (subst a b; field; exact D).
    assert (N2 : a * sx + n * b = sy) by (subst a b; field; exact D).
    rewrite <- N1, <- N2. lra.
Qed.

(** ** The sort *)

(** Sorting a sequence that is in ascending order of distance leaves it
    as it is. *)
Lemma sort_by_distance_ascending l : ascending l -> sort_by_distance l = l.
Proof.
  induction l as [|p t IH]; [reflexivity|].
  intros A. unfold sort_by_distance in *. cbn [fold_right].
  destruct t as [|q t']; [reflexivity|].
  destruct A as [H A]. rewrite (IH A). cbn [insert_by_distance].
  rewrite Rleb_true by exact H. reflexivity.
Qed.

Lemma sort_by_distance_length l :
  List.length (sort_by_distance l) = List.length l.
Proof.
  assert (I : forall p t, List.length (insert_by_distance p t) = S (List.length t)).
  { intros p t. induction t as [|q t IH]; [reflexivity|].
    cbn [insert_by_distance].
    destruct (Rleb (ProfilePoint.distance p) (ProfilePoint.distance q));
      cbn [List.length]; [|rewrite IH]; reflexivity. }
  induction l as [|p l IH]; [reflexivity|].
  unfold sort_by_distance in *. cbn [fold_right List.length].
  rewrite I, IH. reflexivity.
Qed.

(** ** The roughness *)

Lemma combine_map_map {A B C : Type} (f : A -> B) (h : A -> C) l :
  combine (map f l) (map h l) = map (fun v => (f v, h v)) l.
Proof. induction l as [|v l IH]; cbn; [|rewrite IH]; reflexivity. Qed.

Lemma sum_zeros {A : Type} (c : R) (l : list A) :
  c = 0 -> Np.sum (map (fun _ => c) l) = 0.
Proof.
  intros ->. induction l as [|v l IH]; cbn [map Np.sum fold_right];
    [reflexivity|].
  fold (Np.sum (map (fun _ : A => 0) l)). rewrite IH. ring.
Qed.

Lemma std_zeros {A : Type} (l : list A) : Np.std (map (fun _ => 0) l) = 0.
Proof.
  unfold Np.std, Np.mean. rewrite (sum_zeros 0 l eq_refl), map_map.
  replace (0 / INR (List.length (map (fun _ : A => 0) l))) with 0
    by (unfold Rdiv; ring).
  rewrite (sum_zeros ((0 - 0) * (0 - 0)) l) by ring.
  unfold Rdiv. rewrite Rmult_0_l. apply sqrt_0.
Qed.

Lemma pymax_abs_zeros {A : Type} (l : list A) :
  pymax (map Rabs (map (fun _ => 0) l)) = 0.
Proof.
  rewrite map_map. destruct l as [|v l]; [reflexivity|].
  destruct (pymax_spec (map (fun _ : A => Rabs 0) (v :: l))) as [I _];
    [discriminate|].
  apply in_map_iff in I. destruct I as (_ & E & _). rewrite <- E. apply Rabs_R0.
Qed.

(** The result of the roughness analysis, given the result of the fit. *)
Lemma compute_roughness_analysis_fit pts coeffs :
  (5 <= List.length pts)%nat ->
  Np.polyfit1 (map ProfilePoint.distance pts) (map ProfilePoint.z pts)
  = Ok coeffs ->
  let deviations :=
    map (fun p => ProfilePoint.z p - Np.polyval coeffs (ProfilePoint.distance p))
        pts in
  compute_roughness_analysis pts =
  Ok [ ("roughness_analysis",
         PDict [ ("roughness_index", PFloat (Np.std deviations));
                 ("trend_slope", PFloat (fst coeffs));
                 ("trend_intercept", PFloat (snd coeffs));
                 ("max_deviation", PFloat (pymax (map Rabs deviations)));
                 ("deviations", PList deviations) ]) ]%string.
Proof.
  intros L F deviations. unfold compute_roughness_analysis.
  replace (List.length pts <? 5)%nat with false
    by (symmetry; apply Nat.ltb_ge; exact L).
  rewrite F. rewrite (map_map ProfilePoint.distance (Np.polyval coeffs)).
  rewrite combine_map_map, map_map. cbn [fst snd]. reflexivity.
Qed.

(** C3 (as the code has it). For at least 5 profile points that lie on
    the line [elevation = 2 * distance + 5] and whose distances are not all
    equal, the roughness analysis returns the trend slope 2, the trend
    intercept 5, residuals that are all 0, and so the roughness index 0
    and the greatest deviation 0. *)
Theorem roughness_of_line pts :
  (5 <= List.length pts)%nat ->
  (forall p, In p pts -> ProfilePoint.z p = 2 * ProfilePoint.distance p + 5) ->
  (exists p q, In p pts /\ In q pts /\
               ProfilePoint.distance p <> ProfilePoint.distance q) ->
  compute_roughness_analysis pts =
  Ok [ ("roughness_analysis",
         PDict [ ("roughness_index", PFloat 0);
                 ("trend_slope", PFloat 2);
                 ("trend_intercept", PFloat 5);
                 ("max_deviation", PFloat 0);
                 ("deviations", PList (map (fun _ => 0) pts)) ]) ]%string.
Proof.
  intros L H (p & q & P & Q & N).
  assert (F : Np.polyfit1 (map ProfilePoint.distance pts) (map ProfilePoint.z pts)
              = Ok (2, 5)).
  { rewrite (map_ext_in ProfilePoint.z
               (fun p => 2 * ProfilePoint.distance p + 5) pts H).
    rewrite <- (map_map ProfilePoint.distance (fun v => 2 * v + 5)).
    apply polyfit1_of_line.
    exists (ProfilePoint.distance p), (ProfilePoint.distance q).
    repeat split; [apply in_map; exact P | apply in_map; exact Q | exact N]. }
  rewrite (compute_roughness_analysis_fit pts (2, 5) L F).
  assert (D : map (fun p => ProfilePoint.z p
                            - Np.polyval (2, 5) (ProfilePoint.distance p)) pts
              = map (fun _ => 0) pts).
  { apply map_ext_in. intros r I. rewrite (H r I). unfold Np.polyval.
    cbn [fst snd]. ring. }
  rewrite D, std_zeros, pymax_abs_zeros. reflexivity.
Qed.

Lemma roughness_of_line_witness :
  compute_roughness_analysis
    [ at_distance 0 5; at_distance 1 7; at_distance 2 9; at_distance 3 11;
      at_distance 4 13 ] =
  Ok [ ("roughness_analysis",
         PDict [ ("roughness_index", PFloat 0);
                 ("trend_slope", PFloat 2);
                 ("trend_intercept", PFloat 5);
                 ("max_deviation", PFloat 0);
                 ("deviations", PList [0; 0; 0; 0; 0]) ]) ]%string.
Proof.
  apply (roughness_of_line
           [ at_distance 0 5; at_distance 1 7; at_distance 2 9; at_distance 3 11;
             at_distance 4 13 ]).
  - cbn. lia.
  - intros p [<-|[<-|[<-|[<-|[<-|[]]]]]]; cbn; lra.
  - exists (at_distance 0 5), (at_distance 1 7).
    split; [left; reflexivity|]. split; [right; left; reflexivity|].
    unfold at_distance. cbn [ProfilePoint.distance]. lra.
Defined.

Lemma sum_five a b c d e : Np.sum [a; b; c; d; e] = a + b + c + d + e.
Proof. unfold Np.sum. cbn [fold_right]. ring. Qed.

Lemma polyfit1_five_at_100 :
  Np.polyfit1 (map ProfilePoint.distance (five_at 100))
              (map ProfilePoint.z (five_at 100))
  = Ok (41 / 40, 205 / 2).
Proof.
  unfold Np.polyfit1, Np.normal_det, Np.mean, five_at, at_distance.
  cbn [map ProfilePoint.distance ProfilePoint.z List.length combine fst snd].
  rewrite !sum_five.
  replace (INR 5) with 5 by (cbn [INR]; ring).
  rewrite Reqb_false by lra. rewrite Reqb_true by lra.
  f_equal. f_equal; field.
Qed.

(** C3, as stated, fails: five points on the line
    [elevation = 2 * distance + 5], all at the distance 100 (elevation
    205), form a distance-sorted sequence, and the analysis returns the
    trend slope 41/40 and the trend intercept 205/2, not 2 and 5. *)
Lemma roughness_of_line_counterexample :
  (forall p, In p (five_at 100) ->
     ProfilePoint.z p = 2 * ProfilePoint.distance p + 5) /\
  sort_by_distance (five_at 100) = five_at 100 /\
  exists d,
    compute_roughness_analysis (five_at 100)
    = Ok [("roughness_analysis", PDict d)]%string /\
    dict_get "trend_slope" d = Some (PFloat (41 / 40)) /\
    dict_get "trend_intercept" d = Some (PFloat (205 / 2)) /\
    41 / 40 <> 2 /\ 205 / 2 <> 5.
Proof.
  split; [|split].
  - intros p [<-|[<-|[<-|[<-|[<-|[]]]]]]; reflexivity.
  - apply sort_by_distance_ascending. unfold five_at, at_distance.
    cbn [ascending ProfilePoint.distance]. lra.
  - eexists. split.
    + apply (compute_roughness_analysis_fit (five_at 100) (41 / 40, 205 / 2)).
      * cbn. lia.
      * exact polyfit1_five_at_100.
    + cbn [dict_get String.eqb Ascii.eqb Bool.eqb fst snd].
      repeat split; lra.
Qed.

(** ** The groups of the analysis result *)

Lemma dict_get_set_same k v d : dict_get k (dict_set k v d) = Some v.
Proof.
  induction d as [|[k' v'] d IH]; cbn [dict_set dict_get].
  - rewrite String.eqb_refl. reflexivity.
  - destruct (String.eqb k k') eqn:E; cbn [dict_get]; rewrite E; auto.
Qed.

Lemma dict_get_set_other k k' v d :
  k <> k' -> dict_get k (dict_set k' v d) = dict_get k d.
Proof.
  intros N. induction d as [|[k2 v2] d IH]; cbn [dict_set dict_get].
  - rewrite (proj2 (String.eqb_neq k k') N). reflexivity.
  - destruct (String.eqb k' k2) eqn:E; cbn [dict_get].
    + apply String.eqb_eq in E. subst k2.
      rewrite (proj2 (String.eqb_neq k k') N). reflexivity.
    + destruct (String.eqb k k2); auto.
Qed.

Lemma basic_statistics_groups pts :
  dict_get "terrain_analysis" (compute_basic_statistics pts) = None /\
  dict_get "roughness_analysis" (compute_basic_statistics pts) = None.
Proof.
  unfold compute_basic_statistics. destruct pts as [|p pts]; [split; reflexivity|].
  destruct (present_intensities (p :: pts)); split; reflexivity.
Qed.

Lemma insert_by_distance_In p q l :
  In q (insert_by_distance p l) <-> q = p \/ In q l.
Proof.
  induction l as [|r l IH]; cbn [insert_by_distance].
  - cbn. intuition.
  - destruct (Rleb (ProfilePoint.distance p) (ProfilePoint.distance r)).
    + cbn. intuition.
    + cbn [In]. rewrite IH. cbn. intuition.
Qed.

Lemma sort_by_distance_In q l : In q (sort_by_distance l) <-> In q l.
Proof.
  unfold sort_by_distance. induction l as [|p l IH]; cbn [fold_right].
  - reflexivity.
  - rewrite insert_by_distance_In, IH. cbn. intuition.
Qed.

(** The fit returns as soon as one abscissa is not 0. *)
Lemma polyfit1_returns x y :
  (exists v, In v x /\ v <> 0) -> exists coeffs, Np.polyfit1 x y = Ok coeffs.
Proof.
  intros (v & I & N). unfold Np.polyfit1.
  rewrite Reqb_false.
  - destruct (Reqb (Np.normal_det x) 0); eauto.
  - intros Z. apply N. exact (sum_squares_zero (fun w => w) x Z v I).
Qed.

Lemma polyfit1_all_zero x y :
  (forall v, In v x -> v = 0) -> Np.polyfit1 x y = Raise LinAlgError.
Proof.
  intros H. unfold Np.polyfit1. rewrite Reqb_true; [reflexivity|].
  apply sum_zero. intros v I. rewrite (H v I). ring.
Qed.

(** The groups by the number of points: with fewer than 3 points
    [compute_terrain_analysis] returns the empty dictionary and with at
    least 3 the group [terrain_analysis]; with fewer than 5 points
    [compute_roughness_analysis] returns the empty dictionary, and with
    at least 5, one of them at a distance other than 0, the group
    [roughness_analysis]. *)
Lemma groups_by_count pts :
  ((List.length pts < 3)%nat -> compute_terrain_analysis pts = []) /\
  ((3 <= List.length pts)%nat ->
     exists d, compute_terrain_analysis pts = [("terrain_analysis", PDict d)]%string) /\
  ((List.length pts < 5)%nat -> compute_roughness_analysis pts = Ok []) /\
  ((5 <= List.length pts)%nat ->
     (exists p, In p pts /\ ProfilePoint.distance p <> 0) ->
     exists d, compute_roughness_analysis pts
               = Ok [("roughness_analysis", PDict d)]%string).
Proof.
  split; [|split; [|split]].
  - intros L. unfold compute_terrain_analysis.
    rewrite (proj2 (Nat.ltb_lt _ _) L). reflexivity.
  - intros L. unfold compute_terrain_analysis.
    rewrite (proj2 (Nat.ltb_ge _ _) L). eauto.
  - intros L. unfold compute_roughness_analysis.
    rewrite (proj2 (Nat.ltb_lt _ _) L). reflexivity.
  - intros L (p & I & N).
    destruct (polyfit1_returns (map ProfilePoint.distance pts)
                (map ProfilePoint.z pts)) as [c F].
    + exists (ProfilePoint.distance p). split; [apply in_map; exact I | exact N].
    + rewrite (compute_roughness_analysis_fit pts c L F). eauto.
Qed.

(** The same on the dictionary computed by [analyze_points]: with 2 points
    neither group, with 4 points the terrain group only, and with at least
    5 points, one of them at a distance other than 0, both groups. *)
Lemma analysis_results_groups pts :
  let has k :=
    match analysis_results pts with
    | Ok d => Some (dict_has k d)
    | Raise _ => None
    end in
  (List.length pts = 2%nat ->
     has "terrain_analysis"%string = Some false /\
     has "roughness_analysis"%string = Some false) /\
  (List.length pts = 4%nat ->
     has "terrain_analysis"%string = Some true /\
     has "roughness_analysis"%string = Some false) /\
  ((5 <= List.length pts)%nat ->
     (exists p, In p pts /\ ProfilePoint.distance p <> 0) ->
     has "terrain_analysis"%string = Some true /\
     has "roughness_analysis"%string = Some true).
Proof.
  cbn zeta. unfold analysis_results.
  pose proof (sort_by_distance_length pts) as SL.
  set (sorted := sort_by_distance pts) in *.
  destruct (groups_by_count sorted) as (T0 & T1 & R0 & R1).
  destruct (basic_statistics_groups sorted) as [BT BR].
  split; [|split].
  - intros L. rewrite R0, T0 by lia. cbn [dict_update fold_left].
    unfold dict_has. rewrite BT, BR. auto.
  - intros L. rewrite R0 by lia. destruct T1 as [d T]; [lia|]. rewrite T.
    cbn [dict_update fold_left fst snd]. unfold dict_has.
    rewrite dict_get_set_same.
    rewrite dict_get_set_other by discriminate. rewrite BR. auto.
  - intros L (p & I & N). destruct T1 as [d T]; [lia|].
    destruct R1 as [r Rr]; [lia | |].
    + exists p. split; [apply sort_by_distance_In; exact I | exact N].
    + rewrite Rr, T. cbn [dict_update fold_left fst snd]. unfold dict_has.
      rewrite dict_get_set_same.
      rewrite dict_get_set_other by discriminate.
      rewrite dict_get_set_same. auto.
Qed.

(** The refreshes leave the analyzer as it is. *)
Lemma update_statistics_run s :
  update_statistics s =
  (s, match profile_points s with
      | [] => Ok tt
      | _ :: _ =>
          match compute_roughness_analysis (profile_points s) with
          | Ok _ => Ok tt
          | Raise e => Raise e
          end
      end).
Proof.
  unfold update_statistics. destruct (profile_points s); [reflexivity|].
  destruct (compute_roughness_analysis _); reflexivity.
Qed.

Lemma update_plot_run view s :
  update_plot view s = (s, snd (update_plot view s)).
Proof.
  unfold update_plot, plot_elevation_profile.
  destruct (profile_points s); [reflexivity|].
  repeat match goal with
         | |- context [String.eqb ?a ?b] => destruct (String.eqb a b)
         end; try reflexivity.
  destruct (1 <? _)%nat; [|reflexivity].
  destruct (Np.polyfit1 _ _); reflexivity.
Qed.

(** A run of [analyze_points] on profile points: the points are sorted;
    the result is sent when it could be computed and the plot could be
    drawn, and the exception is logged otherwise. *)
Lemma analyze_points_run view self :
  profile_points self <> [] ->
  analyze_points view self =
  (let sorted :=
     set_profile_points (sort_by_distance (profile_points self)) self in
   match analysis_results (profile_points self) with
   | Ok d =>
       match snd (update_plot view sorted) with
       | Ok _ => add_log MsgAnalysisDone (add_emitted d sorted)
       | Raise e => add_log (MsgAnalysisError e) sorted
       end
   | Raise e => add_log (MsgAnalysisError e) sorted
   end, Ok tt).
Proof.
  intros N. unfold analyze_points, analysis_results. cbn zeta.
  destruct (profile_points self) as [|p pts] eqn:E; [congruence|].
  unfold try_except, bind, modify, gets, lift. rewrite !E.
  set (sorted := set_profile_points (sort_by_distance (p :: pts)) self).
  change (profile_points sorted) with (sort_by_distance (p :: pts)).
  destruct (compute_roughness_analysis (sort_by_distance (p :: pts)))
    as [r|e] eqn:Q; [|reflexivity].
  rewrite update_statistics_run.
  change (profile_points sorted) with (sort_by_distance (p :: pts)).
  rewrite Q, (update_plot_run view sorted).
  destruct (sort_by_distance (p :: pts));
    destruct (snd (update_plot view sorted)); reflexivity.
Qed.

(** C4. Five profile points that are all at the distance 0 (here on the
    line [elevation = 2 * distance + 5]): the terrain group is made, but
    the fit of the trend line fails with [LinAlgError], so that
    [compute_roughness_analysis] raises instead of returning a group, and
    [analyze_points] sends no result at all and logs the error. *)
Theorem roughness_all_at_start view :
  List.length (five_at 0) = 5%nat /\
  (exists d, compute_terrain_analysis (five_at 0)
             = [("terrain_analysis", PDict d)]%string) /\
  compute_roughness_analysis (five_at 0) = Raise LinAlgError /\
  analysis_results (five_at 0) = Raise LinAlgError /\
  emitted (fst (analyze_points view (holding (five_at 0)))) = [] /\
  log (fst (analyze_points view (holding (five_at 0))))
  = [MsgAnalysisError LinAlgError].
Proof.
  assert (R : compute_roughness_analysis (five_at 0) = Raise LinAlgError).
  { unfold compute_roughness_analysis. cbn [five_at List.length Nat.ltb Nat.leb].
    rewrite polyfit1_all_zero; [reflexivity|].
    intros v [<-|[<-|[<-|[<-|[<-|[]]]]]]; reflexivity. }
  assert (S : sort_by_distance (five_at 0) = five_at 0).
  { apply sort_by_distance_ascending. unfold five_at, at_distance.
    cbn [ascending ProfilePoint.distance]. lra. }
  assert (A : analysis_results (five_at 0) = Raise LinAlgError).
  { unfold analysis_results. rewrite S, R. reflexivity. }
  split; [reflexivity|]. split; [|split; [exact R|split; [exact A|]]].
  - destruct (groups_by_count (five_at 0)) as (_ & T & _). apply T. cbn. lia.
  - rewrite analyze_points_run by discriminate.
    cbn [holding profile_points]. rewrite A. split; reflexivity.
Qed.

(** * Further properties

    Where these properties speak of computed numbers they are kept to
    what the rounding of floating-point arithmetic preserves: which
    value of a list is taken, orderings and bounds that hold for the
    rounded operations as well, and values that are computed without
    rounding. *)

(** ** The location along a line string *)

Lemma segLength_nonneg a b : 0 <= Qgis.segLength a b.
Proof. apply sqrt_pos. Qed.

Lemma length_nonneg g : 0 <= Qgis.length g.
Proof.
  induction g as [|a g IH]; [cbn; lra|].
  destruct g as [|b g]; [cbn; lra|].
  change (Qgis.length (a :: b :: g))
    with (Qgis.segLength a b + Qgis.length (b :: g)).
  pose proof (segLength_nonneg a b). lra.
Qed.

Lemma locate_scan_range p vs : forall best minDist start a,
  0 <= best <= start ->
  0 <= Qgis.locate_scan best minDist start a vs p
    <= start + Qgis.length (a :: vs).
Proof.
  induction vs as [|b vs IH]; intros best minDist start a H.
  - cbn. lra.
  - change (Qgis.length (a :: b :: vs))
      with (Qgis.segLength a b + Qgis.length (b :: vs)).
    cbn [Qgis.locate_scan].
    pose proof (segLength_nonneg a b) as L.
    pose proof (segFraction_cases a b p) as F.
    assert (M : 0 <= Qgis.segFraction a b p * Qgis.segLength a b
                <= Qgis.segLength a b) by nra.
    destruct (Rltb (Qgis.segSqrDist a b p) minDist).
    + specialize (IH (start + Qgis.segFraction a b p * Qgis.segLength a b)
                     (Qgis.segSqrDist a b p) (start + Qgis.segLength a b) b).
      lra.
    + specialize (IH best minDist (start + Qgis.segLength a b) b). lra.
Qed.

(** The location of a point along a line string lies between 0 and the
    length of the line string. *)
Lemma lineLocatePoint_range g p :
  0 <= Qgis.lineLocatePoint g p <= Qgis.length g.
Proof.
  destruct g as [|a [|b vs]]; [cbn; lra | cbn; lra |].
  change (Qgis.length (a :: b :: vs))
    with (Qgis.segLength a b + Qgis.length (b :: vs)).
  cbn [Qgis.lineLocatePoint].
  pose proof (segLength_nonneg a b) as L.
  pose proof (segFraction_cases a b p) as F.
  pose proof (locate_scan_range p vs
                (Qgis.segFraction a b p * Qgis.segLength a b)
                (Qgis.segSqrDist a b p) (Qgis.segLength a b) b) as S.
  assert (M : 0 <= Qgis.segFraction a b p * Qgis.segLength a b
              <= Qgis.segLength a b) by nra.
  specialize (S M). lra.
Qed.

Lemma int_range x : 0 <= x <= 100 -> (0 <= int x <= 100)%Z.
Proof.
  intros H. unfold int. rewrite Rleb_true by lra.
  destruct (base_Int_part x) as [A B]. split.
  - assert (C : (-1 < Int_part x)%Z) by (apply lt_IZR; lra). lia.
  - apply le_IZR. lra.
Qed.

(** ** Runs of the extraction loop *)

Section Runs.

Variables (g : Qgis.polyline) (bg : Qgis.buffered).

Lemma loop_body_malformed_kind r :
  position r = None ->
  exists e, (e = KeyError \/ e = TypeError) /\
            forall s, loop_body g bg (Qgis.length g) r s = (s, Raise e).
Proof.
  unfold position, loop_body, bind, lift. intros H.
  destruct (attrX r) as [[px|tx]|]; cbn.
  - destruct (attrY r) as [[py|ty]|]; cbn; [discriminate | eauto | eauto].
  - destruct (attrY r) as [[py|ty]|]; cbn; eauto.
  - eauto.
Qed.

(** What a turn of the loop leaves as it is, and the progress value it
    sets. *)
Lemma loop_body_keeps r s :
  let s' := fst (loop_body g bg (Qgis.length g) r s) in
  vpc_layer s' = vpc_layer s /\ profile_line s' = profile_line s /\
  buffer_distance s' = buffer_distance s /\
  sample_interval s' = sample_interval s /\
  log s' = log s /\ emitted s' = emitted s /\
  (ui s' = ui s \/
   exists v, (0 <= v <= 100)%Z /\ ui s' = set_progress_value v (ui s)).
Proof.
  destruct (position r) as [p|] eqn:P.
  - destruct (Qgis.contains bg p) eqn:C.
    + destruct (Req_dec_T (Qgis.length g) 0) as [T|T].
      * rewrite (loop_body_zero_length g bg _ r p s P C T). cbn.
        repeat split; auto.
      * rewrite (loop_body_accepted g bg _ r p s P C T). cbn [fst].
        repeat split; auto. right. eexists. split; [|reflexivity].
        apply int_range.
        pose proof (lineLocatePoint_range g (Qgis.closestVertex g p)) as R.
        pose proof (length_nonneg g) as N.
        assert (Q : 0 <= Qgis.lineLocatePoint g (Qgis.closestVertex g p)
                         / Qgis.length g <= 1).
        { split.
          - apply Rmult_le_pos; [lra|]. apply Rlt_le, Rinv_0_lt_compat. lra.
          - apply Rmult_le_reg_r with (Qgis.length g); [lra|].
            unfold Rdiv. rewrite Rmult_assoc, Rinv_l by exact T. lra. }
        lra.
    + rewrite (loop_body_dropped g bg _ r p s P C). cbn. repeat split; auto.
  - destruct (loop_body_malformed g bg (Qgis.length g) r P) as [e E].
    rewrite E. cbn. repeat split; auto.
Qed.

Lemma extract_loop_keeps it : forall s,
  let s' := fst (extract_loop g bg (Qgis.length g) it s) in
  vpc_layer s' = vpc_layer s /\ profile_line s' = profile_line s /\
  buffer_distance s' = buffer_distance s /\
  sample_interval s' = sample_interval s /\
  log s' = log s /\ emitted s' = emitted s /\
  (ui s' = ui s \/
   exists v, (0 <= v <= 100)%Z /\ ui s' = set_progress_value v (ui s)).
Proof.
  induction it as [|r it IH]; intros s.
  - cbn. repeat split; auto.
  - rewrite extract_loop_cons.
    pose proof (loop_body_keeps r s) as K. cbn zeta in K.
    destruct (loop_body g bg (Qgis.length g) r s) as [s1 [[]|e]];
      cbn [fst] in K |- *.
    + destruct K as (K1 & K2 & K3 & K4 & K5 & K6 & K7).
      destruct (IH s1) as (I1 & I2 & I3 & I4 & I5 & I6 & I7). cbn zeta in *.
      rewrite I1, I2, I3, I4, I5, I6, K1, K2, K3, K4, K5, K6.
      repeat split; auto.
      destruct I7 as [I7|(v & V & I7)]; rewrite I7.
      * exact K7.
      * right. exists v. split; [exact V|].
        destruct K7 as [K7|(w & _ & K7)]; rewrite K7; reflexivity.
    + exact K.
Qed.

(** On a line with a length, the points after the loop are those made of
    the records inside the buffer up to the first record without a
    position, and the loop ends with an exception iff there is such a
    record. *)
Lemma extract_loop_accepts it : forall s,
  Qgis.length g <> 0 ->
  profile_points (fst (extract_loop g bg (Qgis.length g) it s))
  = profile_points s ++ accepted_points g bg (before_malformed it) /\
  (before_malformed it = it ->
   snd (extract_loop g bg (Qgis.length g) it s) = Ok tt) /\
  (before_malformed it <> it ->
   exists e, (e = KeyError \/ e = TypeError) /\
             snd (extract_loop g bg (Qgis.length g) it s) = Raise e).
Proof.
  induction it as [|r it IH]; intros s T.
  - cbn. rewrite app_nil_r. repeat split; auto. congruence.
  - rewrite extract_loop_cons. cbn [before_malformed].
    destruct (position r) as [p|] eqn:P.
    + cbn [accepted_points]. rewrite P.
      destruct (Qgis.contains bg p) eqn:C.
      * rewrite (loop_body_accepted g bg _ r p s P C T).
        destruct (IH (set_ui (set_progress_value
                       (int (Qgis.lineLocatePoint g (Qgis.closestVertex g p)
                             / Qgis.length g * 100)) (ui s))
                       (set_profile_points
                          (profile_points s ++ [made_point g r p]) s)) T)
          as (A & B & D).
        split; [|split].
        -- rewrite A. cbn [profile_points set_ui set_profile_points].
           rewrite <- app_assoc. reflexivity.
        -- intros E. apply B. congruence.
        -- intros E. apply D. congruence.
      * rewrite (loop_body_dropped g bg _ r p s P C).
        destruct (IH s T) as (A & B & D).
        split; [exact A|split].
        -- intros E. apply B. congruence.
        -- intros E. apply D. congruence.
    + destruct (loop_body_malformed_kind r P) as (e & K & E). rewrite E.
      cbn. rewrite app_nil_r. split; [reflexivity|]. split; [discriminate|].
      intros _. exists e. auto.
Qed.

(** On a line of length 0 the loop ends at the first record inside the
    buffer, which is the only point it appends. *)
Lemma extract_loop_zero_length it : forall s,
  Qgis.length g = 0 ->
  profile_points (fst (extract_loop g bg (Qgis.length g) it s))
  = profile_points s \/
  exists pp,
    profile_points (fst (extract_loop g bg (Qgis.length g) it s))
    = profile_points s ++ [pp] /\
    snd (extract_loop g bg (Qgis.length g) it s) = Raise ZeroDivisionError.
Proof.
  induction it as [|r it IH]; intros s T.
  - left. reflexivity.
  - rewrite extract_loop_cons. destruct (position r) as [p|] eqn:P.
    + destruct (Qgis.contains bg p) eqn:C.
      * rewrite (loop_body_zero_length g bg _ r p s P C T). right.
        exists (made_point g r p). split; reflexivity.
      * rewrite (loop_body_dropped g bg _ r p s P C). apply IH, T.
    + destruct (loop_body_malformed g bg (Qgis.length g) r P) as [e E].
      rewrite E. left. reflexivity.
Qed.

(** The points and the outcome of the loop depend on the analyzer only
    through the points it holds at the entry. *)
Lemma extract_loop_points_only it : forall s1 s2,
  profile_points s1 = profile_points s2 ->
  profile_points (fst (extract_loop g bg (Qgis.length g) it s1))
  = profile_points (fst (extract_loop g bg (Qgis.length g) it s2)) /\
  snd (extract_loop g bg (Qgis.length g) it s1)
  = snd (extract_loop g bg (Qgis.length g) it s2).
Proof.
  induction it as [|r it IH]; intros s1 s2 H.
  - cbn. auto.
  - rewrite !extract_loop_cons. destruct (position r) as [p|] eqn:P.
    + destruct (Qgis.contains bg p) eqn:C.
      * destruct (Req_dec_T (Qgis.length g) 0) as [T|T].
        -- rewrite !(loop_body_zero_length g bg _ r p _ P C T). cbn.
           rewrite H. auto.
        -- rewrite !(loop_body_accepted g bg _ r p _ P C T).
           apply IH. cbn. rewrite H. reflexivity.
      * rewrite !(loop_body_dropped g bg _ r p _ P C). apply IH, H.
    + destruct (loop_body_malformed g bg (Qgis.length g) r P) as [e E].
      rewrite !E. cbn. auto.
Qed.

End Runs.

(** ** Further properties of [get_profile_line] and [extract_profile_points] *)

(** X1. On a layer whose extent has [xMinimum <= xMaximum],
    [get_profile_line] sets the horizontal line through the centre of the
    extent, from its left to its right side; the length of this line is the
    width of the extent, and nothing else of the analyzer changes. *)
Theorem get_profile_line_spans_extent self l :
  vpc_layer self = Some l ->
  Qgis.xMinimum (extent l) <= Qgis.xMaximum (extent l) ->
  let e := extent l in
  let cy := Qgis.yMinimum e + (Qgis.yMaximum e - Qgis.yMinimum e) / 2 in
  let line := [(Qgis.xMinimum e, cy); (Qgis.xMaximum e, cy)] in
  get_profile_line self = (set_profile_line (Some line) self, Ok tt) /\
  Qgis.length line = Qgis.xMaximum e - Qgis.xMinimum e /\
  (forall q, Qgis.on_line line q -> snd q = cy).
Proof.
  intros L W e cy line. split; [|split].
  - unfold get_profile_line. rewrite L. reflexivity.
  - unfold line, Qgis.length, Qgis.segLength, Qgis.sqrDist. cbn [fst snd].
    rewrite Rplus_0_r.
    replace ((Qgis.xMinimum e - Qgis.xMaximum e) * (Qgis.xMinimum e - Qgis.xMaximum e)
             + (cy - cy) * (cy - cy))
      with ((Qgis.xMaximum e - Qgis.xMinimum e) * (Qgis.xMaximum e - Qgis.xMinimum e))
      by ring.
    apply sqrt_square. unfold e. lra.
  - intros q [(t & _ & ->)|Q].
    + cbn [fst snd]. ring.
    + cbn in Q. subst q. reflexivity.
Qed.

Lemma get_profile_line_spans_extent_witness :
  get_profile_line (session reference_line [] 5)
  = (set_profile_line (Some [(0, -10 + (10 - -10) / 2); (100, -10 + (10 - -10) / 2)])
                      (session reference_line [] 5), Ok tt) /\
  Qgis.length [(0, -10 + (10 - -10) / 2); (100, -10 + (10 - -10) / 2)] = 100 - 0.
Proof.
  destruct (get_profile_line_spans_extent (session reference_line [] 5)
              (layer_of []) eq_refl) as (A & B & _).
  - cbn. lra.
  - split; [exact A | exact B].
Defined.

Lemma prepared_fields self :
  profile_points (prepared self) = [] /\ log (prepared self) = log self /\
  emitted (prepared self) = emitted self /\
  vpc_layer (prepared self) = vpc_layer self /\
  profile_line (prepared self) = profile_line self /\
  buffer_distance (prepared self) = buffer_spin (ui self) /\
  sample_interval (prepared self) = interval_spin (ui self) /\
  ui (prepared self) = set_progress_visible true (ui self).
Proof. repeat split. Qed.

Lemma extraction_accepts_aux self l line :
  vpc_layer self = Some l ->
  profile_line self = Some line ->
  Qgis.length line <> 0 ->
  profile_points (fst (extract_profile_points self))
  = accepted_points line (Qgis.buffer line (buffer_spin (ui self)))
                    (before_malformed (cloud l)) /\
  (before_malformed (cloud l) = cloud l ->
   snd (extract_loop line (Qgis.buffer line (buffer_spin (ui self)))
                     (Qgis.length line) (cloud l) (prepared self)) = Ok tt).
Proof.
  intros L P T.
  destruct (extract_loop_accepts line (Qgis.buffer line (buffer_spin (ui self)))
              (cloud l) (prepared self) T) as (A & B & _).
  split; [|exact B].
  rewrite (extract_profile_points_points self l line L P). exact A.
Qed.

(** X2. On a profile line with a length, the profile points after
    [extract_profile_points] are exactly the points made of the records
    that lie inside the buffer, in the order of the source, up to the
    first record without a numeric position; when every record has one,
    the call logs the number of points (or that none was found) and
    enables the analysis button iff there is a point. *)
Theorem extraction_accepts self l line :
  vpc_layer self = Some l ->
  profile_line self = Some line ->
  Qgis.length line <> 0 ->
  let bg := Qgis.buffer line (buffer_spin (ui self)) in
  let s' := fst (extract_profile_points self) in
  profile_points s' = accepted_points line bg (before_malformed (cloud l)) /\
  (before_malformed (cloud l) = cloud l ->
   match profile_points s' with
   | [] => log s' = log self ++ [MsgNoPointFound] /\
           analyze_btn (ui s') = analyze_btn (ui self)
   | _ :: _ =>
       log s' = log self ++ [MsgPointsExtracted (List.length (profile_points s'))] /\
       analyze_btn (ui s') = true
   end).
Proof.
  intros L P T bg s'.
  destruct (extract_loop_accepts line bg (cloud l) (prepared self) T)
    as (A & B & _).
  destruct (extract_loop_keeps line bg (cloud l) (prepared self))
    as (_ & _ & _ & _ & K5 & _ & K7).
  cbn zeta in K5, K7. unfold s'.
  rewrite (extract_profile_points_run self l line L P). fold bg.
  destruct (extract_loop line bg (Qgis.length line) (cloud l) (prepared self))
    as [s1 r1]. cbn [fst snd] in *.
  split.
  - destruct r1 as [[]|e]; cbn [fst]; rewrite ?finished_points, ?failed_points;
      exact A.
  - intros W. rewrite (B W). cbn [fst]. rewrite finished_points.
    assert (AB : analyze_btn (ui s1) = analyze_btn (ui self)).
    { destruct K7 as [K7|(v & _ & K7)]; rewrite K7; reflexivity. }
    unfold finished. cbn [ui profile_points set_ui].
    destruct (profile_points s1) as [|pp pts] eqn:E.
    + cbn. rewrite K5, AB. auto.
    + cbn. rewrite K5. auto.
Qed.

Lemma reference_length_nonzero : Qgis.length reference_line <> 0.
Proof. rewrite reference_length. lra. Qed.

Lemma extraction_accepts_witness :
  profile_points
    (fst (extract_profile_points (session reference_line reference_cloud 5)))
  = accepted_points reference_line (Qgis.buffer reference_line 5) reference_cloud.
Proof.
  exact (proj1 (extraction_accepts (session reference_line reference_cloud 5)
                  (layer_of reference_cloud) reference_line eq_refl eq_refl
                  reference_length_nonzero)).
Defined.

(** X3. Every profile point after [extract_profile_points] is made of a
    record of the source whose position lies inside the buffer: it has the
    coordinates of the record (elevation 0 when the record has no ['Z']),
    its intensity and its classification as they are, absent when the
    record has none, no colour, and the coordinates again as
    [original_coords]. *)
Theorem extracted_point_fields self l line :
  vpc_layer self = Some l ->
  profile_line self = Some line ->
  forall pp,
    In pp (profile_points (fst (extract_profile_points self))) ->
    exists r,
      In r (cloud l) /\
      position r = Some (ProfilePoint.x pp, ProfilePoint.y pp) /\
      Qgis.contains (Qgis.buffer line (buffer_spin (ui self)))
                    (ProfilePoint.x pp, ProfilePoint.y pp) = true /\
      ProfilePoint.z pp = match attrZ r with Some v => v | None => 0 end /\
      ProfilePoint.intensity pp = attrIntensity r /\
      ProfilePoint.classification pp = attrClassification r /\
      ProfilePoint.rgb pp = None /\
      ProfilePoint.original_coords pp
      = Some (ProfilePoint.x pp, ProfilePoint.y pp, ProfilePoint.z pp).
Proof.
  intros L P pp I.
  rewrite (extract_profile_points_points self l line L P) in I.
  destruct (extract_loop_points line (Qgis.buffer line (buffer_spin (ui self)))
              (Qgis.length line) (cloud l) (prepared self))
    as (_ & _ & _ & added & Q & F).
  rewrite Q in I. cbn [prepared profile_points set_profile_points app] in I.
  rewrite Forall_forall in F. destruct (F pp I) as (r & p & R & Pos & C & ->).
  exists r. destruct p as [px py]. unfold made_point. cbn [fst snd].
  cbn [ProfilePoint.x ProfilePoint.y ProfilePoint.z ProfilePoint.intensity
       ProfilePoint.classification ProfilePoint.rgb ProfilePoint.original_coords].
  repeat split; assumption.
Qed.

Lemma extracted_point_fields_witness :
  Forall (fun pp =>
            exists r,
              In r reference_cloud /\
              ProfilePoint.intensity pp = attrIntensity r /\
              ProfilePoint.classification pp = attrClassification r)
         (profile_points
            (fst (extract_profile_points
                    (session reference_line reference_cloud 5)))).
Proof.
  apply Forall_forall. intros pp I.
  destruct (extracted_point_fields (session reference_line reference_cloud 5)
              (layer_of reference_cloud) reference_line eq_refl eq_refl pp I)
    as (r & R & _ & _ & _ & A & B & _).
  exists r. repeat split; assumption.
Defined.

Lemma extracted_point_made self l line pp :
  vpc_layer self = Some l ->
  profile_line self = Some line ->
  In pp (profile_points (fst (extract_profile_points self))) ->
  exists p, ProfilePoint.distance pp
            = Qgis.lineLocatePoint line (Qgis.closestVertex line p).
Proof.
  intros L P I.
  rewrite (extract_profile_points_points self l line L P) in I.
  destruct (extract_loop_points line (Qgis.buffer line (buffer_spin (ui self)))
              (Qgis.length line) (cloud l) (prepared self))
    as (_ & _ & _ & added & Q & F).
  rewrite Q in I. cbn [prepared profile_points set_profile_points app] in I.
  rewrite Forall_forall in F. destruct (F pp I) as (r & p & _ & _ & _ & ->).
  exists p. reflexivity.
Qed.

(** X4. The distance of every profile point after
    [extract_profile_points] lies between 0 and the length of the profile
    line. *)
Theorem extracted_distance_range self l line :
  vpc_layer self = Some l ->
  profile_line self = Some line ->
  forall pp,
    In pp (profile_points (fst (extract_profile_points self))) ->
    0 <= ProfilePoint.distance pp <= Qgis.length line.
Proof.
  intros L P pp I.
  destruct (extracted_point_made self l line pp L P I) as [p ->].
  apply lineLocatePoint_range.
Qed.

Lemma extracted_distance_range_witness :
  Forall (fun pp => 0 <= ProfilePoint.distance pp <= Qgis.length reference_line)
         (profile_points
            (fst (extract_profile_points
                    (session reference_line reference_cloud 5)))).
Proof.
  apply Forall_forall.
  exact (extracted_distance_range (session reference_line reference_cloud 5)
           (layer_of reference_cloud) reference_line eq_refl eq_refl).
Defined.

(** X5. On a profile line of two vertices, which is what
    [get_profile_line] makes, the distance of every profile point after
    [extract_profile_points] is 0 or the length of the line: each point
    gets the distance of the end of the line nearer to it. *)
Theorem extracted_distance_two_vertices self l a b :
  vpc_layer self = Some l ->
  profile_line self = Some [a; b] ->
  forall pp,
    In pp (profile_points (fst (extract_profile_points self))) ->
    ProfilePoint.distance pp = 0 \/
    ProfilePoint.distance pp = Qgis.length [a; b].
Proof.
  intros L P pp I.
  destruct (extracted_point_made self l [a; b] pp L P I) as [p ->].
  apply two_vertex_distance.
Qed.

Lemma extracted_distance_two_vertices_witness :
  Forall (fun pp => ProfilePoint.distance pp = 0 \/
                    ProfilePoint.distance pp = Qgis.length [(0, 0); (100, 0)])
         (profile_points
            (fst (extract_profile_points
                    (session reference_line reference_cloud 5)))).
Proof.
  apply Forall_forall.
  exact (extracted_distance_two_vertices
           (session reference_line reference_cloud 5)
           (layer_of reference_cloud) (0, 0) (100, 0) eq_refl eq_refl).
Defined.

Lemma extraction_state self l line :
  vpc_layer self = Some l ->
  profile_line self = Some line ->
  let s' := fst (extract_profile_points self) in
  vpc_layer s' = vpc_layer self /\ profile_line s' = profile_line self /\
  emitted s' = emitted self /\
  buffer_distance s' = buffer_spin (ui self) /\
  sample_interval s' = interval_spin (ui self) /\
  (ui s' = set_progress_visible false (ui self) \/
   (exists v, (0 <= v <= 100)%Z /\
      ui s' = set_progress_value v (set_progress_visible false (ui self))) \/
   ui s' = set_analyze_btn true (set_progress_visible false (ui self)) \/
   (exists v, (0 <= v <= 100)%Z /\
      ui s' = set_analyze_btn true
                (set_progress_value v (set_progress_visible false (ui self))))).
Proof.
  intros L P. cbn zeta.
  rewrite (extract_profile_points_run self l line L P).
  destruct (extract_loop_keeps line (Qgis.buffer line (buffer_spin (ui self)))
              (cloud l) (prepared self))
    as (K1 & K2 & K3 & K4 & K5 & K6 & K7).
  cbn zeta in *.
  destruct (extract_loop line (Qgis.buffer line (buffer_spin (ui self)))
              (Qgis.length line) (cloud l) (prepared self)) as [s1 r1].
  cbn [fst] in *.
  destruct (prepared_fields self) as (_ & _ & F3 & F4 & F5 & F6 & F7 & F8).
  rewrite F3 in K6. rewrite F4 in K1. rewrite F5 in K2. rewrite F6 in K3.
  rewrite F7 in K4. rewrite F8 in K7.
  destruct r1 as [[]|e]; cbn [fst].
  - unfold finished. cbn [ui profile_points set_ui].
    destruct (profile_points s1) as [|pp pts]; cbn;
      rewrite K1, K2, K3, K4, K6; repeat split; auto;
      destruct K7 as [K7|(v & V & K7)]; rewrite K7; cbn.
    + left. reflexivity.
    + right. left. exists v. split; [exact V | reflexivity].
    + right. right. left. reflexivity.
    + right. right. right. exists v. split; [exact V | reflexivity].
  - unfold failed. cbn. rewrite K1, K2, K3, K4, K6. repeat split; auto.
    destruct K7 as [K7|(v & V & K7)]; rewrite K7; cbn.
    + left. reflexivity.
    + right. left. exists v. split; [exact V | reflexivity].
Qed.

(** X6. On every path, normal or not, [extract_profile_points] returns
    without an exception, leaves the layer, the profile line and the
    results sent so far as they are, copies the two spin boxes into
    [buffer_distance] and [sample_interval], hides the progress bar again,
    and leaves its value either as it was or within the range 0 to 100 of
    the bar. *)
Theorem extraction_keeps self l line :
  vpc_layer self = Some l ->
  profile_line self = Some line ->
  let s' := fst (extract_profile_points self) in
  snd (extract_profile_points self) = Ok tt /\
  vpc_layer s' = vpc_layer self /\ profile_line s' = profile_line self /\
  emitted s' = emitted self /\
  buffer_distance s' = buffer_spin (ui self) /\
  sample_interval s' = interval_spin (ui self) /\
  buffer_spin (ui s') = buffer_spin (ui self) /\
  interval_spin (ui s') = interval_spin (ui self) /\
  extract_points_btn (ui s') = extract_points_btn (ui self) /\
  progress_visible (ui s') = false /\
  (progress_value (ui s') = progress_value (ui self) \/
   (0 <= progress_value (ui s') <= 100)%Z).
Proof.
  intros L P. cbn zeta.
  destruct (extraction_state self l line L P) as (A & B & C & D & E & U).
  cbn zeta in *.
  split; [apply extract_profile_points_returns|].
  repeat (split; [assumption|]).
  destruct U as [U|[(v & V & U)|[U|(v & V & U)]]]; rewrite U; cbn;
    repeat split; auto.
Qed.

Lemma extraction_keeps_witness :
  let s' := fst (extract_profile_points
                   (session reference_line reference_cloud 5)) in
  snd (extract_profile_points (session reference_line reference_cloud 5)) = Ok tt /\
  profile_line s' = Some reference_line /\
  buffer_distance s' = 5 /\
  progress_visible (ui s') = false /\
  (progress_value (ui s') = 0%Z \/ (0 <= progress_value (ui s') <= 100)%Z).
Proof.
  destruct (extraction_keeps (session reference_line reference_cloud 5)
              (layer_of reference_cloud) reference_line eq_refl eq_refl)
    as (A & _ & B & _ & C & _ & _ & _ & _ & D & E).
  repeat split; assumption.
Defined.

(** X7. [extract_profile_points] starts from an empty list: the profile
    points after a call do not depend on the points held before, and a
    second call on the result gives the same points as the first. *)
Theorem extraction_idempotent self l line :
  vpc_layer self = Some l ->
  profile_line self = Some line ->
  (forall pts,
     profile_points (fst (extract_profile_points (set_profile_points pts self)))
     = profile_points (fst (extract_profile_points self))) /\
  profile_points (fst (extract_profile_points (fst (extract_profile_points self))))
  = profile_points (fst (extract_profile_points self)).
Proof.
  intros L P. split.
  - intros pts.
    rewrite (extract_profile_points_points (set_profile_points pts self) l line
               L P).
    rewrite (extract_profile_points_points self l line L P).
    apply extract_loop_points_only. reflexivity.
  - destruct (extraction_state self l line L P) as (A & B & _ & _ & _ & U).
    cbn zeta in *. rewrite L in A. rewrite P in B.
    rewrite (extract_profile_points_points _ l line A B).
    rewrite (extract_profile_points_points self l line L P).
    assert (S : buffer_spin (ui (fst (extract_profile_points self)))
                = buffer_spin (ui self)).
    { destruct U as [U|[(v & V & U)|[U|(v & V & U)]]]; rewrite U; reflexivity. }
    rewrite S. apply extract_loop_points_only. reflexivity.
Qed.

Lemma extraction_idempotent_witness :
  profile_points
    (fst (extract_profile_points
            (fst (extract_profile_points
                    (session reference_line reference_cloud 5)))))
  = profile_points
      (fst (extract_profile_points (session reference_line reference_cloud 5))).
Proof.
  exact (proj2 (extraction_idempotent (session reference_line reference_cloud 5)
                  (layer_of reference_cloud) reference_line eq_refl eq_refl)).
Defined.

(** X8. On a profile line of length 0 [extract_profile_points] stops at
    the first record inside the buffer: the list of profile points is
    empty or holds this one point, in which case the log ends with the
    [ZeroDivisionError]; the analysis button is not enabled. *)
Theorem extraction_on_zero_length self l line :
  vpc_layer self = Some l ->
  profile_line self = Some line ->
  Qgis.length line = 0 ->
  let s' := fst (extract_profile_points self) in
  (profile_points s' = [] \/
   exists pp, profile_points s' = [pp] /\
              log s' = log self ++ [MsgExtractionError ZeroDivisionError]) /\
  analyze_btn (ui s') = analyze_btn (ui self).
Proof.
  intros L P T. cbn zeta.
  rewrite (extract_profile_points_run self l line L P).
  destruct (extract_loop_keeps line (Qgis.buffer line (buffer_spin (ui self)))
              (cloud l) (prepared self))
    as (_ & _ & _ & _ & K5 & _ & K7).
  destruct (extract_loop_zero_length line
              (Qgis.buffer line (buffer_spin (ui self))) (cloud l)
              (prepared self) T) as [Z|(pp & Z & E)];
    cbn zeta in *;
    destruct (extract_loop line (Qgis.buffer line (buffer_spin (ui self)))
                (Qgis.length line) (cloud l) (prepared self)) as [s1 r1];
    cbn [fst snd] in *;
    assert (AB : analyze_btn (ui s1) = analyze_btn (ui self))
      by (destruct K7 as [K7|(v & _ & K7)]; rewrite K7; reflexivity).
  - cbn [prepared profile_points set_profile_points] in Z.
    destruct r1 as [[]|e]; cbn [fst].
    + rewrite finished_points. split; [left; exact Z|].
      unfold finished. cbn [ui profile_points set_ui]. rewrite Z. cbn.
      exact AB.
    + split; [left; exact Z | exact AB].
  - subst r1. cbn [fst]. split; [|exact AB].
    right. exists pp. split; [exact Z|].
    unfold failed. cbn. rewrite K5. reflexivity.
Qed.

Lemma extraction_on_zero_length_witness :
  let s1 := fst (get_profile_line narrow_session) in
  let s' := fst (extract_profile_points s1) in
  (profile_points s' = [] \/
   exists pp, profile_points s' = [pp] /\
              log s' = [MsgExtractionError ZeroDivisionError]) /\
  analyze_btn (ui s') = false.
Proof.
  exact (extraction_on_zero_length (fst (get_profile_line narrow_session))
           narrow_layer
           [(3, snd (Qgis.center (Qgis.mkRectangle 3 (-10) 3 10)));
            (3, snd (Qgis.center (Qgis.mkRectangle 3 (-10) 3 10)))]
           eq_refl eq_refl (degenerate_length _)).
Defined.

(** ** Further properties of [analyze_points] *)

Lemma insert_by_distance_ascending p l :
  ascending l -> ascending (insert_by_distance p l).
Proof.
  induction l as [|q l IH]; intros A; cbn [insert_by_distance].
  - exact I.
  - destruct (Rle_dec (ProfilePoint.distance p) (ProfilePoint.distance q)) as [H|H].
    + rewrite Rleb_true by exact H. split; assumption.
    + rewrite Rleb_false by lra.
      destruct l as [|r l].
      * cbn. split; [lra | exact I].
      * destruct A as [A1 A2]. specialize (IH A2).
        cbn [insert_by_distance] in *.
        destruct (Rleb (ProfilePoint.distance p) (ProfilePoint.distance r)) eqn:E.
        -- split; [lra | exact IH].
        -- split; [exact A1 | exact IH].
Qed.

Lemma sort_by_distance_is_ascending l : ascending (sort_by_distance l).
Proof.
  unfold sort_by_distance. induction l as [|p l IH]; cbn [fold_right].
  - exact I.
  - apply insert_by_distance_ascending, IH.
Qed.

Lemma insert_by_distance_perm p l : Permutation (p :: l) (insert_by_distance p l).
Proof.
  induction l as [|q l IH]; cbn [insert_by_distance]; [reflexivity|].
  destruct (Rleb (ProfilePoint.distance p) (ProfilePoint.distance q));
    [reflexivity|].
  rewrite perm_swap. apply perm_skip, IH.
Qed.

Lemma sort_by_distance_perm l : Permutation l (sort_by_distance l).
Proof.
  unfold sort_by_distance. induction l as [|p l IH]; cbn [fold_right];
    [reflexivity|].
  rewrite <- insert_by_distance_perm. apply perm_skip, IH.
Qed.

Lemma insert_by_distance_stable d p l :
  at_same_distance d (insert_by_distance p l) = at_same_distance d (p :: l).
Proof.
  unfold at_same_distance. induction l as [|q l IH]; cbn [insert_by_distance];
    [reflexivity|].
  destruct (Rle_dec (ProfilePoint.distance p) (ProfilePoint.distance q)) as [H|H].
  - rewrite Rleb_true by exact H. reflexivity.
  - rewrite Rleb_false by lra. cbn [filter] in *. rewrite IH.
    destruct (Req_dec_T (ProfilePoint.distance p) d) as [E|E].
    + rewrite (Reqb_true _ _ E).
      rewrite (Reqb_false (ProfilePoint.distance q) d) by lra. reflexivity.
    + rewrite (Reqb_false _ _ E). reflexivity.
Qed.

Lemma sort_by_distance_stable d l :
  at_same_distance d (sort_by_distance l) = at_same_distance d l.
Proof.
  unfold sort_by_distance. induction l as [|p l IH]; cbn [fold_right];
    [reflexivity|].
  rewrite insert_by_distance_stable. unfold at_same_distance in *.
  cbn [filter]. rewrite IH. reflexivity.
Qed.

Lemma analyze_points_sorts view self :
  profile_points (fst (analyze_points view self))
  = sort_by_distance (profile_points self).
Proof.
  destruct (profile_points self) as [|p pts] eqn:E.
  - unfold analyze_points. rewrite E. cbn. exact E.
  - rewrite analyze_points_run by congruence. cbn zeta. rewrite E.
    destruct (analysis_results (p :: pts)); [|reflexivity].
    destruct (snd (update_plot view _)); reflexivity.
Qed.

(** X9. After [analyze_points], whether the analysis succeeded or not, the
    list of profile points holds the same points as before, in ascending
    order of distance, the points at one distance in the order they had
    (the sort is stable); on a list already in ascending order nothing
    moves. *)
Theorem analyze_points_orders view self :
  let before := profile_points self in
  let after := profile_points (fst (analyze_points view self)) in
  ascending after /\ Permutation before after /\
  (forall d, at_same_distance d after = at_same_distance d before) /\
  (ascending before -> after = before).
Proof.
  cbn zeta. rewrite analyze_points_sorts. split; [|split; [|split]].
  - apply sort_by_distance_is_ascending.
  - apply sort_by_distance_perm.
  - intros d. apply sort_by_distance_stable.
  - apply sort_by_distance_ascending.
Qed.

Lemma dict_get_update_other k d e :
  ~ In k (keys e) -> dict_get k (dict_update d e) = dict_get k d.
Proof.
  unfold dict_update, keys. revert d.
  induction e as [|[k' v] e IH]; intros d N; cbn [fold_left fst snd].
  - reflexivity.
  - cbn [map fst In] in N. rewrite IH by tauto.
    apply dict_get_set_other. intros ->. tauto.
Qed.

Lemma terrain_keys pts k :
  In k (keys (compute_terrain_analysis pts)) -> k = "terrain_analysis"%string.
Proof.
  unfold compute_terrain_analysis.
  destruct (List.length pts <? 3)%nat; cbn; [tauto|]. intros [<-|[]]. reflexivity.
Qed.

Lemma roughness_keys pts d k :
  compute_roughness_analysis pts = Ok d ->
  In k (keys d) -> k = "roughness_analysis"%string.
Proof.
  unfold compute_roughness_analysis.
  destruct (List.length pts <? 5)%nat.
  - intros H. injection H as <-. cbn. tauto.
  - destruct (Np.polyfit1 _ _) as [c|e]; [|discriminate].
    intros H. injection H as <-. cbn. intros [<-|[]]. reflexivity.
Qed.

Lemma roughness_raises pts :
  (5 <= List.length pts)%nat ->
  (forall p, In p pts -> ProfilePoint.distance p = 0) ->
  compute_roughness_analysis pts = Raise LinAlgError.
Proof.
  intros L Z. unfold compute_roughness_analysis.
  rewrite (proj2 (Nat.ltb_ge _ _) L).
  rewrite polyfit1_all_zero; [reflexivity|].
  intros v I. apply in_map_iff in I. destruct I as (p & <- & I). apply Z, I.
Qed.

(** X10. [compute_roughness_analysis] returns the empty dictionary for
    fewer than 5 points; for at least 5 points that are all at the
    distance 0 it raises [LinAlgError]; for at least 5 points of which one
    is at another distance it returns the group [roughness_analysis] with
    its five fields, the deviations being one per point. *)
Theorem roughness_outcomes pts :
  ((List.length pts < 5)%nat -> compute_roughness_analysis pts = Ok []) /\
  ((5 <= List.length pts)%nat ->
   (forall p, In p pts -> ProfilePoint.distance p = 0) ->
   compute_roughness_analysis pts = Raise LinAlgError) /\
  ((5 <= List.length pts)%nat ->
   (exists p, In p pts /\ ProfilePoint.distance p <> 0) ->
   exists index slope intercept highest deviations,
     compute_roughness_analysis pts =
     Ok [ ("roughness_analysis",
            PDict [ ("roughness_index", PFloat index);
                    ("trend_slope", PFloat slope);
                    ("trend_intercept", PFloat intercept);
                    ("max_deviation", PFloat highest);
                    ("deviations", PList deviations) ]) ]%string /\
     List.length deviations = List.length pts).
Proof.
  split; [|split].
  - intros L. unfold compute_roughness_analysis.
    rewrite (proj2 (Nat.ltb_lt _ _) L). reflexivity.
  - apply roughness_raises.
  - intros L (p & I & N).
    destruct (polyfit1_returns (map ProfilePoint.distance pts)
                (map ProfilePoint.z pts)) as [c F].
    + exists (ProfilePoint.distance p). split; [apply in_map; exact I | exact N].
    + rewrite (compute_roughness_analysis_fit pts c L F).
      do 5 eexists. split; [reflexivity|]. apply length_map.
Qed.

(** The outcome of [update_plot] when the current plot type is the
    elevation profile, the first item of the combo box. *)
Lemma elevation_plot_outcome view s :
  plot_type_combo view = "Profil d'élévation"%string ->
  snd (update_plot view s) =
  match profile_points s with
  | [] => Ok tt
  | _ :: _ =>
      if (1 <? List.length (profile_points s))%nat then
        match Np.polyfit1 (map ProfilePoint.distance (profile_points s))
                          (map ProfilePoint.z (profile_points s)) with
        | Ok _ => Ok tt
        | Raise e => Raise e
        end
      else Ok tt
  end.
Proof.
  intros T. unfold update_plot, plot_elevation_profile. rewrite T.
  destruct (profile_points s) as [|p pts]; [reflexivity|].
  rewrite String.eqb_refl, length_map.
  destruct (1 <? _)%nat; [|reflexivity].
  destruct (Np.polyfit1 _ _); reflexivity.
Qed.

Lemma sorted_point_count pts r :
  pts <> [] ->
  compute_roughness_analysis (sort_by_distance pts) = Ok r ->
  dict_get "point_count"
    (dict_update
       (dict_update (compute_basic_statistics (sort_by_distance pts))
                    (compute_terrain_analysis (sort_by_distance pts))) r)
  = Some (PInt (Z.of_nat (List.length pts))).
Proof.
  intros N R.
  pose proof (sort_by_distance_length pts) as SL.
  set (sorted := sort_by_distance pts) in *.
  rewrite dict_get_update_other.
  - rewrite dict_get_update_other.
    + unfold compute_basic_statistics.
      destruct sorted as [|p t] eqn:E.
      * destruct pts; [congruence | discriminate].
      * rewrite <- SL. destruct (present_intensities (p :: t)); reflexivity.
    + intros I. apply terrain_keys in I. discriminate.
  - intros I. apply (roughness_keys sorted r _ R) in I. discriminate.
Qed.

(** X11. [analyze_points] never lets an exception out.  Without profile
    points it changes nothing.  With profile points it either sends one
    result, whose [point_count] is the number of points, and logs the end
    of the analysis, or sends nothing and logs an error.  At least 5
    points that are all at the distance 0 give the second outcome, with
    [LinAlgError].  When the plot type is the elevation profile, 2 points
    at the distance 0 are enough for it, as the plot fits a trend line to
    more than one point; a single point, or points of which one is at
    another distance, give the first outcome. *)
Theorem analyze_points_outcomes view self :
  let pts := profile_points self in
  let s' := fst (analyze_points view self) in
  let result_sent :=
    exists d,
      emitted s' = emitted self ++ [d] /\
      log s' = log self ++ [MsgAnalysisDone] /\
      dict_get "point_count" d = Some (PInt (Z.of_nat (List.length pts))) in
  let error_logged e :=
    emitted s' = emitted self /\ log s' = log self ++ [MsgAnalysisError e] in
  snd (analyze_points view self) = Ok tt /\
  (pts = [] -> s' = self) /\
  (pts <> [] -> result_sent \/ exists e, error_logged e) /\
  ((5 <= List.length pts)%nat ->
   (forall p, In p pts -> ProfilePoint.distance p = 0) ->
   error_logged LinAlgError) /\
  (plot_type_combo view = "Profil d'élévation"%string ->
   ((2 <= List.length pts)%nat ->
    (forall p, In p pts -> ProfilePoint.distance p = 0) ->
    error_logged LinAlgError) /\
   (List.length pts = 1%nat \/
    (exists p, In p pts /\ ProfilePoint.distance p <> 0) ->
    result_sent)).
Proof.
  cbn zeta.
  assert (Run : profile_points self <> [] ->
                analyze_points view self = _)
    by exact (analyze_points_run view self).
  cbn zeta in Run. unfold analysis_results in Run.
  pose proof (sort_by_distance_length (profile_points self)) as SL.
  pose proof (sorted_point_count (profile_points self)) as PC.
  assert (Zs : (forall p, In p (profile_points self) ->
                          ProfilePoint.distance p = 0) ->
               forall v, In v (map ProfilePoint.distance
                                   (sort_by_distance (profile_points self))) ->
                         v = 0).
  { intros Z v I. apply in_map_iff in I. destruct I as (p & <- & I).
    apply Z, sort_by_distance_In, I. }
  set (sorted := sort_by_distance (profile_points self)) in *.
  set (st := set_profile_points sorted self) in *.
  assert (Pst : profile_points st = sorted) by reflexivity.
  split; [|split; [|split; [|split]]].
  - destruct (profile_points self) as [|p0 t0] eqn:E.
    + unfold analyze_points. rewrite E. reflexivity.
    + rewrite Run by discriminate. reflexivity.
  - intros E. unfold analyze_points. rewrite E. reflexivity.
  - intros N. rewrite (Run N).
    destruct (compute_roughness_analysis sorted) as [r|e] eqn:R.
    + destruct (snd (update_plot view st)) as [u|e].
      * left. eexists. split; [reflexivity|]. split; [reflexivity|].
        exact (PC r N eq_refl).
      * right. exists e. split; reflexivity.
    + right. exists e. split; reflexivity.
  - intros L Z.
    assert (N : profile_points self <> [])
      by (destruct (profile_points self); [cbn in L; lia | discriminate]).
    rewrite (Run N), roughness_raises.
    + split; reflexivity.
    + lia.
    + intros p I. apply Z. apply sort_by_distance_In. exact I.
  - intros T. pose proof (elevation_plot_outcome view st T) as O.
    rewrite Pst in O. split.
    + intros L Z.
      assert (N : profile_points self <> [])
        by (destruct (profile_points self); [cbn in L; lia | discriminate]).
      rewrite (Run N).
      destruct (compute_roughness_analysis sorted) as [r|e] eqn:R.
      * rewrite O. destruct sorted as [|q t] eqn:S; [cbn in SL; lia|].
        rewrite (proj2 (Nat.ltb_lt _ _)) by lia.
        rewrite polyfit1_all_zero by exact (Zs Z). split; reflexivity.
      * destruct (Nat.lt_ge_cases (List.length sorted) 5) as [K|K].
        -- unfold compute_roughness_analysis in R.
           rewrite (proj2 (Nat.ltb_lt _ _) K) in R. discriminate.
        -- rewrite roughness_raises in R.
           ++ injection R as <-. split; reflexivity.
           ++ exact K.
           ++ intros p I. apply Z. apply sort_by_distance_In. exact I.
    + intros H.
      assert (N : profile_points self <> []).
      { destruct H as [H|(p & I & _)];
          destruct (profile_points self); try discriminate; auto. }
      rewrite (Run N).
      assert (F : List.length sorted = 1%nat \/
                  exists c, Np.polyfit1 (map ProfilePoint.distance sorted)
                                        (map ProfilePoint.z sorted) = Ok c).
      { destruct H as [H|(p & I & D)]; [left; lia | right].
        apply polyfit1_returns. exists (ProfilePoint.distance p).
        split; [apply in_map, sort_by_distance_In; exact I | exact D]. }
      assert (R : exists r, compute_roughness_analysis sorted = Ok r).
      { destruct (groups_by_count sorted) as (_ & _ & R0 & _).
        destruct (Nat.lt_ge_cases (List.length sorted) 5) as [K|K].
        - exists []. apply R0, K.
        - destruct F as [F|[c F]]; [lia|].
          rewrite (compute_roughness_analysis_fit sorted c K F). eauto. }
      destruct R as [r R]. rewrite R, O.
      assert (P : match sorted with
                  | [] => Ok tt
                  | _ :: _ =>
                      if (1 <? List.length sorted)%nat
                      then match Np.polyfit1 (map ProfilePoint.distance sorted)
                                             (map ProfilePoint.z sorted) with
                           | Ok _ => Ok tt
                           | Raise e => Raise e
                           end
                      else Ok tt
                  end = Ok tt).
      { destruct sorted as [|q t]; [reflexivity|].
        destruct F as [F|[c F]].
        - rewrite (proj2 (Nat.ltb_ge _ _)) by lia. reflexivity.
        - rewrite F. destruct (1 <? _)%nat; reflexivity. }
      rewrite P. eexists. split; [reflexivity|]. split; [reflexivity|].
      apply PC; assumption.
Qed.

(** ** Further properties of the statistics *)

(** X12. For a non-empty list of profile points the group
    [elevation_stats] holds under [min] and [max] the least and the
    greatest elevation, each the elevation of a point, and under [range]
    their difference, which is at least 0, and is 0 exactly when all the
    points have the same elevation; the standard deviation is at least 0;
    [point_count] is the number of points. *)
Theorem elevation_stats_bounds pts :
  pts <> [] ->
  exists lowest highest mean std,
    dict_get "elevation_stats" (compute_basic_statistics pts)
    = Some (PDict [ ("min", PFloat lowest); ("max", PFloat highest);
                    ("mean", PFloat mean); ("std", PFloat std);
                    ("range", PFloat (highest - lowest)) ]%string) /\
    dict_get "point_count" (compute_basic_statistics pts)
    = Some (PInt (Z.of_nat (List.length pts))) /\
    (exists p, In p pts /\ ProfilePoint.z p = lowest) /\
    (exists p, In p pts /\ ProfilePoint.z p = highest) /\
    (forall p, In p pts -> lowest <= ProfilePoint.z p <= highest) /\
    0 <= highest - lowest /\
    (highest - lowest = 0 <->
     forall p q, In p pts -> In q pts -> ProfilePoint.z p = ProfilePoint.z q) /\
    0 <= std.
Proof.
  intros N. set (elevations := map ProfilePoint.z pts).
  assert (E : elevations <> [])
    by (unfold elevations; destruct pts; [congruence | discriminate]).
  destruct (pymax_spec elevations E) as [I U].
  destruct (pymin_spec elevations E) as [J V].
  assert (B : forall p, In p pts ->
                pymin elevations <= ProfilePoint.z p <= pymax elevations)
    by (intros p K; split; [apply V | apply U]; apply in_map, K).
  exists (pymin elevations), (pymax elevations), (Np.mean elevations),
    (Np.std elevations).
  apply in_map_iff in I. destruct I as (ph & Ih & Ip).
  apply in_map_iff in J. destruct J as (pl & Jl & Jp).
  split; [|split; [|split; [|split; [|split; [|split; [|split]]]]]].
  - unfold compute_basic_statistics. destruct pts as [|p pts]; [congruence|].
    fold elevations. destruct elevations as [|e es] eqn:Q; [congruence|].
    destruct (present_intensities (p :: pts)); reflexivity.
  - unfold compute_basic_statistics. destruct pts as [|p pts]; [congruence|].
    destruct (present_intensities (p :: pts)); reflexivity.
  - eauto.
  - eauto.
  - exact B.
  - pose proof (B ph Ip). lra.
  - split.
    + intros Z p q P Q. pose proof (B p P). pose proof (B q Q). lra.
    + intros A. rewrite <- Ih, <- Jl, (A ph pl Ip Jp). ring.
  - apply sqrt_pos.
Qed.

Lemma elevation_stats_bounds_witness :
  exists lowest highest mean std,
    dict_get "elevation_stats" (compute_basic_statistics reference_points)
    = Some (PDict [ ("min", PFloat lowest); ("max", PFloat highest);
                    ("mean", PFloat mean); ("std", PFloat std);
                    ("range", PFloat (highest - lowest)) ]%string) /\
    Forall (fun p => lowest <= ProfilePoint.z p <= highest) reference_points /\
    0 <= highest - lowest /\ 0 <= std.
Proof.
  destruct (elevation_stats_bounds reference_points)
    as (a & b & m & s & A & _ & _ & _ & B & C & _ & D).
  - discriminate.
  - exists a, b, m, s. split; [exact A|].
    split; [apply Forall_forall; exact B|]. split; assumption.
Defined.

(** X13. The [profile_length] computed from the points that
    [extract_profile_points] made is at least 0 and at most the length of
    the profile line. *)
Theorem profile_length_within_line self l line :
  vpc_layer self = Some l ->
  profile_line self = Some line ->
  let pts := profile_points (fst (extract_profile_points self)) in
  pts <> [] ->
  exists v,
    dict_get "profile_length" (compute_basic_statistics pts) = Some (PFloat v) /\
    0 <= v <= Qgis.length line.
Proof.
  intros L P pts N.
  set (distances := map ProfilePoint.distance pts).
  assert (D : distances <> [])
    by (unfold distances; destruct pts; [congruence | discriminate]).
  destruct (pymax_spec distances D) as [I U].
  destruct (pymin_spec distances D) as [J V].
  assert (R : forall d, In d distances -> 0 <= d <= Qgis.length line).
  { intros d K. apply in_map_iff in K. destruct K as (pp & <- & K).
    destruct (extracted_point_made self l line pp L P K) as [p ->].
    apply lineLocatePoint_range. }
  exists (pymax distances - pymin distances). split.
  - unfold compute_basic_statistics. destruct pts as [|p t] eqn:Q; [congruence|].
    fold distances. destruct distances as [|d ds]; [congruence|].
    destruct (present_intensities (p :: t)); reflexivity.
  - pose proof (R _ I). pose proof (R _ J). pose proof (U _ J). lra.
Qed.

Lemma profile_length_within_line_witness :
  exists v,
    dict_get "profile_length"
      (compute_basic_statistics
         (profile_points
            (fst (extract_profile_points
                    (session reference_line reference_cloud 5)))))
    = Some (PFloat v) /\
    0 <= v <= Qgis.length reference_line.
Proof.
  apply (profile_length_within_line (session reference_line reference_cloud 5)
           (layer_of reference_cloud) reference_line eq_refl eq_refl).
  rewrite reference_scenario_points. discriminate.
Defined.

(** A slope angle is an angle between -90 and 90 degrees: the arc
    tangent lies between [- PI / 2] and [PI / 2]. *)
Lemma slope_angle_range p1 p2 : -90 <= slope_angle p1 p2 <= 90.
Proof.
  unfold slope_angle, degrees.
  set (v := (ProfilePoint.z p2 - ProfilePoint.z p1)
            / (ProfilePoint.distance p2 - ProfilePoint.distance p1)).
  pose proof (atan_bound v) as [A B]. pose proof PI_RGT_0 as P.
  assert (Q : 0 < 180 / PI) by (apply Rdiv_lt_0_compat; lra).
  split; apply Rlt_le.
  - replace (-90) with (- PI / 2 * (180 / PI)) by (field; lra).
    apply Rmult_lt_compat_r; assumption.
  - replace 90 with (PI / 2 * (180 / PI)) by (field; lra).
    apply Rmult_lt_compat_r; assumption.
Qed.

Lemma spec_slopes_cons p1 p2 rest :
  spec_slopes (p1 :: p2 :: rest) =
  if Reqb (ProfilePoint.distance p2) (ProfilePoint.distance p1)
  then spec_slopes (p2 :: rest)
  else slope_angle p1 p2 :: spec_slopes (p2 :: rest).
Proof. reflexivity. Qed.

Lemma spec_slopes_range pts :
  Forall (fun s => -90 <= s <= 90) (spec_slopes pts).
Proof.
  induction pts as [|p1 pts IH]; [constructor|].
  destruct pts as [|p2 pts]; [constructor|].
  rewrite spec_slopes_cons.
  destruct (Reqb (ProfilePoint.distance p2) (ProfilePoint.distance p1));
    [exact IH|].
  constructor; [apply slope_angle_range | exact IH].
Qed.

Lemma spec_slopes_count pts :
  (List.length (spec_slopes pts) <= List.length pts - 1)%nat /\
  (distinct_steps pts ->
   List.length (spec_slopes pts) = (List.length pts - 1)%nat).
Proof.
  induction pts as [|p1 pts IH]; [cbn; auto|].
  destruct pts as [|p2 pts]; [cbn; auto|].
  rewrite spec_slopes_cons. cbn [distinct_steps]. destruct IH as [A B].
  cbn [List.length] in *. split.
  - destruct (Reqb (ProfilePoint.distance p2) (ProfilePoint.distance p1));
      cbn [List.length]; lia.
  - intros [N D]. rewrite (Reqb_false _ _ N). cbn [List.length].
    rewrite (B D). lia.
Qed.

(** X14. The slopes of the terrain analysis are angles between -90 and
    90 degrees; there is at most one per pair of consecutive points, and
    exactly one per pair when no two consecutive points are at the same
    distance. *)
Theorem terrain_slopes_range pts d slopes :
  dict_get "terrain_analysis" (compute_terrain_analysis pts) = Some (PDict d) ->
  dict_get "slopes" d = Some (PList slopes) ->
  Forall (fun s => -90 <= s <= 90) slopes /\
  (List.length slopes <= List.length pts - 1)%nat /\
  (distinct_steps pts -> List.length slopes = (List.length pts - 1)%nat).
Proof.
  unfold compute_terrain_analysis.
  destruct (List.length pts <? 3)%nat; [discriminate|].
  rewrite compute_slopes_spec.
  cbn [dict_get String.eqb Ascii.eqb Bool.eqb].
  intros H. injection H as <-.
  cbn [dict_get String.eqb Ascii.eqb Bool.eqb].
  intros H. injection H as <-.
  split; [apply spec_slopes_range | apply spec_slopes_count].
Qed.

Lemma terrain_slopes_range_witness :
  exists slopes,
    Forall (fun s => -90 <= s <= 90) slopes /\
    (List.length slopes <= 2)%nat /\
    compute_slopes [at_distance 0 0; at_distance 1 1; at_distance 1 5] = slopes.
Proof.
  exists (compute_slopes [at_distance 0 0; at_distance 1 1; at_distance 1 5]).
  destruct (terrain_slopes_range
              [at_distance 0 0; at_distance 1 1; at_distance 1 5] _ _
              eq_refl eq_refl) as (A & B & _).
  repeat split; assumption.
Defined.

Lemma sum_repeat c k : Np.sum (repeat c k) = INR k * c.
Proof.
  induction k as [|k IH]; [cbn; ring|].
  cbn [repeat Np.sum fold_right]. fold (Np.sum (repeat c k)).
  rewrite IH, S_INR. ring.
Qed.

Lemma mean_repeat c k : (0 < k)%nat -> Np.mean (repeat c k) = c.
Proof.
  intros K. unfold Np.mean. rewrite sum_repeat, repeat_length. field.
  apply not_0_INR. lia.
Qed.

Lemma std_repeat c k : (0 < k)%nat -> Np.std (repeat c k) = 0.
Proof.
  intros K. unfold Np.std. rewrite (mean_repeat c k K).
  unfold Np.mean. rewrite sum_zero.
  - unfold Rdiv. rewrite Rmult_0_l. apply sqrt_0.
  - intros v I. apply repeat_spec in I. subst v. ring.
Qed.

Lemma pymax_repeat c k : (0 < k)%nat -> pymax (repeat c k) = c.
Proof.
  intros K. destruct (pymax_spec (repeat c k)) as [I _].
  - destruct k; [lia | discriminate].
  - exact (repeat_spec _ _ _ I).
Qed.

Lemma pymin_repeat c k : (0 < k)%nat -> pymin (repeat c k) = c.
Proof.
  intros K. destruct (pymin_spec (repeat c k)) as [I _].
  - destruct k; [lia | discriminate].
  - exact (repeat_spec _ _ _ I).
Qed.

Lemma spec_slopes_of_line a b pts :
  (forall p, In p pts -> ProfilePoint.z p = a * ProfilePoint.distance p + b) ->
  distinct_steps pts ->
  spec_slopes pts = repeat (degrees (atan a)) (List.length pts - 1).
Proof.
  induction pts as [|p1 pts IH]; intros H D; [reflexivity|].
  destruct pts as [|p2 pts]; [reflexivity|].
  destruct D as [N D]. rewrite spec_slopes_cons, (Reqb_false _ _ N).
  rewrite IH; [|intros p I; apply H; right; exact I | exact D].
  replace (List.length (p1 :: p2 :: pts) - 1)%nat
    with (S (List.length (p2 :: pts) - 1)) by (cbn [List.length]; lia).
  cbn [repeat]. f_equal.
  unfold slope_angle. do 2 f_equal.
  rewrite (H p1), (H p2) by (cbn; auto). field. lra.
Qed.

(** X15. For at least 3 profile points that all have the same elevation,
    no two consecutive points being at the same distance, every slope of
    the terrain analysis is 0, and so are the mean, the greatest and the
    least slope and the standard deviation of the slopes. *)
Theorem terrain_of_level_profile e pts :
  (3 <= List.length pts)%nat ->
  (forall p, In p pts -> ProfilePoint.z p = e) ->
  distinct_steps pts ->
  compute_terrain_analysis pts =
  [ ("terrain_analysis",
      PDict [ ("slopes", PList (repeat 0 (List.length pts - 1)));
              ("mean_slope", PFloat 0);
              ("max_slope", PFloat 0);
              ("min_slope", PFloat 0);
              ("slope_std", PFloat 0) ]) ]%string.
Proof.
  intros L H D. unfold compute_terrain_analysis.
  rewrite (proj2 (Nat.ltb_ge _ _) L).
  rewrite compute_slopes_spec, (spec_slopes_of_line 0 e pts);
    [|intros p I; rewrite (H p I); ring | exact D].
  replace (degrees (atan 0)) with 0
    by (rewrite atan_0; unfold degrees; ring).
  assert (K : (0 < List.length pts - 1)%nat) by lia.
  rewrite (mean_repeat _ _ K), (std_repeat _ _ K), (pymax_repeat _ _ K),
    (pymin_repeat _ _ K).
  destruct (List.length pts - 1)%nat; [lia|]. reflexivity.
Qed.

Lemma terrain_of_level_profile_witness :
  compute_terrain_analysis [at_distance 0 7; at_distance 1 7; at_distance 2 7] =
  [ ("terrain_analysis",
      PDict [ ("slopes", PList [0; 0]);
              ("mean_slope", PFloat 0);
              ("max_slope", PFloat 0);
              ("min_slope", PFloat 0);
              ("slope_std", PFloat 0) ]) ]%string.
Proof.
  apply (terrain_of_level_profile 7
           [at_distance 0 7; at_distance 1 7; at_distance 2 7]).
  - cbn. lia.
  - intros p [<-|[<-|[<-|[]]]]; reflexivity.
  - unfold at_distance. cbn [distinct_steps ProfilePoint.distance].
    repeat split; lra.
Defined.

(** ** Further properties of the roughness analysis *)

Lemma compute_roughness_analysis_inv pts d :
  compute_roughness_analysis pts = Ok [("roughness_analysis", PDict d)]%string ->
  exists coeffs,
    (5 <= List.length pts)%nat /\
    Np.polyfit1 (map ProfilePoint.distance pts) (map ProfilePoint.z pts)
    = Ok coeffs /\
    let deviations :=
      map (fun p => ProfilePoint.z p
                    - Np.polyval coeffs (ProfilePoint.distance p)) pts in
    d = [ ("roughness_index", PFloat (Np.std deviations));
          ("trend_slope", PFloat (fst coeffs));
          ("trend_intercept", PFloat (snd coeffs));
          ("max_deviation", PFloat (pymax (map Rabs deviations)));
          ("deviations", PList deviations) ]%string.
Proof.
  intros H.
  destruct (Nat.lt_ge_cases (List.length pts) 5) as [L|L].
  - unfold compute_roughness_analysis in H.
    rewrite (proj2 (Nat.ltb_lt _ _) L) in H. discriminate.
  - destruct (Np.polyfit1 (map ProfilePoint.distance pts)
                          (map ProfilePoint.z pts)) as [c|e] eqn:F.
    + rewrite (compute_roughness_analysis_fit pts c L F) in H.
      injection H as <-. exists c. repeat split; assumption.
    + unfold compute_roughness_analysis in H.
      rewrite (proj2 (Nat.ltb_ge _ _) L), F in H. discriminate.
Qed.

Lemma line_sample_fit :
  Np.polyfit1 (map ProfilePoint.distance line_sample)
              (map ProfilePoint.z line_sample) = Ok (2, 5).
Proof.
  replace (map ProfilePoint.z line_sample)
    with (map (fun v => 2 * v + 5) (map ProfilePoint.distance line_sample)).
  - apply polyfit1_of_line. exists 0, 1.
    split; [left; reflexivity|]. split; [right; left; reflexivity | lra].
  - unfold line_sample, at_distance.
    cbn [map ProfilePoint.distance ProfilePoint.z].
    repeat (f_equal; try lra).
Qed.

Lemma line_sample_roughness :
  let deviations :=
    map (fun p => ProfilePoint.z p - Np.polyval (2, 5) (ProfilePoint.distance p))
        line_sample in
  compute_roughness_analysis line_sample =
  Ok [ ("roughness_analysis",
         PDict [ ("roughness_index", PFloat (Np.std deviations));
                 ("trend_slope", PFloat 2);
                 ("trend_intercept", PFloat 5);
                 ("max_deviation", PFloat (pymax (map Rabs deviations)));
                 ("deviations", PList deviations) ]) ]%string.
Proof.
  apply (compute_roughness_analysis_fit line_sample (2, 5)).
  - cbn. lia.
  - exact line_sample_fit.
Qed.

(** X17. In the group returned by the roughness analysis there is one
    deviation per point, the elevation of the point minus the value at
    its distance of the line given by [trend_slope] and
    [trend_intercept]; [max_deviation] is the greatest absolute value of
    the deviations, the absolute value of one of them; and
    [roughness_index] is at least 0. *)
Theorem roughness_deviations_bound pts d :
  compute_roughness_analysis pts = Ok [("roughness_analysis", PDict d)]%string ->
  exists index slope intercept highest deviations,
    d = [ ("roughness_index", PFloat index);
          ("trend_slope", PFloat slope);
          ("trend_intercept", PFloat intercept);
          ("max_deviation", PFloat highest);
          ("deviations", PList deviations) ]%string /\
    deviations
    = map (fun p => ProfilePoint.z p
                    - (slope * ProfilePoint.distance p + intercept)) pts /\
    (forall v, In v deviations -> Rabs v <= highest) /\
    (exists v, In v deviations /\ Rabs v = highest) /\
    0 <= index.
Proof.
  intros H.
  destruct (compute_roughness_analysis_inv pts d H) as ([a b] & L & F & ->).
  set (deviations := map (fun p => ProfilePoint.z p
                                   - Np.polyval (a, b) (ProfilePoint.distance p))
                         pts).
  assert (A : map Rabs deviations <> [])
    by (unfold deviations; destruct pts; [cbn in L; lia | discriminate]).
  destruct (pymax_spec (map Rabs deviations) A) as [I U].
  exists (Np.std deviations), a, b, (pymax (map Rabs deviations)), deviations.
  split; [reflexivity|]. split; [reflexivity|]. split; [|split].
  - intros v K. apply U, in_map, K.
  - apply in_map_iff in I. destruct I as (v & E & K). eauto.
  - apply sqrt_pos.
Qed.

Lemma roughness_deviations_bound_witness :
  exists index slope intercept highest deviations,
    compute_roughness_analysis line_sample =
    Ok [ ("roughness_analysis",
           PDict [ ("roughness_index", PFloat index);
                   ("trend_slope", PFloat slope);
                   ("trend_intercept", PFloat intercept);
                   ("max_deviation", PFloat highest);
                   ("deviations", PList deviations) ]) ]%string /\
    Forall (fun v => Rabs v <= highest) deviations /\ 0 <= index.
Proof.
  destruct (roughness_deviations_bound line_sample _ line_sample_roughness)
    as (i & a & b & h & dv & E & _ & B & _ & P).
  exists i, a, b, h, dv. rewrite <- E. split; [exact line_sample_roughness|].
  split; [apply Forall_forall; exact B | exact P].
Defined.

(** ** From the profile line to the slopes *)

Lemma ascending_head p l :
  ascending (p :: l) ->
  forall q, In q l -> ProfilePoint.distance p <= ProfilePoint.distance q.
Proof.
  revert p. induction l as [|r l IH]; intros p A q I; [destruct I|].
  destruct A as [H A]. destruct I as [<-|I]; [exact H|].
  apply Rle_trans with (ProfilePoint.distance r); [exact H | apply IH; assumption].
Qed.

Lemma ascending_tail p l : ascending (p :: l) -> ascending l.
Proof. destruct l as [|q l]; [intros _; exact I | intros [_ A]; exact A]. Qed.

Lemma spec_slopes_same_distance l :
  (forall p q, In p l -> In q l ->
               ProfilePoint.distance p = ProfilePoint.distance q) ->
  spec_slopes l = [].
Proof.
  induction l as [|p1 l IH]; intros H; [reflexivity|].
  destruct l as [|p2 l]; [reflexivity|].
  rewrite spec_slopes_cons, Reqb_true by (apply H; cbn; auto).
  apply IH. intros p q P Q. apply H; right; assumption.
Qed.

(** A sequence in ascending order whose distances take two values only
    has at most one pair of consecutive points at unequal distances. *)
Lemma spec_slopes_two_values w l :
  ascending l ->
  (forall p, In p l -> ProfilePoint.distance p = 0 \/ ProfilePoint.distance p = w) ->
  (List.length (spec_slopes l) <= 1)%nat.
Proof.
  induction l as [|p1 l IH]; intros A H; [cbn; lia|].
  destruct l as [|p2 l]; [cbn; lia|].
  rewrite spec_slopes_cons.
  destruct (Req_dec_T (ProfilePoint.distance p2) (ProfilePoint.distance p1))
    as [E|E].
  - rewrite (Reqb_true _ _ E). apply IH; [exact (ascending_tail _ _ A)|].
    intros p I. apply H. right. exact I.
  - rewrite (Reqb_false _ _ E). cbn [List.length].
    rewrite spec_slopes_same_distance; [cbn; lia|].
    destruct A as [A1 A2].
    assert (S : forall q, In q (p2 :: l) ->
                          ProfilePoint.distance q = ProfilePoint.distance p2).
    { intros q [<-|I]; [reflexivity|].
      pose proof (ascending_head p2 l A2 q I) as G.
      destruct (H p1 ltac:(left; reflexivity)) as [X|X];
        destruct (H p2 ltac:(right; left; reflexivity)) as [Y|Y];
        destruct (H q ltac:(right; right; exact I)) as [Q|Q]; lra. }
    intros p q P Q. rewrite (S p P), (S q Q). reflexivity.
Qed.

(** X18. After [extract_profile_points] on a profile line of two vertices,
    which is what [get_profile_line] makes, followed by [analyze_points],
    the terrain analysis of the profile points holds at most one slope,
    whatever the number of points: all the points are at the distance 0 or
    at the length of the line. *)
Theorem two_vertex_profile_slopes view self l a b d slopes :
  vpc_layer self = Some l ->
  profile_line self = Some [a; b] ->
  let pts :=
    profile_points
      (fst (analyze_points view (fst (extract_profile_points self)))) in
  dict_get "terrain_analysis" (compute_terrain_analysis pts) = Some (PDict d) ->
  dict_get "slopes" d = Some (PList slopes) ->
  (List.length slopes <= 1)%nat.
Proof.
  intros L P pts. unfold compute_terrain_analysis.
  destruct (List.length pts <? 3)%nat; [discriminate|].
  rewrite compute_slopes_spec.
  cbn [dict_get String.eqb Ascii.eqb Bool.eqb].
  intros H. injection H as <-.
  cbn [dict_get String.eqb Ascii.eqb Bool.eqb].
  intros H. injection H as <-.
  unfold pts. rewrite analyze_points_sorts.
  apply (spec_slopes_two_values (Qgis.length [a; b])).
  - apply sort_by_distance_is_ascending.
  - intros p I. apply (proj1 (sort_by_distance_In _ _)) in I.
    destruct (extracted_point_made _ l [a; b] p L P I) as [q ->].
    apply two_vertex_distance.
Qed.

Lemma reference_analysis_terrain view :
  let pts :=
    profile_points
      (fst (analyze_points view
              (fst (extract_profile_points
                      (session reference_line reference_cloud 5))))) in
  dict_get "terrain_analysis" (compute_terrain_analysis pts)
  = Some (PDict [ ("slopes", PList (compute_slopes pts));
                  ("mean_slope",
                    if_nonempty (compute_slopes pts) (Np.mean (compute_slopes pts)));
                  ("max_slope",
                    if_nonempty (compute_slopes pts) (pymax (compute_slopes pts)));
                  ("min_slope",
                    if_nonempty (compute_slopes pts) (pymin (compute_slopes pts)));
                  ("slope_std",
                    if_nonempty (compute_slopes pts) (Np.std (compute_slopes pts)))
                ]%string).
Proof.
  cbn zeta. unfold compute_terrain_analysis.
  rewrite analyze_points_sorts, sort_by_distance_length,
    reference_scenario_points.
  reflexivity.
Qed.

Lemma two_vertex_profile_slopes_witness :
  (List.length
     (compute_slopes
        (profile_points
           (fst (analyze_points opening_view
                   (fst (extract_profile_points
                           (session reference_line reference_cloud 5)))))))
   <= 1)%nat.
Proof.
  exact (two_vertex_profile_slopes opening_view
           (session reference_line reference_cloud 5)
           (layer_of reference_cloud) (0, 0) (100, 0) _ _ eq_refl eq_refl
           (reference_analysis_terrain opening_view) eq_refl).
Defined.

(** ** Further properties of the table and of [create_elevation_profile] *)

(** X19. Without profile points [update_data_table] leaves the table as
    it was.  Otherwise the table has one row of six items per profile
    point, in the order of the points; the intensity item is ["N/A"] iff
    the intensity is absent or 0, and the classification item iff the
    classification is absent or 0, although [compute_basic_statistics]
    counts an intensity of 0 among the intensities. *)
Theorem data_table_rows pts t :
  let t' := update_data_table pts t in
  (pts = [] -> t' = t) /\
  (pts <> [] ->
   List.length (items t') = List.length pts /\
   forall i p,
     nth_error pts i = Some p ->
     exists row,
       nth_error (items t') i = Some row /\
       List.length row = 6%nat /\
       nth_error row 0 = Some (Fixed2 (ProfilePoint.distance p)) /\
       (nth_error row 4 = Some NA <->
        ProfilePoint.intensity p = None \/ ProfilePoint.intensity p = Some 0) /\
       (nth_error row 5 = Some NA <->
        ProfilePoint.classification p = None \/
        ProfilePoint.classification p = Some 0%Z)) /\
  (forall p,
     In p pts -> ProfilePoint.intensity p = Some 0 ->
     dict_has "intensity_stats" (compute_basic_statistics pts) = true /\
     In 0 (present_intensities pts)).
Proof.
  cbn zeta. split; [|split].
  - intros ->. reflexivity.
  - intros N. unfold update_data_table.
    destruct pts as [|q rest] eqn:E; [congruence|]. rewrite <- E. clear N E.
    cbn [items]. split; [apply length_map|].
    intros i p H. exists (table_row p). split; [apply map_nth_error; exact H|].
    split; [reflexivity|]. split; [reflexivity|].
    unfold table_row. cbn [nth_error]. unfold intensity_cell, classification_cell.
    split.
    + destruct (ProfilePoint.intensity p) as [v|].
      * destruct (Req_dec_T v 0) as [Z|Z].
        -- rewrite (Reqb_true _ _ Z). subst v. tauto.
        -- rewrite (Reqb_false _ _ Z). split; [discriminate|].
           intros [D|D]; [discriminate | injection D as D; contradiction].
      * tauto.
    + destruct (ProfilePoint.classification p) as [n|].
      * destruct (Z.eqb_spec n 0) as [Z|Z].
        -- subst n. tauto.
        -- split; [discriminate|].
           intros [D|D]; [discriminate | injection D as D; contradiction].
      * tauto.
  - intros p I Z.
    assert (K : In 0 (present_intensities pts))
      by (apply present_intensities_In; eauto).
    split; [|exact K].
    unfold dict_has, compute_basic_statistics.
    destruct pts as [|q pts]; [destruct I|].
    destruct (present_intensities (q :: pts)); [destruct K | reflexivity].
Qed.

(** X20. [create_elevation_profile]: without a layer selected in the
    combo box it only logs the request to select one.  With the
    identifier of a layer of the project it sets this layer and the
    horizontal line through the centre of its extent, enables the
    extraction button and logs the creation.  With an identifier that the
    project no longer has, the layer becomes absent and the profile line
    stays as it was: if there was one, the button is enabled and the
    creation is logged all the same, and [extract_profile_points] then
    does nothing. *)
Theorem create_elevation_profile_outcomes w :
  let w' := create_elevation_profile w in
  (layer_combo_data w = None ->
   analyzer_of w' = analyzer_of w /\
   creation_log w' = creation_log w ++ [MsgSelectLayer]) /\
  (forall layer_id l,
     layer_combo_data w = Some layer_id -> layer_id <> ""%string ->
     mapLayer (project_layers w) layer_id = Some l ->
     let e := extent l in
     let cy := Qgis.yMinimum e + (Qgis.yMaximum e - Qgis.yMinimum e) / 2 in
     vpc_layer (analyzer_of w') = Some l /\
     profile_line (analyzer_of w')
     = Some [(Qgis.xMinimum e, cy); (Qgis.xMaximum e, cy)] /\
     profile_points (analyzer_of w') = profile_points (analyzer_of w) /\
     extract_points_btn (ui (analyzer_of w')) = true /\
     creation_log w' = creation_log w ++ [MsgProfileCreated]) /\
  (forall layer_id,
     layer_combo_data w = Some layer_id -> layer_id <> ""%string ->
     mapLayer (project_layers w) layer_id = None ->
     vpc_layer (analyzer_of w') = None /\
     profile_line (analyzer_of w') = profile_line (analyzer_of w) /\
     (profile_line (analyzer_of w) <> None ->
      extract_points_btn (ui (analyzer_of w')) = true /\
      creation_log w' = creation_log w ++ [MsgProfileCreated]) /\
     (profile_line (analyzer_of w) = None ->
      extract_points_btn (ui (analyzer_of w'))
      = extract_points_btn (ui (analyzer_of w)) /\
      creation_log w' = creation_log w) /\
     extract_profile_points (analyzer_of w') = (analyzer_of w', Ok tt)).
Proof.
  cbn zeta. unfold create_elevation_profile. split; [|split].
  - intros ->. split; reflexivity.
  - intros layer_id l -> N M.
    rewrite (proj2 (String.eqb_neq _ _) N), M.
    unfold get_profile_line. cbn. repeat split.
  - intros layer_id -> N M.
    rewrite (proj2 (String.eqb_neq _ _) N), M.
    unfold get_profile_line. cbn [vpc_layer set_vpc_layer fst profile_line].
    destruct (profile_line (analyzer_of w)) as [line|] eqn:P; cbn.
    + repeat split; try congruence.
    + repeat split; try congruence.
Qed.

(** ** The buffer distance and the order of the points *)

Lemma contains_wider g b1 b2 p :
  b1 <= b2 ->
  Qgis.contains (Qgis.buffer g b1) p = true ->
  Qgis.contains (Qgis.buffer g b2) p = true.
Proof.
  unfold Qgis.contains, Qgis.buffer. cbn [Qgis.base Qgis.radius].
  intros W. destruct (Qgis.sqrDistTo g p) as [s|]; [|discriminate].
  intros H. apply andb_true_iff in H. destruct H as [B S].
  apply Rltb_spec in B. apply Rltb_spec in S.
  rewrite (Rltb_true 0 b2) by lra. rewrite Rltb_true; [reflexivity|]. nra.
Qed.

Lemma accepted_points_wider g b1 b2 records pp :
  b1 <= b2 ->
  In pp (accepted_points g (Qgis.buffer g b1) records) ->
  In pp (accepted_points g (Qgis.buffer g b2) records).
Proof.
  intros W. induction records as [|r records IH]; [intros []|].
  cbn [accepted_points]. destruct (position r) as [p|]; [|exact IH].
  destruct (Qgis.contains (Qgis.buffer g b1) p) eqn:C.
  - rewrite (contains_wider g b1 b2 p W C). intros [<-|I].
    + left. reflexivity.
    + right. apply IH, I.
  - intros I. destruct (Qgis.contains (Qgis.buffer g b2) p).
    + right. apply IH, I.
    + apply IH, I.
Qed.

(** X21. On a profile line with a length, widening the buffer never loses
    a point: every profile point extracted with a buffer distance is also
    extracted, from the same source, with any greater buffer distance. *)
Theorem extraction_wider_buffer self1 self2 l line :
  vpc_layer self1 = Some l -> vpc_layer self2 = Some l ->
  profile_line self1 = Some line -> profile_line self2 = Some line ->
  Qgis.length line <> 0 ->
  buffer_spin (ui self1) <= buffer_spin (ui self2) ->
  forall pp,
    In pp (profile_points (fst (extract_profile_points self1))) ->
    In pp (profile_points (fst (extract_profile_points self2))).
Proof.
  intros L1 L2 P1 P2 T W pp.
  rewrite (proj1 (extraction_accepts_aux self1 l line L1 P1 T)).
  rewrite (proj1 (extraction_accepts_aux self2 l line L2 P2 T)).
  apply accepted_points_wider, W.
Qed.

Lemma extraction_wider_buffer_witness :
  Forall (fun pp =>
            In pp (profile_points
                     (fst (extract_profile_points
                             (session reference_line reference_cloud 8)))))
         (profile_points
            (fst (extract_profile_points
                    (session reference_line reference_cloud 5)))).
Proof.
  apply Forall_forall.
  apply (extraction_wider_buffer (session reference_line reference_cloud 5)
           (session reference_line reference_cloud 8)
           (layer_of reference_cloud) reference_line eq_refl eq_refl eq_refl
           eq_refl reference_length_nonzero).
  cbn. lra.
Defined.

Lemma sum_perm l l' : Permutation l l' -> Np.sum l = Np.sum l'.
Proof.
  induction 1 as [|x l l' _ IH|x y l|l l' l'' _ IH1 _ IH2];
    cbn [Np.sum fold_right] in *.
  - reflexivity.
  - fold (Np.sum l) (Np.sum l'). rewrite IH. reflexivity.
  - ring.
  - congruence.
Qed.

Lemma pymax_perm l l' : Permutation l l' -> pymax l = pymax l'.
Proof.
  intros P. destruct l as [|x l].
  - apply Permutation_nil in P. subst l'. reflexivity.
  - assert (N' : l' <> [])
      by (intros ->; apply Permutation_sym, Permutation_nil in P; discriminate).
    destruct (pymax_spec (x :: l)) as [I U]; [discriminate|].
    destruct (pymax_spec l' N') as [I' U'].
    apply Rle_antisym.
    + apply U'. apply (Permutation_in _ P). exact I.
    + apply U. apply (Permutation_in _ (Permutation_sym P)). exact I'.
Qed.

Lemma pymin_perm l l' : Permutation l l' -> pymin l = pymin l'.
Proof.
  intros P. destruct l as [|x l].
  - apply Permutation_nil in P. subst l'. reflexivity.
  - assert (N' : l' <> [])
      by (intros ->; apply Permutation_sym, Permutation_nil in P; discriminate).
    destruct (pymin_spec (x :: l)) as [I U]; [discriminate|].
    destruct (pymin_spec l' N') as [I' U'].
    apply Rle_antisym.
    + apply U. apply (Permutation_in _ (Permutation_sym P)). exact I'.
    + apply U'. apply (Permutation_in _ P). exact I.
Qed.

Lemma mean_perm l l' : Permutation l l' -> Np.mean l = Np.mean l'.
Proof.
  intros P. unfold Np.mean.
  rewrite (sum_perm _ _ P), (Permutation_length P). reflexivity.
Qed.

Lemma std_perm l l' : Permutation l l' -> Np.std l = Np.std l'.
Proof.
  intros P. unfold Np.std. rewrite (mean_perm _ _ P). f_equal.
  apply mean_perm. apply Permutation_map. exact P.
Qed.

Lemma present_intensities_perm l l' :
  Permutation l l' ->
  Permutation (present_intensities l) (present_intensities l').
Proof.
  induction 1 as [|p l l' _ IH|p q l|l l' l'' _ IH1 _ IH2];
    cbn [present_intensities].
  - constructor.
  - destruct (ProfilePoint.intensity p); [apply perm_skip|]; exact IH.
  - destruct (ProfilePoint.intensity p), (ProfilePoint.intensity q);
      try reflexivity. apply perm_swap.
  - eapply Permutation_trans; eassumption.
Qed.

Lemma if_nonempty_perm l l' v v' :
  Permutation l l' -> v = v' -> if_nonempty l v = if_nonempty l' v'.
Proof.
  intros P ->. destruct l as [|x l].
  - apply Permutation_nil in P. subst l'. reflexivity.
  - destruct l' as [|x' l']; [|reflexivity].
    apply Permutation_sym, Permutation_nil in P. discriminate.
Qed.

Lemma compute_basic_statistics_perm l l' :
  Permutation l l' -> compute_basic_statistics l = compute_basic_statistics l'.
Proof.
  intros P. unfold compute_basic_statistics.
  pose proof (Permutation_map ProfilePoint.z P) as Pz.
  pose proof (Permutation_map ProfilePoint.distance P) as Pd.
  pose proof (present_intensities_perm _ _ P) as Pi.
  pose proof (Permutation_length P) as Len.
  destruct l as [|p l].
  - apply Permutation_nil in P. subst l'. reflexivity.
  - destruct l' as [|p' l'];
      [apply Permutation_sym, Permutation_nil in P; discriminate|].
    rewrite Len.
    rewrite (if_nonempty_perm _ _ _ _ Pd
               (f_equal2 Rminus (pymax_perm _ _ Pd) (pymin_perm _ _ Pd))).
    rewrite (if_nonempty_perm _ _ _ _ Pz (pymin_perm _ _ Pz)).
    rewrite (if_nonempty_perm _ _ _ _ Pz (pymax_perm _ _ Pz)).
    rewrite (if_nonempty_perm _ _ _ _ Pz (mean_perm _ _ Pz)).
    rewrite (if_nonempty_perm _ _ _ _ Pz (std_perm _ _ Pz)).
    rewrite (if_nonempty_perm _ _ _ _ Pz
               (f_equal2 Rminus (pymax_perm _ _ Pz) (pymin_perm _ _ Pz))).
    rewrite (pymin_perm _ _ Pi), (pymax_perm _ _ Pi), (mean_perm _ _ Pi),
      (std_perm _ _ Pi).
    destruct (present_intensities (p :: l)) as [|i t].
    + apply Permutation_nil in Pi. rewrite Pi. reflexivity.
    + destruct (present_intensities (p' :: l')) as [|i' t'];
        [apply Permutation_sym, Permutation_nil in Pi; discriminate|].
      reflexivity.
Qed.

(** X22. The order of the profile points does not bear on the number of
    points, on the profile length, on the least and the greatest elevation
    and their difference, nor on the presence of the intensity group and
    its least and greatest intensity: computed on the points as
    [analyze_points] leaves them, sorted by distance, these are what they
    are on the points as they were extracted.  (The means and the
    standard deviations are sums taken in the order of the points and are
    left out.) *)
Theorem basic_statistics_unordered view self :
  let before := compute_basic_statistics (profile_points self) in
  let after :=
    compute_basic_statistics
      (profile_points (fst (analyze_points view self))) in
  dict_get "point_count" after = dict_get "point_count" before /\
  dict_get "profile_length" after = dict_get "profile_length" before /\
  (forall key, In key ["min"; "max"; "range"]%string ->
     dict_get_in "elevation_stats" key after
     = dict_get_in "elevation_stats" key before) /\
  dict_has "intensity_stats" after = dict_has "intensity_stats" before /\
  (forall key, In key ["min"; "max"]%string ->
     dict_get_in "intensity_stats" key after
     = dict_get_in "intensity_stats" key before).
Proof.
  cbn zeta. rewrite analyze_points_sorts.
  rewrite <- (compute_basic_statistics_perm _ _
                (sort_by_distance_perm (profile_points self))).
  repeat split.
Qed.
